(** * A shallow embedding of the multi-agent runtime (Python) and its checked properties

    The development follows the layout of the repository:

    - [Py]          : the fragment of Python data the code manipulates
                      (strings, ints, JSON-like values, dicts, exceptions);
    - [LLMClient]   : [lambda/layers/common/python/llm_client.py];
    - [Runtime]     : the world the agents act on (object store, state table,
                      event bus, queue, object heap) and the monad the code
                      runs in;
    - [S3Client]    : the artifact-store client of [agent_utils.py];
    - [AgentBase]   : [agent_base.py];
    - [Agents]      : the eight domain agents under [lambda/action_group];
    - [CfnEventParser] : [lambda/action_group/aws/cfn-event-parser/index.py];
    - [Listing]     : [S3Client.list_artifacts];
    - [Lambda]      : the [handler] entry points of the domain agents.

    Definitions come first, the theorems about them afterwards. *)

From Stdlib Require Import ZArith List String Ascii Bool Lia DecimalString DecimalPos QArith.
Import ListNotations.
Close Scope Q_scope.
Open Scope string_scope.
Open Scope list_scope.

Set Implicit Arguments.
#[local] Set Warnings "-register-all".

(* ================================================================== *)
(** ** Python data *)
(* ================================================================== *)

Module Py.

(** The line feed, written [\n] in the Python source. *)
Definition LF : string := String (ascii_of_nat 10) "".

(** *** Strings *)

(** White space as [str.isspace] has it on ASCII. *)
Definition is_space (c : ascii) : bool :=
  let n := nat_of_ascii c in
  (n =? 32)%nat || ((9 <=? n)%nat && (n <=? 13)%nat)
  || ((28 <=? n)%nat && (n <=? 31)%nat).

Definition is_digit (c : ascii) : bool :=
  let n := nat_of_ascii c in (48 <=? n)%nat && (n <=? 57)%nat.

Fixpoint lstrip (s : string) : string :=
  match s with
  | String c r => if is_space c then lstrip r else s
  | "" => ""
  end.

Fixpoint rstrip (s : string) : string :=
  match s with
  | "" => ""
  | String c r =>
      match rstrip r with
      | "" => if is_space c then "" else String c ""
      | r' => String c r'
      end
  end.

(** [s.strip()]. *)
Definition strip (s : string) : string := rstrip (lstrip s).

(** [sub in s]. *)
Fixpoint contains (sub s : string) : bool :=
  prefix sub s ||
  match s with
  | "" => false
  | String _ r => contains sub r
  end.

(** [s.split(c)] for a one-character separator: never empty. *)
Fixpoint split (c : ascii) (s : string) : list string :=
  match s with
  | "" => [""]
  | String a r =>
      if Ascii.eqb a c then "" :: split c r
      else match split c r with
           | w :: ws => String a w :: ws
           | [] => [String a ""]
           end
  end.

(** [s.replace(c, by)] for a one-character pattern. *)
Fixpoint replace (c : ascii) (by_ : string) (s : string) : string :=
  match s with
  | "" => ""
  | String a r =>
      if Ascii.eqb a c then by_ ++ replace c by_ r
      else String a (replace c by_ r)
  end.

(** [l[-1]]. *)
Fixpoint last_item (l : list string) : option string :=
  match l with
  | [] => None
  | [x] => Some x
  | _ :: r => last_item r
  end.

(** [c in s] for a character. *)
Fixpoint has_char (c : ascii) (s : string) : bool :=
  match s with
  | "" => false
  | String a r => Ascii.eqb a c || has_char c r
  end.

(** *** Integers *)

Fixpoint digits_val (acc : Z) (s : string) : option Z :=
  match s with
  | "" => Some acc
  | String c r =>
      if is_digit c
      then digits_val (10 * acc + (Z.of_nat (nat_of_ascii c) - 48))%Z r
      else None
  end.

Definition unsigned_val (s : string) : option Z :=
  match s with
  | "" => None
  | _ => digits_val 0%Z s
  end.

(** [int(s)] on ASCII input: surrounding white space, an optional sign,
    decimal digits. [None] stands for [ValueError]. *)
Definition int_of_str (s : string) : option Z :=
  match strip s with
  | String "-" r => option_map Z.opp (unsigned_val r)
  | String "+" r => unsigned_val r
  | t => unsigned_val t
  end.

(** [str(n)] and [f"{n}"] for an int. *)
Definition str_of_int (n : Z) : string :=
  NilZero.string_of_int (Z.to_int n).

(** Two-digit, zero-padded rendering ([%m]). *)
Definition pad2 (n : Z) : string :=
  if (n <? 10)%Z then "0" ++ str_of_int n else str_of_int n.

(** [len(s)] for a [str] is its number of code points. A [string] holds the
    UTF-8 encoding of the text, in which every code point has exactly one
    byte that is not a continuation byte ([10xxxxxx]). *)
Definition is_continuation (c : ascii) : bool :=
  let n := nat_of_ascii c in (128 <=? n)%nat && (n <? 192)%nat.

Fixpoint str_len (s : string) : nat :=
  match s with
  | "" => 0%nat
  | String c r => if is_continuation c then str_len r else S (str_len r)
  end.

(** *** JSON-like values *)

Inductive pyval : Type :=
| PNone
| PBool (b : bool)
| PInt (n : Z)
| PFloat (q : Q)
| PStr (s : string)
| PList (l : list pyval)
| PDict (d : list (string * pyval)).

(** A [dict] with string keys, in insertion order. *)
Definition dict := list (string * pyval).

(** Python truthiness ([if not x]). *)
Definition truthy (v : pyval) : bool :=
  match v with
  | PNone => false
  | PBool b => b
  | PInt n => negb (n =? 0)%Z
  | PFloat q => negb (Qeq_bool q 0)
  | PStr s => negb (s =? "")
  | PList l => match l with [] => false | _ => true end
  | PDict d => match d with [] => false | _ => true end
  end.

Section Dict.
Variable V : Type.

(** [d.get(k)]. *)
Fixpoint get (d : list (string * V)) (k : string) : option V :=
  match d with
  | [] => None
  | (k', v) :: r => if k' =? k then Some v else get r k
  end.

(** [d.get(k, dflt)]. *)
Definition get_or (d : list (string * V)) (k : string) (dflt : V) : V :=
  match get d k with
  | Some v => v
  | None => dflt
  end.

(** [k in d]. *)
Definition has_key (d : list (string * V)) (k : string) : bool :=
  match get d k with
  | Some _ => true
  | None => false
  end.

(** [d[k] = v]: an existing key keeps its position, a new key goes last. *)
Fixpoint set (d : list (string * V)) (k : string) (v : V) : list (string * V) :=
  match d with
  | [] => [(k, v)]
  | (k', v') :: r => if k' =? k then (k', v) :: r else (k', v') :: set r k v
  end.
End Dict.

(** [l.insert(i, x)]. *)
Definition list_insert (A : Type) (i : nat) (x : A) (l : list A) : list A :=
  firstn i l ++ x :: skipn i l.

(** *** Exceptions *)

Inductive exn_kind : Type :=
| ValueError | TypeError | IndexError | KeyError | AttributeError
| ServiceError (* an error raised by a backing service (botocore) *).

Record exn : Type := mkExn { ekind : exn_kind; emsg : string }.

Inductive res (A : Type) : Type :=
| Ok (a : A)
| Raise (e : exn).

Arguments Ok {A} a.
Arguments Raise {A} e.

End Py.

Import Py.

(* ================================================================== *)
(** ** llm_client.py *)
(* ================================================================== *)

Module LLMClient.

(** A message is a [Dict[str, str]] with the keys [role] and [content]. *)
Definition message := list (string * string).

Definition mk (r c : string) : message := [("role", r); ("content", c)].

Definition role (m : message) : option string := get m "role".

Definition role_is (m : message) (r : string) : bool :=
  match role m with
  | Some r' => r' =? r
  | None => false
  end.

Definition same_role (a b : message) : bool :=
  match role a, role b with
  | Some x, Some y => x =? y
  | None, None => true
  | _, _ => false
  end.

(** Lines 76-83: the first loop collects the system messages. *)
Definition has_system (messages : list message) : bool :=
  existsb (fun m => role_is m "system") messages.

Fixpoint system_content (messages : list message) : string :=
  match messages with
  | [] => ""
  | m :: r =>
      if role_is m "system"
      then get_or m "content" "" ++ LF ++ LF ++ system_content r
      else system_content r
  end.

(** Lines 86-99: the second loop, [for i, msg in enumerate(messages)];
    [i] is the index of [msg] in the list the caller passed. *)
Fixpoint build_valid (hs : bool) (sc : string) (i : nat) (messages : list message)
  : list message :=
  match messages with
  | [] => []
  | m :: r =>
      let rest := build_valid hs sc (S i) r in
      if role_is m "system" then rest
      else if role_is m "user" then
        (if (i =? 0)%nat && hs
         then mk "user" (sc ++ LF ++ LF ++ get_or m "content" "")
         else m) :: rest
      else if role_is m "assistant" then m :: rest
      else rest
  end.

Definition valid_messages (messages : list message) : list message :=
  build_valid (has_system messages) (system_content messages) 0 messages.

Definition bridge_assistant : message := mk "assistant" "I understand. Please continue.".
Definition bridge_user : message := mk "user" "Please continue.".

(** Lines 107-123: the body of [for i in range(1, len(valid_messages))],
    on the list as it stands when the iteration runs. *)
Definition alternate_step (vm : list message) (i : nat) : list message :=
  match nth_error vm i, nth_error vm (i - 1) with
  | Some cur, Some prev =>
      if same_role cur prev then
        if (i =? List.length vm - 1)%nat && role_is cur "user" then vm
        else if role_is cur "user" then list_insert i bridge_assistant vm
        else list_insert i bridge_user vm
      else vm
  | _, _ => vm
  end.

(** Lines 106-123: the range is computed once, from the length the list has
    when the loop starts; the insertions do not extend it. *)
Definition alternate (vm : list message) : list message :=
  fold_left alternate_step (seq 1 (List.length vm - 1)) vm.

(** Lines 74-131: the [messages] field of the request body. *)
Definition request_messages (messages : list message) : res (list message) :=
  match valid_messages messages with
  | [] => Raise (mkExn ValueError "No valid messages provided")
  | vm => Ok (alternate vm)
  end.

(** No two neighbours of the list share a role. *)
Fixpoint alternating (l : list message) : bool :=
  match l with
  | a :: (b :: _) as r => negb (same_role a b) && alternating r
  | _ => true
  end.

(** As [alternating], but the last message may repeat the role [user] of the
    one before it. *)
Fixpoint alternating_upto_last_user (l : list message) : bool :=
  match l with
  | a :: (b :: r') as r =>
      match r' with
      | [] => negb (same_role a b) || role_is b "user"
      | _ => negb (same_role a b) && alternating_upto_last_user r
      end
  | _ => true
  end.

End LLMClient.

(* ================================================================== *)
(** ** The world the agents run in *)
(* ================================================================== *)

Module Runtime.

Import LLMClient.

(** The fields of a [datetime] that the code reads ([%Y], [%m]). *)
Record datetime : Type := mkDate { year : Z; month : Z; day : Z }.

(** What the code obtains from outside: identifiers, clocks, the model, the
    failures of the backing services, and the pure helpers whose text does not
    matter here.  Calls are numbered by [tick], so that an oracle may answer
    differently each time. *)
Record Env : Type := mkEnv {
  bucket_name : string;
  uuid4 : nat -> string;                  (* str(uuid.uuid4()) *)
  utcnow_iso : nat -> string;             (* datetime.utcnow().isoformat() *)
  now : nat -> datetime;                  (* datetime.now() *)
  fromisoformat : string -> option datetime;
    (* datetime.fromisoformat, as the interpreter in use has it; None: ValueError *)
  fault : nat -> option exn;              (* the error, if any, of service call n *)
  invoke_model : nat -> list message -> pyval;  (* parsed body of the model's answer *)
  json_dumps : pyval -> string;
  json_loads : string -> option pyval;
  repr : pyval -> string;                 (* str() of a float, list or dict *)
  prompt : string -> list pyval -> res (list message);  (* an operation's prompt *)
  parse_stub : string -> list pyval -> res pyval  (* the _parse_* helpers *)
}.

Record State : Type := mkState {
  tick : nat;  (* oracle and service calls made so far *)
  heap : list dict;  (* Python dict objects, addressed by position *)
  objects : list (string * pyval);  (* artifact bucket: key and JSON body, in key order *)
  items : list dict;  (* state table *)
  published : list (string * string * dict);  (* event bus entries: Source, DetailType, Detail *)
  sent : list dict;  (* queue message bodies *)
  agent_id : pyval;  (* self.agent_id *)
  agent_type : pyval;  (* self.agent_type *)
  created_at : pyval;  (* self.created_at *)
  state : pyval;  (* self.state *)
  memory : pyval;  (* self.memory *)
  has_state_db : bool;  (* hasattr(self, 'state_db') *)
  has_artifacts : bool;  (* hasattr(self, 'artifacts') *)
  has_queue : bool;  (* hasattr(self, 'queue') *)
  has_events : bool  (* hasattr(self, 'events') *)
}.

Definition set_tick (x : nat) (s : State) : State :=
  mkState x (heap s) (objects s) (items s) (published s) (sent s)
          (agent_id s) (agent_type s) (created_at s) (state s) (memory s)
          (has_state_db s) (has_artifacts s) (has_queue s) (has_events s).

Definition set_heap (x : list dict) (s : State) : State :=
  mkState (tick s) x (objects s) (items s) (published s) (sent s)
          (agent_id s) (agent_type s) (created_at s) (state s) (memory s)
          (has_state_db s) (has_artifacts s) (has_queue s) (has_events s).

Definition set_objects (x : list (string * pyval)) (s : State) : State :=
  mkState (tick s) (heap s) x (items s) (published s) (sent s)
          (agent_id s) (agent_type s) (created_at s) (state s) (memory s)
          (has_state_db s) (has_artifacts s) (has_queue s) (has_events s).

Definition set_items (x : list dict) (s : State) : State :=
  mkState (tick s) (heap s) (objects s) x (published s) (sent s)
          (agent_id s) (agent_type s) (created_at s) (state s) (memory s)
          (has_state_db s) (has_artifacts s) (has_queue s) (has_events s).

Definition set_published (x : list (string * string * dict)) (s : State) : State :=
  mkState (tick s) (heap s) (objects s) (items s) x (sent s)
          (agent_id s) (agent_type s) (created_at s) (state s) (memory s)
          (has_state_db s) (has_artifacts s) (has_queue s) (has_events s).

Definition set_sent (x : list dict) (s : State) : State :=
  mkState (tick s) (heap s) (objects s) (items s) (published s) x
          (agent_id s) (agent_type s) (created_at s) (state s) (memory s)
          (has_state_db s) (has_artifacts s) (has_queue s) (has_events s).

Definition set_agent_type (x : pyval) (s : State) : State :=
  mkState (tick s) (heap s) (objects s) (items s) (published s) (sent s)
          (agent_id s) x (created_at s) (state s) (memory s)
          (has_state_db s) (has_artifacts s) (has_queue s) (has_events s).

Definition set_created_at (x : pyval) (s : State) : State :=
  mkState (tick s) (heap s) (objects s) (items s) (published s) (sent s)
          (agent_id s) (agent_type s) x (state s) (memory s)
          (has_state_db s) (has_artifacts s) (has_queue s) (has_events s).

Definition set_state (x : pyval) (s : State) : State :=
  mkState (tick s) (heap s) (objects s) (items s) (published s) (sent s)
          (agent_id s) (agent_type s) (created_at s) x (memory s)
          (has_state_db s) (has_artifacts s) (has_queue s) (has_events s).

Definition set_memory (x : pyval) (s : State) : State :=
  mkState (tick s) (heap s) (objects s) (items s) (published s) (sent s)
          (agent_id s) (agent_type s) (created_at s) (state s) x
          (has_state_db s) (has_artifacts s) (has_queue s) (has_events s).

(** Code runs in a state-and-exception monad: a raised exception keeps the
    mutations made before it. *)
Definition M (A : Type) : Type := State -> res A * State.

Definition ret {A : Type} (a : A) : M A := fun s => (Ok a, s).

Definition raise {A : Type} (k : exn_kind) (msg : string) : M A :=
  fun s => (Raise (mkExn k msg), s).

Definition reraise {A : Type} (e : exn) : M A := fun s => (Raise e, s).

Definition bind {A B : Type} (c : M A) (k : A -> M B) : M B :=
  fun s =>
    match c s with
    | (Ok a, s') => k a s'
    | (Raise e, s') => (Raise e, s')
    end.

(** [try: c  except Exception as e: h e]. *)
Definition try_except {A : Type} (c : M A) (h : exn -> M A) : M A :=
  fun s =>
    match c s with
    | (Ok a, s') => (Ok a, s')
    | (Raise e, s') => h e s'
    end.

(** [try: c  except (ValueError, TypeError) ...]: only the kinds [p] accepts. *)
Definition try_except_of {A : Type} (p : exn_kind -> bool) (c : M A) (h : exn -> M A)
  : M A :=
  fun s =>
    match c s with
    | (Ok a, s') => (Ok a, s')
    | (Raise e, s') => if p (ekind e) then h e s' else (Raise e, s')
    end.

Definition gets {A : Type} (f : State -> A) : M A := fun s => (Ok (f s), s).

Definition modify (f : State -> State) : M unit := fun s => (Ok tt, f s).

Definition lift {A : Type} (r : res A) : M A := fun s => (r, s).

Declare Scope monad_scope.
Delimit Scope monad_scope with monad.
Notation "x <- c ;; k" := (bind c (fun x => k))
  (at level 61, c at next level, right associativity) : monad_scope.
Notation "c ;; k" := (bind c (fun _ => k))
  (at level 61, right associativity) : monad_scope.
Open Scope monad_scope.

Section WithEnv.
Variable env : Env.

(** One question to an oracle: answer by the current [tick], then advance. *)
Definition ask {A : Type} (f : nat -> A) : M A :=
  fun s => (Ok (f (tick s)), set_tick (S (tick s)) s).

(** A call to a backing service: it fails when the environment says so. *)
Definition service_call : M unit :=
  fun s =>
    match fault env (tick s) with
    | Some e => (Raise e, set_tick (S (tick s)) s)
    | None => (Ok tt, set_tick (S (tick s)) s)
    end.

(** [str(v)], as an f-string renders a value. *)
Definition str (v : pyval) : string :=
  match v with
  | PStr s => s
  | PInt n => str_of_int n
  | PNone => "None"
  | PBool true => "True"
  | PBool false => "False"
  | _ => repr env v
  end.

(** [v.get(k, dflt)] on a value that should be a dict. *)
Definition dict_get (v : pyval) (k : string) (dflt : pyval) : M pyval :=
  match v with
  | PDict d => ret (get_or d k dflt)
  | _ => raise AttributeError "object has no attribute 'get'"
  end.

(** *** The object heap *)

Definition alloc (d : dict) : M nat :=
  fun s => (Ok (List.length (heap s)), set_heap (heap s ++ [d]) s).

Definition deref (l : nat) : M dict :=
  fun s => (Ok (nth l (heap s) []), s).

Fixpoint list_set {A : Type} (l : list A) (i : nat) (x : A) : list A :=
  match l, i with
  | [], _ => []
  | _ :: r, O => x :: r
  | a :: r, S j => a :: list_set r j x
  end.

(** [obj[k] = v] on the dict object at [l]. *)
Definition setitem (l : nat) (k : string) (v : pyval) : M unit :=
  modify (fun s => set_heap (list_set (heap s) l (set (nth l (heap s) []) k v)) s).

End WithEnv.

End Runtime.

Import Runtime.

(* ================================================================== *)
(** ** agent_utils.py: the artifact-store client *)
(* ================================================================== *)

Module S3Client.

(** [dt.strftime('%Y')] and [dt.strftime('%m')]. The C library of the
    platform (Linux) prints the year in decimal without padding, and the
    month in two digits. *)
Definition strftime_Y (dt : datetime) : string := str_of_int (year dt).
Definition strftime_m (dt : datetime) : string := pad2 (month dt).

(** *** The bucket *)

(** [put_object]: the body at [k] is replaced, a new key is listed in key order. *)
Fixpoint put_object (objs : list (string * pyval)) (k : string) (v : pyval)
  : list (string * pyval) :=
  match objs with
  | [] => [(k, v)]
  | (k', v') :: r =>
      if k' =? k then (k, v) :: r
      else if String.ltb k k' then (k, v) :: (k', v') :: r
      else (k', v') :: put_object r k v
  end.

Definition keys_with_prefix (p : string) (objs : list (string * pyval)) : list string :=
  filter (prefix p) (map fst objs).

(** [key.split('/')[-1]]. *)
Definition filename_of (key : string) : string :=
  match last_item (split "/" key) with
  | Some f => f
  | None => ""
  end.

(** [int(filename.split('_')[1])], [None] on [IndexError] or [ValueError]. *)
Definition seq_of_filename (filename : string) : option Z :=
  match nth_error (split "_" filename) 1 with
  | Some seq_str => int_of_str seq_str
  | None => None
  end.

(** Lines 113-125: the loop that computes [max_seq]. *)
Fixpoint max_seq_from (max_seq : Z) (keys : list string) : Z :=
  match keys with
  | [] => max_seq
  | key :: r =>
      let filename := filename_of key in
      if prefix "seq_" filename then
        match seq_of_filename filename with
        | Some seq_num => max_seq_from (Z.max max_seq seq_num) r
        | None => max_seq_from max_seq r
        end
      else max_seq_from max_seq r
  end.

(** Lines 292-302: the loop that collects [matching_keys]. *)
Fixpoint matching_keys (artifact_id : string) (keys : list string) : list (Z * string) :=
  match keys with
  | [] => []
  | key :: r =>
      let filename := filename_of key in
      if contains ("_" ++ artifact_id ++ ".json") filename then
        match seq_of_filename filename with
        | Some seq_num => (seq_num, key) :: matching_keys artifact_id r
        | None => matching_keys artifact_id r
        end
      else matching_keys artifact_id r
  end.

(** The order of Python tuples [(int, str)]. *)
Definition tuple_ltb (a b : Z * string) : bool :=
  (fst a <? fst b)%Z || ((fst a =? fst b)%Z && String.ltb (snd a) (snd b)).

(** [matching_keys.sort(reverse=True); matching_keys[0]]: the greatest tuple. *)
Fixpoint greatest (l : list (Z * string)) : option (Z * string) :=
  match l with
  | [] => None
  | x :: r =>
      match greatest r with
      | None => Some x
      | Some y => if tuple_ltb x y then Some y else Some x
      end
  end.

(** What [upload_artifact] returns. *)
Record upload_result : Type := mkUpload {
  response : pyval;
  s3_key : string;
  bucket : string;
  sequence_number : Z
}.

Section WithEnv.
Variable env : Env.

(** [s3.list_objects_v2(Bucket, Prefix, MaxKeys)]: one page of keys, a
    thousand at most. *)
Definition list_objects_v2 (p : string) (max_keys : option nat) : M (list string) :=
  service_call env ;;
  objs <- gets objects ;;
  ret (firstn (match max_keys with Some n => Nat.min n 1000 | None => 1000%nat end)
              (keys_with_prefix p objs)).

Definition artifact_prefix (dt : datetime) (project_id agent_type artifact_type : string)
  : string :=
  "projects/" ++ strftime_Y dt ++ "/" ++ strftime_m dt ++ "/" ++ project_id ++ "/"
    ++ agent_type ++ "/" ++ artifact_type ++ "/".

(** [S3Client._get_artifact_sequence_number]. *)
Definition get_artifact_sequence_number (project_id agent_type artifact_type : string)
  : M Z :=
  try_except
    (dt <- ask (now env) ;;
     let p := artifact_prefix dt project_id agent_type artifact_type in
     keys <- list_objects_v2 p (Some 1000%nat) ;;
     ret (max_seq_from 0 keys + 1)%Z)
    (fun _ => ret 1%Z).

(** The [datetime] a truthy [timestamp] denotes, lines 153-161 and 272-275:
    the current time stands in for a string that [datetime.fromisoformat]
    does not parse, and a value that is no string has no [replace]. *)
Definition datetime_of (timestamp : pyval) : M datetime :=
  match timestamp with
  | PStr ts =>
      match fromisoformat env (replace "Z" "+00:00" ts) with
      | Some dt => ret dt
      | None => ask (now env)
      end
  | _ => raise AttributeError "object has no attribute 'replace'"
  end.

(** [S3Client._format_path]. A missing [timestamp] is replaced by
    [datetime.now().isoformat()], which parses back to the same date. *)
Definition format_path (project_id agent_type artifact_type artifact_id : string)
           (timestamp : pyval) (sequence_number : Z) : M string :=
  dt <- (if negb (truthy timestamp) then ask (now env) else datetime_of timestamp) ;;
  let sequence_number := if (sequence_number <? 1)%Z then 1%Z else sequence_number in
  ret ("projects/" ++ strftime_Y dt ++ "/" ++ strftime_m dt ++ "/" ++ project_id ++ "/"
         ++ agent_type ++ "/" ++ artifact_type ++ "/seq_"
         ++ str_of_int sequence_number ++ "_" ++ artifact_id ++ ".json")%string.

(** [S3Client.upload_json]: the body stored is the document as it is now. *)
Definition upload_json (data : dict) (object_key : string) : M pyval :=
  service_call env ;;
  modify (fun s => set_objects (put_object (objects s) object_key (PDict data)) s) ;;
  ret (PDict []).

(** [S3Client.upload_artifact]; [data] is a reference to the caller's dict. *)
Definition upload_artifact (data : nat) (project_id agent_type artifact_type
                            artifact_id : string) (timestamp : pyval)
  : M upload_result :=
  sequence_number <- get_artifact_sequence_number project_id agent_type artifact_type ;;
  object_key <- format_path project_id agent_type artifact_type artifact_id
                            timestamp sequence_number ;;
  setitem data "sequence_number" (PInt sequence_number) ;;
  d <- deref data ;;
  response <- upload_json d object_key ;;
  ret (mkUpload response object_key (bucket_name env) sequence_number).

(** [S3Client.download_json]: the handler logs and raises again. *)
Definition download_json (object_key : string) : M pyval :=
  try_except
    (service_call env ;;
     objs <- gets objects ;;
     match get objs object_key with
     | Some body => ret body
     | None => raise ServiceError "NoSuchKey"
     end)
    (fun e => reraise e).

(** [S3Client.download_artifact]. The [try] block either returns a document
    ([Some]) or leaves [sequence_number = 1] for the code after it ([None]). *)
Definition download_artifact (project_id agent_type artifact_type artifact_id : string)
           (timestamp : pyval) : M pyval :=
  found <- try_except
    (dt <- (if truthy timestamp then datetime_of timestamp else ask (now env)) ;;
     let p := artifact_prefix dt project_id agent_type artifact_type in
     keys <- list_objects_v2 p None ;;
     match greatest (matching_keys artifact_id keys) with
     | Some (_, object_key) => d <- download_json object_key ;; ret (Some d)
     | None => ret None
     end)
    (fun _ => ret None) ;;
  match found with
  | Some d => ret d
  | None =>
      object_key <- format_path project_id agent_type artifact_type artifact_id
                                timestamp 1 ;;
      download_json object_key
  end.

End WithEnv.

End S3Client.

(* ================================================================== *)
(** ** agent_base.py *)
(* ================================================================== *)

Module AgentBase.

Import LLMClient S3Client.

(** The key of a state record. *)
Definition same_key (a b : dict) : bool :=
  match get a "agentId", get b "agentId", get a "stateId", get b "stateId" with
  | Some (PStr x), Some (PStr y), Some (PStr u), Some (PStr v) => (x =? y) && (u =? v)
  | _, _, _, _ => false
  end.

(** [table.put_item]: the record with the same key is replaced. *)
Fixpoint put_record (tbl : list dict) (item : dict) : list dict :=
  match tbl with
  | [] => [item]
  | it :: r => if same_key it item then item :: r else it :: put_record r item
  end.

Definition str_field (d : dict) (k : string) : string :=
  match get d k with
  | Some (PStr s) => s
  | _ => ""
  end.

(** The record of an agent with the greatest [stateId]
    ([ScanIndexForward=False, Limit=1]). *)
Fixpoint latest_record (agent : string) (tbl : list dict) : option dict :=
  match tbl with
  | [] => None
  | it :: r =>
      if str_field it "agentId" =? agent then
        match latest_record agent r with
        | Some best =>
            if String.ltb (str_field it "stateId") (str_field best "stateId")
            then Some best else Some it
        | None => Some it
        end
      else latest_record agent r
  end.

Section WithEnv.
Variable env : Env.

(** [DynamoDBClient.put_item]. *)
Definition put_item (item : dict) : M pyval :=
  service_call env ;;
  modify (fun s => set_items (put_record (items s) item) s) ;;
  ret (PDict []).

(** [DynamoDBClient.get_item]. *)
Definition get_item (key : dict) : M (option dict) :=
  service_call env ;;
  tbl <- gets items ;;
  ret (find (fun it => same_key it key) tbl).

(** [DynamoDBClient.query], as [load_state] calls it. *)
Definition query_latest (agent : pyval) : M (list dict) :=
  service_call env ;;
  tbl <- gets items ;;
  ret (match latest_record (str env agent) tbl with
       | Some it => [it]
       | None => []
       end).

(** [Agent.save_state]. *)
Definition save_state : M pyval :=
  bound <- gets has_state_db ;;
  if negb bound then ret (PDict [])
  else
    state_id <- ask (utcnow_iso env) ;;
    s <- gets (fun s => s) ;;
    updated_at <- ask (utcnow_iso env) ;;
    put_item [("agentId", agent_id s);
              ("stateId", PStr state_id);
              ("agentType", agent_type s);
              ("state", state s);
              ("memory", PStr (json_dumps env (memory s)));
              ("createdAt", created_at s);
              ("updatedAt", PStr updated_at)].

(** [json.loads(x)]: a [TypeError] for a value that is no string, a
    [ValueError] (JSONDecodeError) for text that is no JSON. *)
Definition loads (x : pyval) : M pyval :=
  match x with
  | PStr text =>
      match json_loads env text with
      | Some v => ret v
      | None => raise ValueError "JSONDecodeError"
      end
  | _ => raise TypeError "the JSON object must be str, bytes or bytearray"
  end.

(** [Agent.load_state]. *)
Definition load_state (state_id : pyval) : M bool :=
  bound <- gets has_state_db ;;
  if negb bound then ret false
  else
    try_except
      (item <- (if truthy state_id
                then me <- gets agent_id ;;
                     get_item [("agentId", me); ("stateId", state_id)]
                else me <- gets agent_id ;;
                     found <- query_latest me ;;
                     ret (match found with it :: _ => Some it | [] => None end)) ;;
       match item with
       | Some ((_ :: _) as it) =>
           modify (fun s => set_agent_type (get_or it "agentType" (agent_type s)) s) ;;
           modify (fun s => set_state (get_or it "state" (state s)) s) ;;
           mem <- loads (get_or it "memory" (PStr "[]")) ;;
           modify (set_memory mem) ;;
           modify (fun s => set_created_at (get_or it "createdAt" (created_at s)) s) ;;
           ret true
       | _ => ret false
       end)
      (fun _ => ret false).

(** [Agent.add_to_memory]: [self.memory.append(item)]. *)
Definition add_to_memory (item : pyval) : M unit :=
  mem <- gets memory ;;
  match mem with
  | PList l => modify (set_memory (PList (l ++ [item])))
  | _ => raise AttributeError "object has no attribute 'append'"
  end.

(** [Agent.send_message]. *)
Definition send_message (recipient_id : string) (content : dict) : M pyval :=
  bound <- gets has_queue ;;
  if negb bound then ret (PDict [])
  else
    me <- gets agent_id ;;
    ts <- ask (utcnow_iso env) ;;
    let message := [("sender_id", me);
                    ("recipient_id", PStr recipient_id);
                    ("content", PDict content);
                    ("timestamp", PStr ts)] in
    service_call env ;;
    modify (fun s => set_sent (sent s ++ [message]) s) ;;
    ret (PDict []).

(** [Agent.emit_event]. *)
Definition emit_event (detail_type : string) (detail : dict) : M pyval :=
  bound <- gets has_events ;;
  if negb bound then ret (PDict [])
  else
    me <- gets agent_id ;;
    ty <- gets agent_type ;;
    let detail := set (set detail "agent_id" me) "agent_type" ty in
    service_call env ;;
    modify (fun s => set_published
                       (published s ++ [(("agent." ++ str env ty)%string, detail_type, detail)])
                       s) ;;
    ret (PDict []).

(** [Agent.save_artifact]. *)
Definition save_artifact (content : pyval) (key : string) : M pyval :=
  bound <- gets has_artifacts ;;
  if negb bound then ret (PDict [])
  else
    match content with
    | PDict d => upload_json env d key
    | _ => upload_json env [("content", content)] key
    end.

(** Lines 148-151 of llm_client.py: the text blocks of the answer. *)
Fixpoint content_text (blocks : list pyval) : M string :=
  match blocks with
  | [] => ret ""
  | PDict b :: r =>
      match get b "type" with
      | Some (PStr "text") =>
          match get_or b "text" (PStr "") with
          | PStr t => rest <- content_text r ;; ret (t ++ rest)%string
          | _ => raise TypeError "can only concatenate str to str"
          end
      | _ => content_text r
      end
  | _ :: _ => raise AttributeError "object has no attribute 'get'"
  end.

(** [Agent.ask_llm], that is [LLMClient.invoke_llm]: normalise the messages,
    call the model, reduce its answer to [{'content': ...}]. *)
Definition ask_llm (messages : list message) : M dict :=
  vm <- lift (request_messages messages) ;;
  service_call env ;;
  answer <- ask (fun n => invoke_model env n vm) ;;
  match answer with
  | PDict body =>
      match get body "content" with
      | Some (PList blocks) => t <- content_text blocks ;; ret [("content", PStr t)]
      | Some c => ret [("content", c)]
      | None => ret [("content", PStr (str env answer))]
      end
  | _ => raise TypeError "response body is not an object"
  end.

(** [self.artifacts]: an unbound handle is a missing attribute. *)
Definition artifacts : M unit :=
  bound <- gets has_artifacts ;;
  if bound then ret tt
  else raise AttributeError "object has no attribute 'artifacts'".

End WithEnv.

End AgentBase.

(* ================================================================== *)
(** ** The domain agents *)
(* ================================================================== *)

(** The code blocks every agent operation repeats. *)
Module AgentOps.

Import LLMClient S3Client AgentBase.

(** [v == 'name']. *)
Definition is_str (v : pyval) (name : string) : bool :=
  match v with
  | PStr s => s =? name
  | _ => false
  end.

(** [{"status": "failed", "error": str(e)}]. *)
Definition failed (e : exn) : M pyval :=
  ret (PDict [("status", PStr "failed"); ("error", PStr (emsg e))]).

(** [if not v: raise ValueError(msg)]. *)
Definition require (v : pyval) (msg : string) : M unit :=
  if truthy v then ret tt else raise ValueError msg.

Section WithEnv.
Variable env : Env.

(** [input_data.get(k, str(uuid.uuid4()))]: the default is computed first. *)
Definition arg_uuid (input_data : dict) (k : string) : M pyval :=
  u <- ask (uuid4 env) ;;
  ret (get_or input_data k (PStr u)).

(** [input_data.get(k, datetime.utcnow().isoformat())]. *)
Definition arg_now (input_data : dict) (k : string) : M pyval :=
  t <- ask (utcnow_iso env) ;;
  ret (get_or input_data k (PStr t)).

(** [str(uuid.uuid4())]. *)
Definition new_id : M pyval :=
  u <- ask (uuid4 env) ;;
  ret (PStr u).

(** [self.artifacts.upload_artifact(data={...}, ...)]: the dict display is a
    new object, the identifiers are rendered into the key as text. *)
Definition upload (data : dict) (project_id : pyval) (agent_type artifact_type : string)
           (artifact_id timestamp : pyval) : M upload_result :=
  artifacts ;;
  d <- alloc data ;;
  upload_artifact env d (str env project_id) agent_type artifact_type
                  (str env artifact_id) timestamp.

(** The same with [artifact_id=str(uuid.uuid4())] among the arguments. *)
Definition upload_fresh (data : dict) (project_id : pyval)
           (agent_type artifact_type : string) (timestamp : pyval) : M upload_result :=
  artifacts ;;
  d <- alloc data ;;
  artifact_id <- new_id ;;
  upload_artifact env d (str env project_id) agent_type artifact_type
                  (str env artifact_id) timestamp.

(** [self.artifacts.download_artifact(...)]. *)
Definition download (project_id : pyval) (agent_type artifact_type : string)
           (artifact_id timestamp : pyval) : M pyval :=
  artifacts ;;
  download_artifact env (str env project_id) agent_type artifact_type
                    (str env artifact_id) timestamp.

(** An earlier artifact that may be missing:
    [x = ""; if x_id: try: x = download(...).get(field, '') except: warn]. *)
Definition load_optional (artifact_id project_id : pyval)
           (agent_type artifact_type field : string) (timestamp : pyval) : M pyval :=
  if truthy artifact_id then
    try_except
      (data <- download project_id agent_type artifact_type artifact_id timestamp ;;
       dict_get data field (PStr ""))
      (fun _ => ret (PStr ""))
  else ret (PStr "").

(** An earlier artifact that must be there: two of its fields, or
    [ValueError(f"Failed to load {what}: {str(e)}")]. *)
Definition load_required (what : string) (artifact_id project_id : pyval)
           (agent_type artifact_type field1 field2 : string) (default2 timestamp : pyval)
  : M (pyval * pyval) :=
  try_except
    (data <- download project_id agent_type artifact_type artifact_id timestamp ;;
     a <- dict_get data field1 (PStr "") ;;
     b <- dict_get data field2 default2 ;;
     ret (a, b))
    (fun e => raise ValueError ("Failed to load " ++ what ++ ": " ++ emsg e)%string).

End WithEnv.

End AgentOps.

Import LLMClient S3Client AgentBase AgentOps.

(** *** [lambda/action_group/bizdev/product-manager/index.py] *)

Module ProductManager.

Section WithEnv.
Variable env : Env.

(** [ProductManager.analyze_requirement]. *)
Definition analyze_requirement (input_data : dict) : M pyval :=
  let requirement := get_or input_data "requirement" (PStr "") in
  project_id <- arg_uuid env input_data "project_id" ;;
  timestamp <- arg_now env input_data "timestamp" ;;
  let user_id := get_or input_data "user_id" (PStr "default_user") in
  require requirement "Requirement is required" ;;
  try_except
    (messages <- lift (prompt env "analyze_requirement" [requirement]) ;;
     response <- ask_llm env messages ;;
     let analysis := get_or response "content" (PStr "") in
     analysis_id <- new_id env ;;
     artifact_data <- upload env
       [("project_id", project_id); ("requirement", requirement); ("analysis", analysis);
        ("user_id", user_id); ("created_at", timestamp)]
       project_id "product_manager" "analysis" analysis_id timestamp ;;
     let s3_key := PStr (S3Client.s3_key artifact_data) in
     add_to_memory
       (PDict [("type", PStr "analysis"); ("id", analysis_id); ("project_id", project_id);
               ("s3_key", s3_key); ("requirement", requirement);
               ("timestamp", timestamp)]) ;;
     modify (set_state (PStr "analysis_completed")) ;;
     save_state env ;;
     emit_event env "RequirementAnalysisCompleted"
       [("project_id", project_id); ("analysis_id", analysis_id);
        ("requirement", requirement); ("s3_key", s3_key)] ;;
     ret (PDict [("status", PStr "success"); ("project_id", project_id);
                 ("analysis_id", analysis_id); ("analysis", analysis);
                 ("s3_key", s3_key)]))
    failed.

(** [ProductManager.create_user_stories]. *)
Definition create_user_stories (input_data : dict) : M pyval :=
  let requirement := get_or input_data "requirement" (PStr "") in
  let analysis_id := get_or input_data "analysis_id" (PStr "") in
  project_id <- arg_uuid env input_data "project_id" ;;
  timestamp <- arg_now env input_data "timestamp" ;;
  let user_id := get_or input_data "user_id" (PStr "default_user") in
  require requirement "Requirement is required" ;;
  analysis <- load_optional env analysis_id project_id "product_manager" "analysis"
              "analysis" timestamp ;;
  messages <- lift (prompt env "create_user_stories" [requirement; analysis]) ;;
  response <- ask_llm env messages ;;
  let user_stories := get_or response "content" (PStr "") in
  stories_id <- new_id env ;;
  artifact_data <- upload env
    [("project_id", project_id); ("requirement", requirement);
     ("analysis_id", analysis_id); ("user_stories", user_stories); ("user_id", user_id);
     ("created_at", timestamp)]
    project_id "product_manager" "user_stories" stories_id timestamp ;;
  let s3_key := PStr (S3Client.s3_key artifact_data) in
  created_at <- arg_now env input_data "timestamp" ;;
  save_artifact env
    (PDict [("project_id", project_id); ("requirement", requirement);
            ("analysis_id", analysis_id); ("user_stories", user_stories);
            ("user_id", user_id); ("created_at", created_at)])
    (S3Client.s3_key artifact_data) ;;
  add_to_memory
    (PDict [("type", PStr "user_stories"); ("id", stories_id); ("project_id", project_id);
            ("s3_key", s3_key); ("requirement", requirement);
            ("timestamp", timestamp)]) ;;
  modify (set_state (PStr "user_stories_created")) ;;
  save_state env ;;
  emit_event env "UserStoriesCreated"
    [("project_id", project_id); ("stories_id", stories_id); ("requirement", requirement);
     ("s3_key", s3_key)] ;;
  send_message env "architect"
    [("type", PStr "user_stories_ready"); ("project_id", project_id);
     ("stories_id", stories_id); ("requirement", requirement); ("s3_key", s3_key)] ;;
  ret (PDict [("status", PStr "success"); ("project_id", project_id);
              ("stories_id", stories_id); ("user_stories", user_stories);
              ("s3_key", s3_key)]).

(** [ProductManager.create_competitive_analysis]. *)
Definition create_competitive_analysis (input_data : dict) : M pyval :=
  let requirement := get_or input_data "requirement" (PStr "") in
  project_id <- arg_uuid env input_data "project_id" ;;
  timestamp <- arg_now env input_data "timestamp" ;;
  let user_id := get_or input_data "user_id" (PStr "default_user") in
  require requirement "Requirement is required" ;;
  messages <- lift (prompt env "create_competitive_analysis" [requirement]) ;;
  response <- ask_llm env messages ;;
  let competitive_analysis := get_or response "content" (PStr "") in
  analysis_id <- new_id env ;;
  artifact_data <- upload env
    [("project_id", project_id); ("requirement", requirement);
     ("competitive_analysis", competitive_analysis); ("user_id", user_id);
     ("created_at", timestamp)]
    project_id "product_manager" "competitive_analysis" analysis_id timestamp ;;
  let s3_key := PStr (S3Client.s3_key artifact_data) in
  add_to_memory
    (PDict [("type", PStr "competitive_analysis"); ("id", analysis_id);
            ("project_id", project_id); ("s3_key", s3_key); ("requirement", requirement);
            ("timestamp", timestamp)]) ;;
  modify (set_state (PStr "competitive_analysis_created")) ;;
  save_state env ;;
  emit_event env "CompetitiveAnalysisCreated"
    [("project_id", project_id); ("analysis_id", analysis_id);
     ("requirement", requirement); ("s3_key", s3_key)] ;;
  ret (PDict [("status", PStr "success"); ("project_id", project_id);
              ("analysis_id", analysis_id); ("competitive_analysis", competitive_analysis);
              ("s3_key", s3_key)]).

(** [ProductManager.create_product_requirement_doc]. *)
Definition create_product_requirement_doc (input_data : dict) : M pyval :=
  let requirement := get_or input_data "requirement" (PStr "") in
  let stories_id := get_or input_data "stories_id" (PStr "") in
  let competitive_analysis_id := get_or input_data "competitive_analysis_id" (PStr "") in
  project_id <- arg_uuid env input_data "project_id" ;;
  timestamp <- arg_now env input_data "timestamp" ;;
  let user_id := get_or input_data "user_id" (PStr "default_user") in
  require requirement "Requirement is required" ;;
  user_stories <- load_optional env stories_id project_id "product_manager" "user_stories"
              "user_stories" timestamp ;;
  competitive_analysis <- load_optional env competitive_analysis_id project_id "product_manager" "competitive_analysis"
              "competitive_analysis" timestamp ;;
  messages <- lift (prompt env "create_product_requirement_doc" [requirement; user_stories;
                                                                 competitive_analysis]) ;;
  response <- ask_llm env messages ;;
  let prd := get_or response "content" (PStr "") in
  prd_id <- new_id env ;;
  artifact_data <- upload env
    [("project_id", project_id); ("requirement", requirement); ("stories_id", stories_id);
     ("competitive_analysis_id", competitive_analysis_id); ("prd", prd);
     ("user_id", user_id); ("created_at", timestamp)]
    project_id "product_manager" "prd" prd_id timestamp ;;
  let s3_key := PStr (S3Client.s3_key artifact_data) in
  add_to_memory
    (PDict [("type", PStr "prd"); ("id", prd_id); ("project_id", project_id);
            ("s3_key", s3_key); ("requirement", requirement);
            ("timestamp", timestamp)]) ;;
  modify (set_state (PStr "prd_created")) ;;
  save_state env ;;
  emit_event env "ProductRequirementDocCreated"
    [("project_id", project_id); ("prd_id", prd_id); ("requirement", requirement);
     ("s3_key", s3_key)] ;;
  send_message env "architect"
    [("type", PStr "prd_ready"); ("project_id", project_id); ("prd_id", prd_id);
     ("requirement", requirement); ("s3_key", s3_key)] ;;
  send_message env "project_manager"
    [("type", PStr "prd_ready"); ("project_id", project_id); ("prd_id", prd_id);
     ("requirement", requirement); ("s3_key", s3_key)] ;;
  ret (PDict [("status", PStr "success"); ("project_id", project_id); ("prd_id", prd_id);
              ("prd", prd); ("s3_key", s3_key)]).

(** [ProductManager.process]. *)
Definition process (input_data : dict) : M pyval :=
  let process_type := get_or input_data "process_type" (PStr "analyze_requirement") in
  try_except
   (if is_str process_type "analyze_requirement"
    then analyze_requirement input_data
    else if is_str process_type "create_user_stories"
    then create_user_stories input_data
    else if is_str process_type "create_competitive_analysis"
    then create_competitive_analysis input_data
    else if is_str process_type "create_product_requirement_doc"
    then create_product_requirement_doc input_data
    else raise ValueError ("Unknown process type: " ++ str env process_type)%string)
    failed.

End WithEnv.

End ProductManager.

(** *** [lambda/action_group/bizdev/architect/index.py] *)

Module Architect.

Section WithEnv.
Variable env : Env.

(** [Architect.create_architecture]. *)
Definition create_architecture (input_data : dict) : M pyval :=
  let requirement := get_or input_data "requirement" (PStr "") in
  let prd_id := get_or input_data "prd_id" (PStr "") in
  project_id <- arg_uuid env input_data "project_id" ;;
  timestamp <- arg_now env input_data "timestamp" ;;
  let user_id := get_or input_data "user_id" (PStr "default_user") in
  require requirement "Requirement is required" ;;
  prd <- load_optional env prd_id project_id "product_manager" "prd"
              "prd" timestamp ;;
  messages <- lift (prompt env "create_architecture" [requirement; prd]) ;;
  response <- ask_llm env messages ;;
  let architecture := get_or response "content" (PStr "") in
  architecture_id <- new_id env ;;
  artifact_data <- upload env
    [("project_id", project_id); ("requirement", requirement); ("prd_id", prd_id);
     ("architecture", architecture); ("user_id", user_id); ("created_at", timestamp)]
    project_id "architect" "architecture" architecture_id timestamp ;;
  let s3_key := PStr (S3Client.s3_key artifact_data) in
  add_to_memory
    (PDict [("type", PStr "architecture"); ("id", architecture_id);
            ("project_id", project_id); ("s3_key", s3_key); ("requirement", requirement);
            ("timestamp", timestamp)]) ;;
  modify (set_state (PStr "architecture_created")) ;;
  save_state env ;;
  emit_event env "ArchitectureCreated"
    [("project_id", project_id); ("architecture_id", architecture_id);
     ("requirement", requirement); ("s3_key", s3_key)] ;;
  send_message env "engineer"
    [("type", PStr "architecture_ready"); ("project_id", project_id);
     ("architecture_id", architecture_id); ("requirement", requirement);
     ("s3_key", s3_key)] ;;
  ret (PDict [("status", PStr "success"); ("project_id", project_id);
              ("architecture_id", architecture_id); ("architecture", architecture);
              ("s3_key", s3_key)]).

(** [Architect.create_class_diagram]. *)
Definition create_class_diagram (input_data : dict) : M pyval :=
  let architecture_id := get_or input_data "architecture_id" (PStr "") in
  let project_id := get_or input_data "project_id" (PStr "") in
  timestamp <- arg_now env input_data "timestamp" ;;
  require architecture_id "Architecture ID is required" ;;
  require project_id "Project ID is required" ;;
  loaded <- load_required env "architecture" architecture_id project_id
              "architect" "architecture" "architecture" "requirement" (PStr "") timestamp ;;
  let architecture := fst loaded in
  let requirement := snd loaded in
  messages <- lift (prompt env "create_class_diagram" [architecture; requirement]) ;;
  response <- ask_llm env messages ;;
  let class_diagram := get_or response "content" (PStr "") in
  diagram_id <- new_id env ;;
  artifact_data <- upload env
    [("project_id", project_id); ("architecture_id", architecture_id);
     ("class_diagram", class_diagram); ("created_at", timestamp)]
    project_id "architect" "class_diagram" diagram_id timestamp ;;
  let s3_key := PStr (S3Client.s3_key artifact_data) in
  add_to_memory
    (PDict [("type", PStr "class_diagram"); ("id", diagram_id);
            ("architecture_id", architecture_id); ("s3_key", s3_key);
            ("timestamp", timestamp)]) ;;
  modify (set_state (PStr "class_diagram_created")) ;;
  save_state env ;;
  ret (PDict [("status", PStr "success"); ("diagram_id", diagram_id);
              ("class_diagram", class_diagram); ("s3_key", s3_key)]).

(** [Architect.create_sequence_diagram]. *)
Definition create_sequence_diagram (input_data : dict) : M pyval :=
  let architecture_id := get_or input_data "architecture_id" (PStr "") in
  let use_case := get_or input_data "use_case" (PStr "") in
  let project_id := get_or input_data "project_id" (PStr "") in
  timestamp <- arg_now env input_data "timestamp" ;;
  require architecture_id "Architecture ID is required" ;;
  require use_case "Use case is required" ;;
  require project_id "Project ID is required" ;;
  loaded <- load_required env "architecture" architecture_id project_id
              "architect" "architecture" "architecture" "requirement" (PStr "") timestamp ;;
  let architecture := fst loaded in
  let requirement := snd loaded in
  messages <- lift (prompt env "create_sequence_diagram" [use_case; architecture;
                                                          requirement]) ;;
  response <- ask_llm env messages ;;
  let sequence_diagram := get_or response "content" (PStr "") in
  diagram_id <- new_id env ;;
  artifact_data <- upload env
    [("project_id", project_id); ("architecture_id", architecture_id);
     ("use_case", use_case); ("sequence_diagram", sequence_diagram);
     ("created_at", timestamp)]
    project_id "architect" "sequence_diagram" diagram_id timestamp ;;
  let s3_key := PStr (S3Client.s3_key artifact_data) in
  add_to_memory
    (PDict [("type", PStr "sequence_diagram"); ("id", diagram_id);
            ("architecture_id", architecture_id); ("use_case", use_case);
            ("s3_key", s3_key); ("timestamp", timestamp)]) ;;
  modify (set_state (PStr "sequence_diagram_created")) ;;
  save_state env ;;
  ret (PDict [("status", PStr "success"); ("diagram_id", diagram_id);
              ("sequence_diagram", sequence_diagram); ("s3_key", s3_key)]).

(** [Architect.create_api_design]. *)
Definition create_api_design (input_data : dict) : M pyval :=
  let architecture_id := get_or input_data "architecture_id" (PStr "") in
  let project_id := get_or input_data "project_id" (PStr "") in
  timestamp <- arg_now env input_data "timestamp" ;;
  require architecture_id "Architecture ID is required" ;;
  require project_id "Project ID is required" ;;
  loaded <- load_required env "architecture" architecture_id project_id
              "architect" "architecture" "architecture" "requirement" (PStr "") timestamp ;;
  let architecture := fst loaded in
  let requirement := snd loaded in
  messages <- lift (prompt env "create_api_design" [architecture; requirement]) ;;
  response <- ask_llm env messages ;;
  let api_design := get_or response "content" (PStr "") in
  design_id <- new_id env ;;
  artifact_data <- upload env
    [("project_id", project_id); ("architecture_id", architecture_id);
     ("api_design", api_design); ("created_at", timestamp)]
    project_id "architect" "api_design" design_id timestamp ;;
  let s3_key := PStr (S3Client.s3_key artifact_data) in
  add_to_memory
    (PDict [("type", PStr "api_design"); ("id", design_id);
            ("architecture_id", architecture_id); ("s3_key", s3_key);
            ("timestamp", timestamp)]) ;;
  modify (set_state (PStr "api_design_created")) ;;
  save_state env ;;
  ret (PDict [("status", PStr "success"); ("design_id", design_id);
              ("api_design", api_design); ("s3_key", s3_key)]).

(** [Architect.process]. *)
Definition process (input_data : dict) : M pyval :=
  let process_type := get_or input_data "process_type" (PStr "create_architecture") in
  if is_str process_type "create_architecture"
  then create_architecture input_data
  else if is_str process_type "create_class_diagram"
  then create_class_diagram input_data
  else if is_str process_type "create_sequence_diagram"
  then create_sequence_diagram input_data
  else if is_str process_type "create_api_design"
  then create_api_design input_data
  else raise ValueError ("Unknown process type: " ++ str env process_type)%string.

End WithEnv.

End Architect.

(** *** [lambda/action_group/bizdev/engineer/index.py] *)

Module Engineer.

Section WithEnv.
Variable env : Env.

(** [Engineer.implement_code]. *)
Definition implement_code (input_data : dict) : M pyval :=
  let requirement := get_or input_data "requirement" (PStr "") in
  let prd_id := get_or input_data "prd_id" (PStr "") in
  let architecture_id := get_or input_data "architecture_id" (PStr "") in
  project_id <- arg_uuid env input_data "project_id" ;;
  let user_id := get_or input_data "user_id" (PStr "default_user") in
  timestamp <- arg_now env input_data "timestamp" ;;
  require requirement "Requirement is required" ;;
  prd <- load_optional env prd_id project_id "product_manager" "prd"
              "prd" timestamp ;;
  architecture <- load_optional env architecture_id project_id "architect" "architecture"
              "architecture" timestamp ;;
  messages <- lift (prompt env "implement_code" [requirement; prd; architecture]) ;;
  response <- ask_llm env messages ;;
  let implementation := get_or response "content" (PStr "") in
  implementation_id <- new_id env ;;
  artifact_data <- upload env
    [("project_id", project_id); ("requirement", requirement); ("prd_id", prd_id);
     ("architecture_id", architecture_id); ("implementation", implementation);
     ("user_id", user_id); ("created_at", timestamp)]
    project_id "engineer" "implementation" implementation_id timestamp ;;
  let s3_key := PStr (S3Client.s3_key artifact_data) in
  add_to_memory
    (PDict [("type", PStr "implementation"); ("id", implementation_id);
            ("project_id", project_id); ("s3_key", s3_key); ("requirement", requirement);
            ("timestamp", timestamp)]) ;;
  modify (set_state (PStr "code_implemented")) ;;
  save_state env ;;
  emit_event env "CodeImplemented"
    [("project_id", project_id); ("implementation_id", implementation_id);
     ("requirement", requirement); ("s3_key", s3_key)] ;;
  ret (PDict [("status", PStr "success"); ("project_id", project_id);
              ("implementation_id", implementation_id); ("implementation", implementation);
              ("s3_key", s3_key)]).

(** [Engineer.review_code]. *)
Definition review_code (input_data : dict) : M pyval :=
  let implementation_id := get_or input_data "implementation_id" (PStr "") in
  let project_id := get_or input_data "project_id" (PStr "") in
  let requirement0 := get_or input_data "requirement" (PStr "") in
  timestamp <- arg_now env input_data "timestamp" ;;
  let user_id := get_or input_data "user_id" (PStr "default_user") in
  require implementation_id "Implementation ID is required" ;;
  require project_id "Project ID is required" ;;
  loaded <- load_required env "implementation" implementation_id project_id
              "engineer" "implementation" "implementation" "requirement" requirement0 timestamp ;;
  let implementation := fst loaded in
  let requirement := snd loaded in
  messages <- lift (prompt env "review_code" [requirement; implementation]) ;;
  response <- ask_llm env messages ;;
  let review := get_or response "content" (PStr "") in
  review_id <- new_id env ;;
  artifact_data <- upload env
    [("project_id", project_id); ("implementation_id", implementation_id);
     ("requirement", requirement); ("review", review); ("user_id", user_id);
     ("created_at", timestamp)]
    project_id "engineer" "review" review_id timestamp ;;
  let s3_key := PStr (S3Client.s3_key artifact_data) in
  add_to_memory
    (PDict [("type", PStr "review"); ("id", review_id);
            ("implementation_id", implementation_id); ("project_id", project_id);
            ("s3_key", s3_key); ("timestamp", timestamp)]) ;;
  modify (set_state (PStr "code_reviewed")) ;;
  save_state env ;;
  emit_event env "CodeReviewed"
    [("project_id", project_id); ("review_id", review_id);
     ("implementation_id", implementation_id); ("s3_key", s3_key)] ;;
  ret (PDict [("status", PStr "success"); ("project_id", project_id);
              ("review_id", review_id); ("review", review); ("s3_key", s3_key)]).

(** [Engineer.fix_bugs]. *)
Definition fix_bugs (input_data : dict) : M pyval :=
  let implementation_id := get_or input_data "implementation_id" (PStr "") in
  let review_id := get_or input_data "review_id" (PStr "") in
  let project_id := get_or input_data "project_id" (PStr "") in
  timestamp <- arg_now env input_data "timestamp" ;;
  let user_id := get_or input_data "user_id" (PStr "default_user") in
  require implementation_id "Implementation ID is required" ;;
  require project_id "Project ID is required" ;;
  loaded <- load_required env "implementation" implementation_id project_id
              "engineer" "implementation" "implementation" "requirement" (PStr "") timestamp ;;
  let implementation := fst loaded in
  let requirement := snd loaded in
  review <- load_optional env review_id project_id "engineer" "review"
              "review" timestamp ;;
  messages <- lift (prompt env "fix_bugs" [requirement; implementation; review]) ;;
  response <- ask_llm env messages ;;
  let fixed_implementation := get_or response "content" (PStr "") in
  fixed_id <- new_id env ;;
  artifact_data <- upload env
    [("project_id", project_id); ("implementation_id", implementation_id);
     ("review_id", review_id); ("requirement", requirement);
     ("fixed_implementation", fixed_implementation); ("user_id", user_id);
     ("created_at", timestamp)]
    project_id "engineer" "fixed_implementation" fixed_id timestamp ;;
  let s3_key := PStr (S3Client.s3_key artifact_data) in
  add_to_memory
    (PDict [("type", PStr "fixed_implementation"); ("id", fixed_id);
            ("implementation_id", implementation_id); ("project_id", project_id);
            ("s3_key", s3_key); ("timestamp", timestamp)]) ;;
  modify (set_state (PStr "bugs_fixed")) ;;
  save_state env ;;
  emit_event env "BugsFixed"
    [("project_id", project_id); ("fixed_id", fixed_id);
     ("implementation_id", implementation_id); ("s3_key", s3_key)] ;;
  ret (PDict [("status", PStr "success"); ("project_id", project_id);
              ("fixed_id", fixed_id); ("fixed_implementation", fixed_implementation);
              ("s3_key", s3_key)]).

(** [Engineer.process]. *)
Definition process (input_data : dict) : M pyval :=
  let process_type := get_or input_data "process_type" (PStr "implement_code") in
  try_except
   (if is_str process_type "implement_code"
    then implement_code input_data
    else if is_str process_type "review_code"
    then review_code input_data
    else if is_str process_type "fix_bugs"
    then fix_bugs input_data
    else raise ValueError ("Unknown process type: " ++ str env process_type)%string)
    failed.

End WithEnv.

End Engineer.

(** *** [lambda/action_group/aws/cloud-architect/index.py] *)

Module CloudArchitect.

Section WithEnv.
Variable env : Env.

(** [CloudArchitect.design_cloud_architecture]. *)
Definition design_cloud_architecture (input_data : dict) : M pyval :=
  let requirement := get_or input_data "requirement" (PStr "") in
  let architecture_type := get_or input_data "architecture_type" (PStr "") in
  project_id <- arg_uuid env input_data "project_id" ;;
  timestamp <- arg_now env input_data "timestamp" ;;
  let user_id := get_or input_data "user_id" (PStr "default_user") in
  require requirement "Requirement is required" ;;
  messages <- lift (prompt env "design_cloud_architecture" [requirement;
                                                            architecture_type]) ;;
  response <- ask_llm env messages ;;
  let cloud_architecture := get_or response "content" (PStr "") in
  architecture_id <- new_id env ;;
  artifact_data <- upload env
    [("project_id", project_id); ("requirement", requirement);
     ("architecture_type", architecture_type); ("cloud_architecture", cloud_architecture);
     ("user_id", user_id); ("created_at", timestamp)]
    project_id "cloud_architect" "cloud_architecture" architecture_id timestamp ;;
  let s3_key := PStr (S3Client.s3_key artifact_data) in
  add_to_memory
    (PDict [("type", PStr "cloud_architecture"); ("id", architecture_id);
            ("project_id", project_id); ("s3_key", s3_key); ("requirement", requirement);
            ("architecture_type", architecture_type); ("timestamp", timestamp)]) ;;
  modify (set_state (PStr "cloud_architecture_created")) ;;
  save_state env ;;
  emit_event env "CloudArchitectureCreated"
    [("project_id", project_id); ("architecture_id", architecture_id);
     ("requirement", requirement); ("architecture_type", architecture_type);
     ("s3_key", s3_key)] ;;
  ret (PDict [("status", PStr "success"); ("project_id", project_id);
              ("architecture_id", architecture_id);
              ("cloud_architecture", cloud_architecture); ("s3_key", s3_key)]).

(** [CloudArchitect.evaluate_architecture]. *)
Definition evaluate_architecture (input_data : dict) : M pyval :=
  let architecture_id := get_or input_data "architecture_id" (PStr "") in
  let pillars := get_or input_data "pillars" (PStr "") in
  let project_id := get_or input_data "project_id" (PStr "") in
  timestamp <- arg_now env input_data "timestamp" ;;
  require architecture_id "Architecture ID is required" ;;
  require project_id "Project ID is required" ;;
  loaded <- load_required env "cloud architecture" architecture_id project_id
              "cloud_architect" "cloud_architecture" "cloud_architecture" "requirement" (PStr "") timestamp ;;
  let cloud_architecture := fst loaded in
  let requirement := snd loaded in
  messages <- lift (prompt env "evaluate_architecture" [pillars; cloud_architecture;
                                                        requirement]) ;;
  response <- ask_llm env messages ;;
  let evaluation := get_or response "content" (PStr "") in
  evaluation_id <- new_id env ;;
  artifact_data <- upload env
    [("project_id", project_id); ("architecture_id", architecture_id);
     ("pillars", pillars); ("evaluation", evaluation); ("created_at", timestamp)]
    project_id "cloud_architect" "architecture_evaluation" evaluation_id timestamp ;;
  let s3_key := PStr (S3Client.s3_key artifact_data) in
  add_to_memory
    (PDict [("type", PStr "architecture_evaluation"); ("id", evaluation_id);
            ("project_id", project_id); ("architecture_id", architecture_id);
            ("s3_key", s3_key); ("pillars", pillars); ("timestamp", timestamp)]) ;;
  modify (set_state (PStr "architecture_evaluated")) ;;
  save_state env ;;
  emit_event env "ArchitectureEvaluationCompleted"
    [("project_id", project_id); ("architecture_id", architecture_id);
     ("evaluation_id", evaluation_id); ("pillars", pillars); ("s3_key", s3_key)] ;;
  ret (PDict [("status", PStr "success"); ("project_id", project_id);
              ("architecture_id", architecture_id); ("evaluation_id", evaluation_id);
              ("evaluation", evaluation); ("s3_key", s3_key)]).

(** [CloudArchitect.create_infrastructure_diagram]. *)
Definition create_infrastructure_diagram (input_data : dict) : M pyval :=
  let architecture_id := get_or input_data "architecture_id" (PStr "") in
  let diagram_type := get_or input_data "diagram_type" (PStr "high-level") in
  let project_id := get_or input_data "project_id" (PStr "") in
  timestamp <- arg_now env input_data "timestamp" ;;
  require architecture_id "Architecture ID is required" ;;
  require project_id "Project ID is required" ;;
  loaded <- load_required env "cloud architecture" architecture_id project_id
              "cloud_architect" "cloud_architecture" "cloud_architecture" "requirement" (PStr "") timestamp ;;
  let cloud_architecture := fst loaded in
  let requirement := snd loaded in
  messages <- lift (prompt env "create_infrastructure_diagram" [diagram_type;
                                                                cloud_architecture;
                                                                requirement]) ;;
  response <- ask_llm env messages ;;
  let diagram := get_or response "content" (PStr "") in
  diagram_id <- new_id env ;;
  artifact_data <- upload env
    [("project_id", project_id); ("architecture_id", architecture_id);
     ("diagram_type", diagram_type); ("infrastructure_diagram", diagram);
     ("created_at", timestamp)]
    project_id "cloud_architect" "infrastructure_diagram" diagram_id timestamp ;;
  let s3_key := PStr (S3Client.s3_key artifact_data) in
  add_to_memory
    (PDict [("type", PStr "infrastructure_diagram"); ("id", diagram_id);
            ("project_id", project_id); ("architecture_id", architecture_id);
            ("diagram_type", diagram_type); ("s3_key", s3_key);
            ("timestamp", timestamp)]) ;;
  modify (set_state (PStr "infrastructure_diagram_created")) ;;
  save_state env ;;
  ret (PDict [("status", PStr "success"); ("project_id", project_id);
              ("architecture_id", architecture_id); ("diagram_id", diagram_id);
              ("infrastructure_diagram", diagram); ("s3_key", s3_key)]).

(** [CloudArchitect.optimize_cost]. *)
Definition optimize_cost (input_data : dict) : M pyval :=
  let architecture_id := get_or input_data "architecture_id" (PStr "") in
  let monthly_budget := get_or input_data "monthly_budget" (PStr "") in
  let optimization_focus := get_or input_data "optimization_focus" (PStr "all") in
  let project_id := get_or input_data "project_id" (PStr "") in
  timestamp <- arg_now env input_data "timestamp" ;;
  require architecture_id "Architecture ID is required" ;;
  require project_id "Project ID is required" ;;
  loaded <- load_required env "cloud architecture" architecture_id project_id
              "cloud_architect" "cloud_architecture" "cloud_architecture" "requirement" (PStr "") timestamp ;;
  let cloud_architecture := fst loaded in
  let requirement := snd loaded in
  messages <- lift (prompt env "optimize_cost" [monthly_budget; optimization_focus;
                                                cloud_architecture; requirement]) ;;
  response <- ask_llm env messages ;;
  let cost_optimization := get_or response "content" (PStr "") in
  optimization_id <- new_id env ;;
  artifact_data <- upload env
    [("project_id", project_id); ("architecture_id", architecture_id);
     ("monthly_budget", monthly_budget); ("optimization_focus", optimization_focus);
     ("cost_optimization", cost_optimization); ("created_at", timestamp)]
    project_id "cloud_architect" "cost_optimization" optimization_id timestamp ;;
  let s3_key := PStr (S3Client.s3_key artifact_data) in
  add_to_memory
    (PDict [("type", PStr "cost_optimization"); ("id", optimization_id);
            ("project_id", project_id); ("architecture_id", architecture_id);
            ("monthly_budget", monthly_budget); ("optimization_focus", optimization_focus);
            ("s3_key", s3_key); ("timestamp", timestamp)]) ;;
  modify (set_state (PStr "cost_optimization_completed")) ;;
  save_state env ;;
  ret (PDict [("status", PStr "success"); ("project_id", project_id);
              ("architecture_id", architecture_id); ("optimization_id", optimization_id);
              ("cost_optimization", cost_optimization); ("s3_key", s3_key)]).

(** [CloudArchitect.design_disaster_recovery]. *)
Definition design_disaster_recovery (input_data : dict) : M pyval :=
  let architecture_id := get_or input_data "architecture_id" (PStr "") in
  let rpo_hours := get_or input_data "rpo_hours" (PStr "") in
  let rto_hours := get_or input_data "rto_hours" (PStr "") in
  let project_id := get_or input_data "project_id" (PStr "") in
  timestamp <- arg_now env input_data "timestamp" ;;
  require architecture_id "Architecture ID is required" ;;
  require project_id "Project ID is required" ;;
  loaded <- load_required env "cloud architecture" architecture_id project_id
              "cloud_architect" "cloud_architecture" "cloud_architecture" "requirement" (PStr "") timestamp ;;
  let cloud_architecture := fst loaded in
  let requirement := snd loaded in
  messages <- lift (prompt env "design_disaster_recovery" [rpo_hours; rto_hours;
                                                           cloud_architecture;
                                                           requirement]) ;;
  response <- ask_llm env messages ;;
  let dr_strategy := get_or response "content" (PStr "") in
  dr_id <- new_id env ;;
  artifact_data <- upload env
    [("project_id", project_id); ("architecture_id", architecture_id);
     ("rpo_hours", rpo_hours); ("rto_hours", rto_hours); ("dr_strategy", dr_strategy);
     ("created_at", timestamp)]
    project_id "cloud_architect" "disaster_recovery" dr_id timestamp ;;
  let s3_key := PStr (S3Client.s3_key artifact_data) in
  add_to_memory
    (PDict [("type", PStr "disaster_recovery"); ("id", dr_id); ("project_id", project_id);
            ("architecture_id", architecture_id); ("rpo_hours", rpo_hours);
            ("rto_hours", rto_hours); ("s3_key", s3_key); ("timestamp", timestamp)]) ;;
  modify (set_state (PStr "disaster_recovery_designed")) ;;
  save_state env ;;
  ret (PDict [("status", PStr "success"); ("project_id", project_id);
              ("architecture_id", architecture_id); ("dr_id", dr_id);
              ("dr_strategy", dr_strategy); ("s3_key", s3_key)]).

(** [CloudArchitect.analyze_cfn_failure]. *)
Definition analyze_cfn_failure (input_data : dict) : M pyval :=
  let stack_id := get_or input_data "stackId" (PStr "") in
  let stack_name := get_or input_data "stackName" (PStr "") in
  let logical_resource_id := get_or input_data "logicalResourceId" (PStr "") in
  let resource_type := get_or input_data "resourceType" (PStr "") in
  let status_reason := get_or input_data "statusReason" (PStr "") in
  let template_info := get_or input_data "templateInfo" (PDict []) in
  let failure_events := get_or input_data "failureEvents" (PList []) in
  let project_id := get_or input_data "project_id" stack_id in
  timestamp <- arg_now env input_data "timestamp" ;;
  require stack_id "Stack ID is required" ;;
  require stack_name "Stack Name is required" ;;
  messages <- lift (prompt env "analyze_cfn_failure" [stack_name; stack_id;
                                                      logical_resource_id; resource_type;
                                                      status_reason; failure_events;
                                                      template_info]) ;;
  response <- ask_llm env messages ;;
  let analysis := get_or response "content" (PStr "") in
  analysis_id <- new_id env ;;
  artifact_data <- upload env
    [("stack_id", stack_id); ("stack_name", stack_name);
     ("logical_resource_id", logical_resource_id); ("resource_type", resource_type);
     ("status_reason", status_reason); ("failure_events", failure_events);
     ("analysis", analysis); ("created_at", timestamp)]
    project_id "cloud_architect" "cfn_failure_analysis" analysis_id timestamp ;;
  let s3_key := PStr (S3Client.s3_key artifact_data) in
  add_to_memory
    (PDict [("type", PStr "cfn_failure_analysis"); ("id", analysis_id);
            ("stack_id", stack_id); ("stack_name", stack_name); ("s3_key", s3_key);
            ("timestamp", timestamp)]) ;;
  modify (set_state (PStr "cfn_failure_analyzed")) ;;
  save_state env ;;
  emit_event env "CfnFailureAnalysisCompleted"
    [("stack_id", stack_id); ("stack_name", stack_name); ("analysis_id", analysis_id);
     ("s3_key", s3_key)] ;;
  ret (PDict [("status", PStr "success"); ("stack_id", stack_id);
              ("stack_name", stack_name); ("analysis_id", analysis_id);
              ("analysis", analysis); ("s3_key", s3_key)]).

(** [CloudArchitect.process]. *)
Definition process (input_data : dict) : M pyval :=
  let process_type := get_or input_data "process_type" (PStr "design_cloud_architecture") in
  try_except
   (if is_str process_type "design_cloud_architecture"
    then design_cloud_architecture input_data
    else if is_str process_type "evaluate_architecture"
    then evaluate_architecture input_data
    else if is_str process_type "create_infrastructure_diagram"
    then create_infrastructure_diagram input_data
    else if is_str process_type "optimize_cost"
    then optimize_cost input_data
    else if is_str process_type "design_disaster_recovery"
    then design_disaster_recovery input_data
    else if is_str process_type "analyze_cfn_failure"
    then analyze_cfn_failure input_data
    else raise ValueError ("Unknown process type: " ++ str env process_type)%string)
    failed.

End WithEnv.

End CloudArchitect.

(** *** [lambda/action_group/aws/serverless-architect/index.py] *)

Module ServerlessArchitect.

Section WithEnv.
Variable env : Env.

(** [ServerlessArchitect.design_serverless_architecture]. *)
Definition design_serverless_architecture (input_data : dict) : M pyval :=
  let requirement := get_or input_data "requirement" (PStr "") in
  let application_type := get_or input_data "application_type" (PStr "") in
  project_id <- arg_uuid env input_data "project_id" ;;
  timestamp <- arg_now env input_data "timestamp" ;;
  require requirement "Requirement is required" ;;
  messages <- lift (prompt env "design_serverless_architecture" [requirement;
                                                                 application_type]) ;;
  response <- ask_llm env messages ;;
  let serverless_architecture := get_or response "content" (PStr "") in
  architecture_id <- new_id env ;;
  artifact_data <- upload env
    [("project_id", project_id); ("requirement", requirement);
     ("application_type", application_type);
     ("serverless_architecture", serverless_architecture); ("created_at", timestamp)]
    project_id "serverless_architect" "serverless_architecture" architecture_id timestamp ;;
  let s3_key := PStr (S3Client.s3_key artifact_data) in
  add_to_memory
    (PDict [("type", PStr "serverless_architecture"); ("id", architecture_id);
            ("project_id", project_id); ("s3_key", s3_key); ("requirement", requirement);
            ("application_type", application_type); ("timestamp", timestamp)]) ;;
  modify (set_state (PStr "serverless_architecture_created")) ;;
  save_state env ;;
  emit_event env "ServerlessArchitectureCreated"
    [("project_id", project_id); ("architecture_id", architecture_id);
     ("requirement", requirement); ("application_type", application_type);
     ("s3_key", s3_key)] ;;
  ret (PDict [("status", PStr "success"); ("project_id", project_id);
              ("architecture_id", architecture_id);
              ("serverless_architecture", serverless_architecture); ("s3_key", s3_key)]).

(** [ServerlessArchitect.design_event_driven_architecture]. *)
Definition design_event_driven_architecture (input_data : dict) : M pyval :=
  let requirement := get_or input_data "requirement" (PStr "") in
  let event_sources := get_or input_data "event_sources" (PStr "") in
  project_id <- arg_uuid env input_data "project_id" ;;
  timestamp <- arg_now env input_data "timestamp" ;;
  require requirement "Requirement is required" ;;
  messages <- lift (prompt env "design_event_driven_architecture" [requirement;
                                                                   event_sources]) ;;
  response <- ask_llm env messages ;;
  let event_architecture := get_or response "content" (PStr "") in
  architecture_id <- new_id env ;;
  artifact_data <- upload env
    [("project_id", project_id); ("requirement", requirement);
     ("event_sources", event_sources); ("event_architecture", event_architecture);
     ("created_at", timestamp)]
    project_id "serverless_architect" "event_architecture" architecture_id timestamp ;;
  let s3_key := PStr (S3Client.s3_key artifact_data) in
  add_to_memory
    (PDict [("type", PStr "event_architecture"); ("id", architecture_id);
            ("project_id", project_id); ("s3_key", s3_key); ("requirement", requirement);
            ("event_sources", event_sources); ("timestamp", timestamp)]) ;;
  modify (set_state (PStr "event_architecture_created")) ;;
  save_state env ;;
  emit_event env "EventDrivenArchitectureCreated"
    [("project_id", project_id); ("architecture_id", architecture_id);
     ("requirement", requirement); ("event_sources", event_sources);
     ("s3_key", s3_key)] ;;
  ret (PDict [("status", PStr "success"); ("project_id", project_id);
              ("architecture_id", architecture_id);
              ("event_architecture", event_architecture); ("s3_key", s3_key)]).

(** [ServerlessArchitect.design_api_gateway]. *)
Definition design_api_gateway (input_data : dict) : M pyval :=
  let requirement := get_or input_data "requirement" (PStr "") in
  let api_type := get_or input_data "api_type" (PStr "rest") in
  let authentication_type := get_or input_data "authentication_type" (PStr "") in
  project_id <- arg_uuid env input_data "project_id" ;;
  timestamp <- arg_now env input_data "timestamp" ;;
  require requirement "Requirement is required" ;;
  messages <- lift (prompt env "design_api_gateway" [requirement; api_type;
                                                     authentication_type]) ;;
  response <- ask_llm env messages ;;
  let api_design := get_or response "content" (PStr "") in
  api_id <- new_id env ;;
  artifact_data <- upload env
    [("project_id", project_id); ("requirement", requirement); ("api_type", api_type);
     ("authentication_type", authentication_type); ("api_design", api_design);
     ("created_at", timestamp)]
    project_id "serverless_architect" "api_design" api_id timestamp ;;
  let s3_key := PStr (S3Client.s3_key artifact_data) in
  add_to_memory
    (PDict [("type", PStr "api_design"); ("id", api_id); ("project_id", project_id);
            ("s3_key", s3_key); ("requirement", requirement); ("api_type", api_type);
            ("authentication_type", authentication_type); ("timestamp", timestamp)]) ;;
  modify (set_state (PStr "api_design_created")) ;;
  save_state env ;;
  emit_event env "ApiGatewayDesignCreated"
    [("project_id", project_id); ("api_id", api_id); ("requirement", requirement);
     ("api_type", api_type); ("authentication_type", authentication_type);
     ("s3_key", s3_key)] ;;
  ret (PDict [("status", PStr "success"); ("project_id", project_id); ("api_id", api_id);
              ("api_design", api_design); ("s3_key", s3_key)]).

(** [ServerlessArchitect.optimize_lambda_functions]. *)
Definition optimize_lambda_functions (input_data : dict) : M pyval :=
  let function_code := get_or input_data "function_code" (PStr "") in
  let runtime := get_or input_data "runtime" (PStr "") in
  let optimization_focus := get_or input_data "optimization_focus" (PStr "all") in
  project_id <- arg_uuid env input_data "project_id" ;;
  timestamp <- arg_now env input_data "timestamp" ;;
  require function_code "Function code is required" ;;
  require runtime "Runtime is required" ;;
  messages <- lift (prompt env "optimize_lambda_functions" [function_code; runtime;
                                                            optimization_focus]) ;;
  response <- ask_llm env messages ;;
  let optimization := get_or response "content" (PStr "") in
  optimization_id <- new_id env ;;
  artifact_data <- upload env
    [("project_id", project_id); ("function_code", function_code); ("runtime", runtime);
     ("optimization_focus", optimization_focus); ("optimization", optimization);
     ("created_at", timestamp)]
    project_id "serverless_architect" "lambda_optimization" optimization_id timestamp ;;
  let s3_key := PStr (S3Client.s3_key artifact_data) in
  add_to_memory
    (PDict [("type", PStr "lambda_optimization"); ("id", optimization_id);
            ("project_id", project_id); ("s3_key", s3_key); ("runtime", runtime);
            ("optimization_focus", optimization_focus); ("timestamp", timestamp)]) ;;
  modify (set_state (PStr "lambda_optimization_created")) ;;
  save_state env ;;
  ret (PDict [("status", PStr "success"); ("project_id", project_id);
              ("optimization_id", optimization_id); ("optimization", optimization);
              ("s3_key", s3_key)]).

(** [ServerlessArchitect.design_step_functions_workflow]. *)
Definition design_step_functions_workflow (input_data : dict) : M pyval :=
  let requirement := get_or input_data "requirement" (PStr "") in
  let workflow_type := get_or input_data "workflow_type" (PStr "standard") in
  let integration_services := get_or input_data "integration_services" (PStr "") in
  project_id <- arg_uuid env input_data "project_id" ;;
  timestamp <- arg_now env input_data "timestamp" ;;
  require requirement "Requirement is required" ;;
  messages <- lift (prompt env "design_step_functions_workflow" [requirement;
                                                                 workflow_type;
                                                                 integration_services]) ;;
  response <- ask_llm env messages ;;
  let workflow_design := get_or response "content" (PStr "") in
  workflow_id <- new_id env ;;
  artifact_data <- upload env
    [("project_id", project_id); ("requirement", requirement);
     ("workflow_type", workflow_type); ("integration_services", integration_services);
     ("workflow_design", workflow_design); ("created_at", timestamp)]
    project_id "serverless_architect" "step_functions_workflow" workflow_id timestamp ;;
  let s3_key := PStr (S3Client.s3_key artifact_data) in
  add_to_memory
    (PDict [("type", PStr "step_functions_workflow"); ("id", workflow_id);
            ("project_id", project_id); ("s3_key", s3_key); ("requirement", requirement);
            ("workflow_type", workflow_type);
            ("integration_services", integration_services); ("timestamp", timestamp)]) ;;
  modify (set_state (PStr "step_functions_workflow_created")) ;;
  save_state env ;;
  emit_event env "StepFunctionsWorkflowCreated"
    [("project_id", project_id); ("workflow_id", workflow_id);
     ("requirement", requirement); ("workflow_type", workflow_type);
     ("integration_services", integration_services); ("s3_key", s3_key)] ;;
  ret (PDict [("status", PStr "success"); ("project_id", project_id);
              ("workflow_id", workflow_id); ("workflow_design", workflow_design);
              ("s3_key", s3_key)]).

(** [ServerlessArchitect.process]. *)
Definition process (input_data : dict) : M pyval :=
  let process_type := get_or input_data "process_type" (PStr "design_serverless_architecture") in
  try_except
   (if is_str process_type "design_serverless_architecture"
    then design_serverless_architecture input_data
    else if is_str process_type "design_event_driven_architecture"
    then design_event_driven_architecture input_data
    else if is_str process_type "design_api_gateway"
    then design_api_gateway input_data
    else if is_str process_type "optimize_lambda_functions"
    then optimize_lambda_functions input_data
    else if is_str process_type "design_step_functions_workflow"
    then design_step_functions_workflow input_data
    else raise ValueError ("Unknown process type: " ++ str env process_type)%string)
    failed.

End WithEnv.

End ServerlessArchitect.

(** *** [lambda/action_group/materials/property_target/index.py] *)

Module PropertyTarget.

Section WithEnv.
Variable env : Env.

(** [PropertyTargetAgent.set_target_properties]. *)
Definition set_target_properties (input_data : dict) : M pyval :=
  let requirements := get_or input_data "requirements" (PStr "") in
  session_id <- arg_uuid env input_data "session_id" ;;
  timestamp <- arg_now env input_data "timestamp" ;;
  let user_id := get_or input_data "user_id" (PStr "default_user") in
  require requirements "Requirements are required" ;;
  try_except
    (messages <- lift (prompt env "set_target_properties" [requirements]) ;;
     response <- ask_llm env messages ;;
     target_properties <- lift (parse_stub env "_parse_target_properties" [get_or response "content" (PStr "")]) ;;
     artifact_data <- upload_fresh env
       [("session_id", session_id); ("requirements", requirements);
        ("target_properties", target_properties); ("user_id", user_id);
        ("created_at", timestamp)]
       session_id "property_target" "target_properties" timestamp ;;
     let s3_key := PStr (S3Client.s3_key artifact_data) in
     emit_event env "TargetPropertiesSet"
       [("session_id", session_id); ("requirements", requirements); ("s3_key", s3_key)] ;;
     ret (PDict [("status", PStr "success"); ("session_id", session_id);
                 ("target_properties", target_properties); ("s3_key", s3_key)]))
    failed.

(** [PropertyTargetAgent.analyze_tradeoffs]. *)
Definition analyze_tradeoffs (input_data : dict) : M pyval :=
  let target_properties := get_or input_data "target_properties" (PDict []) in
  let priority_feature := get_or input_data "priority_feature" (PStr "") in
  session_id <- arg_uuid env input_data "session_id" ;;
  timestamp <- arg_now env input_data "timestamp" ;;
  require target_properties "Target properties are required" ;;
  try_except
    (messages <- lift (prompt env "analyze_tradeoffs" [target_properties; priority_feature]) ;;
     response <- ask_llm env messages ;;
     let tradeoff_analysis := get_or response "content" (PStr "") in
     artifact_data <- upload_fresh env
       [("session_id", session_id); ("target_properties", target_properties);
        ("priority_feature", priority_feature); ("tradeoff_analysis", tradeoff_analysis);
        ("created_at", timestamp)]
       session_id "property_target" "tradeoff_analysis" timestamp ;;
     let s3_key := PStr (S3Client.s3_key artifact_data) in
     ret (PDict [("status", PStr "success"); ("session_id", session_id);
                 ("tradeoff_analysis", tradeoff_analysis); ("s3_key", s3_key)]))
    failed.

(** [PropertyTargetAgent.validate_targets]. *)
Definition validate_targets (input_data : dict) : M pyval :=
  let target_properties := get_or input_data "target_properties" (PDict []) in
  session_id <- arg_uuid env input_data "session_id" ;;
  timestamp <- arg_now env input_data "timestamp" ;;
  require target_properties "Target properties are required" ;;
  try_except
    (messages <- lift (prompt env "validate_targets" [target_properties]) ;;
     response <- ask_llm env messages ;;
     let validation_result := get_or response "content" (PStr "") in
     artifact_data <- upload_fresh env
       [("session_id", session_id); ("target_properties", target_properties);
        ("validation_result", validation_result); ("created_at", timestamp)]
       session_id "property_target" "validation_result" timestamp ;;
     let s3_key := PStr (S3Client.s3_key artifact_data) in
     ret (PDict [("status", PStr "success"); ("session_id", session_id);
                 ("validation_result", validation_result); ("s3_key", s3_key)]))
    failed.

(** [PropertyTargetAgent.process]. *)
Definition process (input_data : dict) : M pyval :=
  let process_type := get_or input_data "process_type" (PStr "set_target_properties") in
  try_except
   (if is_str process_type "set_target_properties"
    then set_target_properties input_data
    else if is_str process_type "analyze_tradeoffs"
    then analyze_tradeoffs input_data
    else if is_str process_type "validate_targets"
    then validate_targets input_data
    else raise ValueError ("Unknown process type: " ++ str env process_type)%string)
    failed.

End WithEnv.

End PropertyTarget.

(** *** [lambda/action_group/materials/inverse_design/index.py] *)

Module InverseDesign.

Section WithEnv.
Variable env : Env.

(** [InverseDesignAgent._parse_ranked_materials]: every candidate, which
    must be a dict, is given its position as [rank]; the dicts are those of
    the caller's list, so the candidates themselves carry the marks
    afterwards (the caller, [rank_candidates], goes on with the marked ones).
    The final sort by [rank] finds the list in order and leaves it so. The
    model's text is not read. *)
Fixpoint mark_ranks (i : Z) (l : list pyval) : M (list pyval) :=
  match l with
  | [] => ret []
  | PDict material :: r =>
      let marked :=
        set (set material "rank" (PInt (i + 1)))
            "rank_reason"
            (PStr ("Ranked #" ++ str_of_int (i + 1)
                     ++ " due to balance of properties and feasibility")) in
      rest <- mark_ranks (i + 1) r ;;
      ret (PDict marked :: rest)
  | _ :: _ => raise TypeError "object does not support item assignment"
  end.

Definition parse_ranked_materials (candidate_materials : pyval) : M pyval :=
  match candidate_materials with
  | PList l => ranked <- mark_ranks 0 l ;; ret (PList ranked)
  | PDict _ => raise TypeError "'str' object does not support item assignment"
  | _ => raise AttributeError "object has no attribute 'copy'"
  end.

(** [InverseDesignAgent.design_materials]. *)
Definition design_materials (input_data : dict) : M pyval :=
  let target_properties := get_or input_data "target_properties" (PDict []) in
  let constraints := get_or input_data "constraints" (PDict []) in
  session_id <- arg_uuid env input_data "session_id" ;;
  timestamp <- arg_now env input_data "timestamp" ;;
  require target_properties "Target properties are required" ;;
  try_except
    (messages <- lift (prompt env "design_materials" [target_properties; constraints]) ;;
     response <- ask_llm env messages ;;
     candidate_materials <- lift (parse_stub env "_parse_candidate_materials" [get_or response "content" (PStr "")]) ;;
     artifact_data <- upload_fresh env
       [("session_id", session_id); ("target_properties", target_properties);
        ("constraints", constraints); ("candidate_materials", candidate_materials);
        ("created_at", timestamp)]
       session_id "inverse_design" "candidate_materials" timestamp ;;
     let s3_key := PStr (S3Client.s3_key artifact_data) in
     emit_event env "MaterialsDesigned"
       [("session_id", session_id); ("s3_key", s3_key)] ;;
     ret (PDict [("status", PStr "success"); ("session_id", session_id);
                 ("candidate_materials", candidate_materials); ("s3_key", s3_key)]))
    failed.

(** [InverseDesignAgent.rank_candidates]. *)
Definition rank_candidates (input_data : dict) : M pyval :=
  let candidate_materials := get_or input_data "candidate_materials" (PList []) in
  let ranking_criteria := get_or input_data "ranking_criteria" (PDict []) in
  session_id <- arg_uuid env input_data "session_id" ;;
  timestamp <- arg_now env input_data "timestamp" ;;
  require candidate_materials "Candidate materials are required" ;;
  try_except
    (messages <- lift (prompt env "rank_candidates" [candidate_materials; ranking_criteria]) ;;
     response <- ask_llm env messages ;;
     ranked_materials <- parse_ranked_materials candidate_materials ;;
     let candidate_materials := ranked_materials in
     artifact_data <- upload_fresh env
       [("session_id", session_id); ("candidate_materials", candidate_materials);
        ("ranking_criteria", ranking_criteria); ("ranked_materials", ranked_materials);
        ("created_at", timestamp)]
       session_id "inverse_design" "ranked_materials" timestamp ;;
     let s3_key := PStr (S3Client.s3_key artifact_data) in
     ret (PDict [("status", PStr "success"); ("session_id", session_id);
                 ("ranked_materials", ranked_materials); ("s3_key", s3_key)]))
    failed.

(** [InverseDesignAgent.evaluate_feasibility]. *)
Definition evaluate_feasibility (input_data : dict) : M pyval :=
  let material := get_or input_data "material" (PDict []) in
  session_id <- arg_uuid env input_data "session_id" ;;
  timestamp <- arg_now env input_data "timestamp" ;;
  require material "Material is required" ;;
  try_except
    (messages <- lift (prompt env "evaluate_feasibility" [material]) ;;
     response <- ask_llm env messages ;;
     let feasibility_evaluation := get_or response "content" (PStr "") in
     artifact_data <- upload_fresh env
       [("session_id", session_id); ("material", material);
        ("feasibility_evaluation", feasibility_evaluation); ("created_at", timestamp)]
       session_id "inverse_design" "feasibility_evaluation" timestamp ;;
     let s3_key := PStr (S3Client.s3_key artifact_data) in
     ret (PDict [("status", PStr "success"); ("session_id", session_id);
                 ("feasibility_evaluation", feasibility_evaluation); ("s3_key", s3_key)]))
    failed.

(** [InverseDesignAgent.process]. *)
Definition process (input_data : dict) : M pyval :=
  let process_type := get_or input_data "process_type" (PStr "design_materials") in
  try_except
   (if is_str process_type "design_materials"
    then design_materials input_data
    else if is_str process_type "rank_candidates"
    then rank_candidates input_data
    else if is_str process_type "evaluate_feasibility"
    then evaluate_feasibility input_data
    else raise ValueError ("Unknown process type: " ++ str env process_type)%string)
    failed.

End WithEnv.

End InverseDesign.

(** *** [lambda/action_group/materials/experiment_planning/index.py] *)

Module ExperimentPlanning.

Section WithEnv.
Variable env : Env.

(** [ExperimentPlanningAgent.create_experiment_plan]. *)
Definition create_experiment_plan (input_data : dict) : M pyval :=
  let materials := get_or input_data "materials" (PList []) in
  let target_properties := get_or input_data "target_properties" (PDict []) in
  let available_equipment := get_or input_data "available_equipment" (PList []) in
  session_id <- arg_uuid env input_data "session_id" ;;
  timestamp <- arg_now env input_data "timestamp" ;;
  require materials "Materials are required" ;;
  require target_properties "Target properties are required" ;;
  try_except
    (messages <- lift (prompt env "create_experiment_plan" [materials; target_properties; available_equipment]) ;;
     response <- ask_llm env messages ;;
     experiment_plan <- lift (parse_stub env "_parse_experiment_plan" [get_or response "content" (PStr "")]) ;;
     artifact_data <- upload_fresh env
       [("session_id", session_id); ("materials", materials);
        ("target_properties", target_properties);
        ("available_equipment", available_equipment); ("experiment_plan", experiment_plan);
        ("created_at", timestamp)]
       session_id "experiment_planning" "experiment_plan" timestamp ;;
     let s3_key := PStr (S3Client.s3_key artifact_data) in
     emit_event env "ExperimentPlanCreated"
       [("session_id", session_id); ("s3_key", s3_key)] ;;
     ret (PDict [("status", PStr "success"); ("session_id", session_id);
                 ("experiment_plan", experiment_plan); ("s3_key", s3_key)]))
    failed.

(** [ExperimentPlanningAgent.optimize_conditions]. *)
Definition optimize_conditions (input_data : dict) : M pyval :=
  let experiment := get_or input_data "experiment" (PDict []) in
  let optimization_goal := get_or input_data "optimization_goal" (PStr "maximize_accuracy") in
  session_id <- arg_uuid env input_data "session_id" ;;
  timestamp <- arg_now env input_data "timestamp" ;;
  require experiment "Experiment is required" ;;
  try_except
    (messages <- lift (prompt env "optimize_conditions" [experiment; optimization_goal]) ;;
     response <- ask_llm env messages ;;
     optimized_conditions <- lift (parse_stub env "_parse_optimized_conditions" [get_or response "content" (PStr "")]) ;;
     artifact_data <- upload_fresh env
       [("session_id", session_id); ("experiment", experiment);
        ("optimization_goal", optimization_goal);
        ("optimized_conditions", optimized_conditions); ("created_at", timestamp)]
       session_id "experiment_planning" "optimized_conditions" timestamp ;;
     let s3_key := PStr (S3Client.s3_key artifact_data) in
     ret (PDict [("status", PStr "success"); ("session_id", session_id);
                 ("optimized_conditions", optimized_conditions); ("s3_key", s3_key)]))
    failed.

(** [ExperimentPlanningAgent.estimate_resources]. *)
Definition estimate_resources (input_data : dict) : M pyval :=
  let experiment_plan := get_or input_data "experiment_plan" (PDict []) in
  session_id <- arg_uuid env input_data "session_id" ;;
  timestamp <- arg_now env input_data "timestamp" ;;
  require experiment_plan "Experiment plan is required" ;;
  try_except
    (messages <- lift (prompt env "estimate_resources" [experiment_plan]) ;;
     response <- ask_llm env messages ;;
     resource_estimate <- lift (parse_stub env "_parse_resource_estimate" [get_or response "content" (PStr "")]) ;;
     artifact_data <- upload_fresh env
       [("session_id", session_id); ("experiment_plan", experiment_plan);
        ("resource_estimate", resource_estimate); ("created_at", timestamp)]
       session_id "experiment_planning" "resource_estimate" timestamp ;;
     let s3_key := PStr (S3Client.s3_key artifact_data) in
     ret (PDict [("status", PStr "success"); ("session_id", session_id);
                 ("resource_estimate", resource_estimate); ("s3_key", s3_key)]))
    failed.

(** [ExperimentPlanningAgent.process]. *)
Definition process (input_data : dict) : M pyval :=
  let process_type := get_or input_data "process_type" (PStr "create_experiment_plan") in
  try_except
   (if is_str process_type "create_experiment_plan"
    then create_experiment_plan input_data
    else if is_str process_type "optimize_conditions"
    then optimize_conditions input_data
    else if is_str process_type "estimate_resources"
    then estimate_resources input_data
    else raise ValueError ("Unknown process type: " ++ str env process_type)%string)
    failed.

End WithEnv.

End ExperimentPlanning.
(* ================================================================== *)
(** ** lambda/action_group/aws/cfn-event-parser/index.py *)
(* ================================================================== *)

Module CfnEventParser.

(** The stack-management API as the handler sees it: each call either raises
    or answers; of an answer only the field the handler reads is kept, [None]
    when the answer does not carry it. *)
Record Api : Type := mkApi {
  connect : option exn;                                  (* boto3.client('cloudformation') *)
  describe_stacks : pyval -> res (option (list dict));   (* 'Stacks' *)
  get_template : pyval -> res (option pyval);            (* 'TemplateBody' *)
  describe_stack_events : pyval -> res (option (list dict));  (* 'StackEvents' *)
  now_iso : string;                                      (* datetime.now().isoformat() *)
  json_loads : string -> option pyval
}.

(** [event.get('detail', {}).get(k, '')]. *)
Definition detail (event : dict) (k : string) : res pyval :=
  match get_or event "detail" (PDict []) with
  | PDict d => Ok (get_or d k (PStr ""))
  | _ => Raise (mkExn AttributeError "object has no attribute 'get'")
  end.

(** The payload of both [except] clauses. *)
Definition error_result (api : Api) (e : exn) (stack_id stack_name : pyval) : dict :=
  [("error", PStr (emsg e)); ("stackId", stack_id); ("stackName", stack_name);
   ("timestamp", PStr (now_iso api))].

Definition is_failure_status (v : pyval) : bool :=
  match v with
  | PStr s => (s =? "CREATE_FAILED") || (s =? "UPDATE_FAILED") || (s =? "DELETE_FAILED")
  | _ => false
  end.

(** Lines 55-60: the first event whose status is a failure. *)
Definition first_failure (events : list dict) : option dict :=
  find (fun ev => match get ev "ResourceStatus" with
                  | Some st => is_failure_status st
                  | None => false
                  end) events.

(** Lines 89-98: what the summary adds after the two summary fields; a
    failure while reading the template keeps what was added before it. *)
Definition summary_details (api : Api) (template_body : string)
           (logical_resource_id : pyval) : dict :=
  match json_loads api template_body with
  | Some (PDict template_json) =>
      match get_or template_json "Resources" (PDict []) with
      | PDict resources =>
          ("resourcesCount", PInt (Z.of_nat (List.length resources))) ::
          match logical_resource_id with
          | PStr id =>
              if truthy logical_resource_id then
                match get resources id with
                | Some definition => [("failedResourceDefinition", definition)]
                | None => []
                end
              else []
          | _ => []
          end
      | PList l => [("resourcesCount", PInt (Z.of_nat (List.length l)))]
      | PStr s => [("resourcesCount", PInt (Z.of_nat (str_len s)))]
      | _ => []
      end
  | _ => []
  end.

(** Lines 81-100: the template fields of the result. *)
Definition template_fields (api : Api) (template_body logical_resource_id : pyval) : dict :=
  if truthy template_body then
    match template_body with
    | PStr body =>
        if (50000 <? Z.of_nat (str_len body))%Z then
          [("templateSummary", PStr "Template retrieved but too large to include in response");
           ("hasTemplate", PBool true)]
            ++ summary_details api body logical_resource_id
        else [("template", template_body)]
    | _ => [("template", template_body)]
    end
  else [].

(** Lines 70-102. *)
Definition result (api : Api) (stack_id stack_name status status_reason
                               logical_resource_id resource_type template_body : pyval)
  : dict :=
  [("stackId", stack_id); ("stackName", stack_name); ("status", status);
   ("statusReason", status_reason); ("logicalResourceId", logical_resource_id);
   ("resourceType", resource_type); ("timestamp", PStr (now_iso api))]
    ++ template_fields api template_body logical_resource_id.

(** Lines 24-68, for a truthy [stack_id]: the names and the template found,
    or the payload of the inner [except]. *)
Definition enrich (api : Api) (stack_id stack_name status_reason logical_resource_id
                               resource_type : pyval)
  : dict + (pyval * pyval * pyval * pyval * pyval) :=
  match connect api with
  | Some e => inl (error_result api e stack_id stack_name)
  | None =>
  match describe_stacks api stack_id with
  | Raise e => inl (error_result api e stack_id stack_name)
  | Ok stacks =>
      let stack_name :=
        match stacks with
        | Some (stack :: _) => get_or stack "StackName" stack_name
        | _ => stack_name
        end in
      let template_body :=
        match get_template api stack_id with
        | Ok (Some body) => body
        | _ => PNone
        end in
      if negb (truthy stack_name) || negb (truthy logical_resource_id)
         || negb (truthy resource_type)
      then
        match describe_stack_events api stack_id with
        | Raise e => inl (error_result api e stack_id stack_name)
        | Ok events =>
            match first_failure (match events with Some l => l | None => [] end) with
            | Some ev =>
                inr (stack_name, template_body,
                     get_or ev "LogicalResourceId" logical_resource_id,
                     get_or ev "ResourceType" resource_type,
                     get_or ev "ResourceStatusReason" status_reason)
            | None =>
                inr (stack_name, template_body, logical_resource_id, resource_type,
                     status_reason)
            end
        end
      else inr (stack_name, template_body, logical_resource_id, resource_type,
                status_reason)
  end end.

(** [handler(event, context)]: the dict it returns, or the exception that
    leaves it when the outer handler fails in its turn. *)
Definition handler (api : Api) (event : dict) : res dict :=
  match detail event "stack-id", detail event "stack-name", detail event "status",
        detail event "status-reason", detail event "logical-resource-id",
        detail event "resource-type" with
  | Ok stack_id, Ok stack_name, Ok status, Ok status_reason, Ok logical_resource_id,
    Ok resource_type =>
      if truthy stack_id then
        match enrich api stack_id stack_name status_reason logical_resource_id
                     resource_type with
        | inl err => Ok err
        | inr (stack_name, template_body, logical_resource_id, resource_type,
               status_reason) =>
            Ok (result api stack_id stack_name status status_reason logical_resource_id
                       resource_type template_body)
        end
      else Ok (result api stack_id stack_name status status_reason logical_resource_id
                      resource_type PNone)
  | _, _, _, _, _, _ =>
      Raise (mkExn AttributeError "object has no attribute 'get'")
  end.

End CfnEventParser.
(* ================================================================== *)
(** ** Vocabulary of the statements *)
(* ================================================================== *)

(** A concrete environment and agent, used where a statement is evaluated. *)
Module Fixture.

Import LLMClient S3Client.

(** A stand-in for [json.loads] that agrees with it on the texts used below:
    it reads the empty list and rejects text that is no JSON. *)
Definition json_loads (text : string) : option pyval :=
  if text =? "[]" then Some (PList []) else None.

(** A stand-in for [datetime.fromisoformat] that agrees with it on the texts
    used below: four timestamps in the format of [isoformat()], which it
    parses, and the word [yesterday], which it rejects. *)
Definition fromisoformat (text : string) : option datetime :=
  if text =? "2023-05-15T10:30:45" then Some (mkDate 2023 5 15)
  else if text =? "2024-01-15T09:00:00" then Some (mkDate 2024 1 15)
  else if text =? "2024-01-15T09:00:00+00:00" then Some (mkDate 2024 1 15)
  else if text =? "2024-01-10T08:00:00" then Some (mkDate 2024 1 10)
  else None.

(** January 2024; every service answers; the model says [ok]. *)
Definition env : Env :=
  mkEnv "artifacts"
        (fun n => ("id-" ++ str_of_int (Z.of_nat n))%string)
        (fun _ => "2024-01-10T08:00:00")
        (fun _ => mkDate 2024 1 10)
        fromisoformat
        (fun _ => None)
        (fun _ _ => PDict [("content", PList [PDict [("type", PStr "text");
                                                     ("text", PStr "ok")]])])
        (fun _ => "[]")
        json_loads
        (fun _ => "<object>")
        (fun _ _ => Ok [mk "system" "S"; mk "user" "U"])
        (fun _ _ => Ok (PDict [("stub", PBool true)])).

(** A freshly constructed agent with every handle bound, over empty stores. *)
Definition agent (kind : string) : State :=
  mkState 0 [] [] [] [] []
          (PStr (kind ++ "-0a1b2c3d")) (PStr kind) (PStr "2024-01-10T07:59:59")
          (PStr "initialized") (PList [])
          true true true true.

End Fixture.

(* ================================================================== *)
(** ** The operations of section 4 *)
(* ================================================================== *)

Module Operations.

(** The eight domain agents. *)
Inductive agent : Type :=
| ProductManagerAgent | ArchitectAgent | EngineerAgent | CloudArchitectAgent
| ServerlessArchitectAgent | PropertyTargetAgent | InverseDesignAgent
| ExperimentPlanningAgent.

(** The operations the tables of section 4 list, agent by agent. *)
Inductive operation : Type :=
| PM_analyze_requirement
| PM_create_user_stories
| PM_create_competitive_analysis
| PM_create_product_requirement_doc
| Arch_create_architecture
| Arch_create_class_diagram
| Arch_create_sequence_diagram
| Arch_create_api_design
| Eng_implement_code
| Eng_review_code
| Eng_fix_bugs
| Cloud_design_cloud_architecture
| Cloud_evaluate_architecture
| Cloud_create_infrastructure_diagram
| Cloud_optimize_cost
| Cloud_design_disaster_recovery
| Cloud_analyze_cfn_failure
| Sls_design_serverless_architecture
| Sls_design_event_driven_architecture
| Sls_design_api_gateway
| Sls_optimize_lambda_functions
| Sls_design_step_functions_workflow
| Target_set_target_properties
| Target_analyze_tradeoffs
| Target_validate_targets
| Inverse_design_materials
| Inverse_rank_candidates
| Inverse_evaluate_feasibility
| Plan_create_experiment_plan
| Plan_optimize_conditions
| Plan_estimate_resources.

(** The method an operation names. *)
Definition run (env : Env) (op : operation) : dict -> M pyval :=
  match op with
  | PM_analyze_requirement => ProductManager.analyze_requirement env
  | PM_create_user_stories => ProductManager.create_user_stories env
  | PM_create_competitive_analysis => ProductManager.create_competitive_analysis env
  | PM_create_product_requirement_doc => ProductManager.create_product_requirement_doc env
  | Arch_create_architecture => Architect.create_architecture env
  | Arch_create_class_diagram => Architect.create_class_diagram env
  | Arch_create_sequence_diagram => Architect.create_sequence_diagram env
  | Arch_create_api_design => Architect.create_api_design env
  | Eng_implement_code => Engineer.implement_code env
  | Eng_review_code => Engineer.review_code env
  | Eng_fix_bugs => Engineer.fix_bugs env
  | Cloud_design_cloud_architecture => CloudArchitect.design_cloud_architecture env
  | Cloud_evaluate_architecture => CloudArchitect.evaluate_architecture env
  | Cloud_create_infrastructure_diagram => CloudArchitect.create_infrastructure_diagram env
  | Cloud_optimize_cost => CloudArchitect.optimize_cost env
  | Cloud_design_disaster_recovery => CloudArchitect.design_disaster_recovery env
  | Cloud_analyze_cfn_failure => CloudArchitect.analyze_cfn_failure env
  | Sls_design_serverless_architecture =>
      ServerlessArchitect.design_serverless_architecture env
  | Sls_design_event_driven_architecture =>
      ServerlessArchitect.design_event_driven_architecture env
  | Sls_design_api_gateway => ServerlessArchitect.design_api_gateway env
  | Sls_optimize_lambda_functions => ServerlessArchitect.optimize_lambda_functions env
  | Sls_design_step_functions_workflow =>
      ServerlessArchitect.design_step_functions_workflow env
  | Target_set_target_properties => PropertyTarget.set_target_properties env
  | Target_analyze_tradeoffs => PropertyTarget.analyze_tradeoffs env
  | Target_validate_targets => PropertyTarget.validate_targets env
  | Inverse_design_materials => InverseDesign.design_materials env
  | Inverse_rank_candidates => InverseDesign.rank_candidates env
  | Inverse_evaluate_feasibility => InverseDesign.evaluate_feasibility env
  | Plan_create_experiment_plan => ExperimentPlanning.create_experiment_plan env
  | Plan_optimize_conditions => ExperimentPlanning.optimize_conditions env
  | Plan_estimate_resources => ExperimentPlanning.estimate_resources env
  end.

(** The input fields the tables mark as required, each with the message of
    the failure the code raises for it. *)
Definition required (op : operation) : list (string * string) :=
  match op with
  | PM_analyze_requirement => [("requirement", "Requirement is required")]
  | PM_create_user_stories => [("requirement", "Requirement is required")]
  | PM_create_competitive_analysis => [("requirement", "Requirement is required")]
  | PM_create_product_requirement_doc => [("requirement", "Requirement is required")]
  | Arch_create_architecture => [("requirement", "Requirement is required")]
  | Arch_create_class_diagram =>
      [("architecture_id", "Architecture ID is required");
       ("project_id", "Project ID is required")]
  | Arch_create_sequence_diagram =>
      [("architecture_id", "Architecture ID is required");
       ("use_case", "Use case is required"); ("project_id", "Project ID is required")]
  | Arch_create_api_design =>
      [("architecture_id", "Architecture ID is required");
       ("project_id", "Project ID is required")]
  | Eng_implement_code => [("requirement", "Requirement is required")]
  | Eng_review_code =>
      [("implementation_id", "Implementation ID is required");
       ("project_id", "Project ID is required")]
  | Eng_fix_bugs =>
      [("implementation_id", "Implementation ID is required");
       ("project_id", "Project ID is required")]
  | Cloud_design_cloud_architecture => [("requirement", "Requirement is required")]
  | Cloud_evaluate_architecture =>
      [("architecture_id", "Architecture ID is required");
       ("project_id", "Project ID is required")]
  | Cloud_create_infrastructure_diagram =>
      [("architecture_id", "Architecture ID is required");
       ("project_id", "Project ID is required")]
  | Cloud_optimize_cost =>
      [("architecture_id", "Architecture ID is required");
       ("project_id", "Project ID is required")]
  | Cloud_design_disaster_recovery =>
      [("architecture_id", "Architecture ID is required");
       ("project_id", "Project ID is required")]
  | Cloud_analyze_cfn_failure =>
      [("stackId", "Stack ID is required"); ("stackName", "Stack Name is required")]
  | Sls_design_serverless_architecture => [("requirement", "Requirement is required")]
  | Sls_design_event_driven_architecture => [("requirement", "Requirement is required")]
  | Sls_design_api_gateway => [("requirement", "Requirement is required")]
  | Sls_optimize_lambda_functions =>
      [("function_code", "Function code is required"); ("runtime", "Runtime is required")]
  | Sls_design_step_functions_workflow => [("requirement", "Requirement is required")]
  | Target_set_target_properties => [("requirements", "Requirements are required")]
  | Target_analyze_tradeoffs => [("target_properties", "Target properties are required")]
  | Target_validate_targets => [("target_properties", "Target properties are required")]
  | Inverse_design_materials => [("target_properties", "Target properties are required")]
  | Inverse_rank_candidates => [("candidate_materials", "Candidate materials are required")]
  | Inverse_evaluate_feasibility => [("material", "Material is required")]
  | Plan_create_experiment_plan =>
      [("materials", "Materials are required");
       ("target_properties", "Target properties are required")]
  | Plan_optimize_conditions => [("experiment", "Experiment is required")]
  | Plan_estimate_resources => [("experiment_plan", "Experiment plan is required")]
  end.

(** A field is supplied when the input has it and its value is not empty
    ([if not value] is how the code tests it). *)
Definition supplied (input_data : dict) (field : string) : bool :=
  match get input_data field with
  | Some v => truthy v
  | None => false
  end.

(** The entry point of an agent. *)
Definition process (env : Env) (a : agent) : dict -> M pyval :=
  match a with
  | ProductManagerAgent => ProductManager.process env
  | ArchitectAgent => Architect.process env
  | EngineerAgent => Engineer.process env
  | CloudArchitectAgent => CloudArchitect.process env
  | ServerlessArchitectAgent => ServerlessArchitect.process env
  | PropertyTargetAgent => PropertyTarget.process env
  | InverseDesignAgent => InverseDesign.process env
  | ExperimentPlanningAgent => ExperimentPlanning.process env
  end.

(** The operation names an agent's [process] recognises. *)
Definition recognised (a : agent) : list string :=
  match a with
  | ProductManagerAgent =>
      ["analyze_requirement"; "create_user_stories"; "create_competitive_analysis";
       "create_product_requirement_doc"]
  | ArchitectAgent =>
      ["create_architecture"; "create_class_diagram"; "create_sequence_diagram";
       "create_api_design"]
  | EngineerAgent =>
      ["implement_code"; "review_code"; "fix_bugs"]
  | CloudArchitectAgent =>
      ["design_cloud_architecture"; "evaluate_architecture";
       "create_infrastructure_diagram"; "optimize_cost"; "design_disaster_recovery";
       "analyze_cfn_failure"]
  | ServerlessArchitectAgent =>
      ["design_serverless_architecture"; "design_event_driven_architecture";
       "design_api_gateway"; "optimize_lambda_functions";
       "design_step_functions_workflow"]
  | PropertyTargetAgent =>
      ["set_target_properties"; "analyze_tradeoffs"; "validate_targets"]
  | InverseDesignAgent =>
      ["design_materials"; "rank_candidates"; "evaluate_feasibility"]
  | ExperimentPlanningAgent =>
      ["create_experiment_plan"; "optimize_conditions"; "estimate_resources"]
  end.

(** The operations of the three Materials agents, and those of them that
    publish an event. *)
Definition is_materials (op : operation) : bool :=
  match op with
  | Target_set_target_properties | Target_analyze_tradeoffs | Target_validate_targets |
    Inverse_design_materials | Inverse_rank_candidates | Inverse_evaluate_feasibility |
    Plan_create_experiment_plan | Plan_optimize_conditions | Plan_estimate_resources =>
    true
  | _ => false
  end.

Definition event_of (op : operation) : option string :=
  match op with
  | Target_set_target_properties => Some "TargetPropertiesSet"
  | Inverse_design_materials => Some "MaterialsDesigned"
  | Plan_create_experiment_plan => Some "ExperimentPlanCreated"
  | _ => None
  end.

End Operations.

(* ================================================================== *)
(** ** agent_utils.py: listing the artifacts *)
(* ================================================================== *)

Module Listing.

Import S3Client.

(** What the listing reports of an object besides its key: [Size],
    [LastModified.isoformat()] and [ETag]. *)
Record object_info : Type := mkInfo {
  size : Z;
  last_modified : string;
  etag : string
}.

Section WithEnv.
Variable env : Env.
Variable info : string -> object_info.

(** Lines 337-356 of [S3Client.list_artifacts]: the prefix. The current year
    and the current month are read by two calls of [datetime.now()]. *)
Definition listing_prefix (project_id year month agent_type artifact_type : pyval)
  : M string :=
  let prefix := "projects/" in
  let prefix :=
    if truthy year then
      let prefix := (prefix ++ str env year ++ "/")%string in
      if truthy month then (prefix ++ str env month ++ "/")%string else prefix
    else prefix in
  if truthy project_id then
    prefix <- (if negb (truthy year) || negb (truthy month) then
                 current_year <- ask (now env) ;;
                 current_month <- ask (now env) ;;
                 ret (prefix ++ strftime_Y current_year ++ "/" ++ strftime_m current_month
                        ++ "/" ++ str env project_id ++ "/")%string
               else ret (prefix ++ str env project_id ++ "/")%string) ;;
    if truthy agent_type then
      let prefix := (prefix ++ str env agent_type ++ "/")%string in
      if truthy artifact_type then ret (prefix ++ str env artifact_type ++ "/")%string
      else ret prefix
    else ret prefix
  else ret prefix.

(** One entry of the result, lines 368-373. *)
Definition listed (key : string) : dict :=
  [("key", PStr key); ("size", PInt (size (info key)));
   ("last_modified", PStr (last_modified (info key))); ("etag", PStr (etag (info key)))].

(** [S3Client.list_artifacts]. *)
Definition list_artifacts (project_id year month agent_type artifact_type : pyval)
           (max_items : nat) : M (list dict) :=
  prefix <- listing_prefix project_id year month agent_type artifact_type ;;
  keys <- list_objects_v2 env prefix (Some max_items) ;;
  ret (map listed keys).

End WithEnv.

End Listing.

(* ================================================================== *)
(** ** The Lambda entry points of the agents *)
(* ================================================================== *)

(** The [handler] functions at the end of the eight [index.py] files under
    [lambda/action_group] (those of the domain agents) are the same code up to
    the class they construct, the table of function names, and, for three of
    them, the use of [sessionId]. *)
Module Lambda.

Import LLMClient S3Client AgentBase AgentOps Operations.

(** [s.lower()] on ASCII. *)
Definition lower_char (c : ascii) : ascii :=
  let n := nat_of_ascii c in
  if (65 <=? n)%nat && (n <=? 90)%nat then ascii_of_nat (n + 32) else c.

Fixpoint lower (s : string) : string :=
  match s with
  | "" => ""
  | String c r => String (lower_char c) (lower r)
  end.

(** The [agent_type] each subclass passes to [Agent.__init__]. *)
Definition agent_type_of (a : agent) : string :=
  match a with
  | ProductManagerAgent => "product_manager"
  | ArchitectAgent => "architect"
  | EngineerAgent => "engineer"
  | CloudArchitectAgent => "cloud_architect"
  | ServerlessArchitectAgent => "serverless_architect"
  | PropertyTargetAgent => "property_target"
  | InverseDesignAgent => "inverse_design"
  | ExperimentPlanningAgent => "experiment_planning"
  end.

(** The dict [function_to_process] of each handler. *)
Definition function_to_process (a : agent) : list (string * string) :=
  match a with
  | ProductManagerAgent =>
      [("analyze_requirement", "analyze_requirement");
       ("create_user_stories", "create_user_stories");
       ("create_competitive_analysis", "create_competitive_analysis");
       ("create_product_requirement_doc", "create_product_requirement_doc")]
  | ArchitectAgent =>
      [("create_architecture", "create_architecture");
       ("create_class_diagram", "create_class_diagram");
       ("create_sequence_diagram", "create_sequence_diagram");
       ("create_api_design", "create_api_design")]
  | EngineerAgent =>
      [("implement_code", "implement_code"); ("review_code", "review_code");
       ("fix_bugs", "fix_bugs")]
  | CloudArchitectAgent =>
      [("design_cloud_architecture", "design_cloud_architecture");
       ("evaluate_architecture", "evaluate_architecture");
       ("create_infrastructure_diagram", "create_infrastructure_diagram");
       ("optimize_cost", "optimize_cost");
       ("design_disaster_recovery", "design_disaster_recovery");
       ("analyze_cfn_failure", "analyze_cfn_failure")]
  | ServerlessArchitectAgent =>
      [("design_serverless_architecture", "design_serverless_architecture");
       ("design_event_driven_architecture", "design_event_driven_architecture");
       ("design_api_gateway", "design_api_gateway");
       ("optimize_lambda_functions", "optimize_lambda_functions");
       ("design_step_functions_workflow", "design_step_functions_workflow")]
  | PropertyTargetAgent =>
      [("set_target_properties", "set_target_properties");
       ("analyze_tradeoffs", "analyze_tradeoffs");
       ("validate_targets", "validate_targets")]
  | InverseDesignAgent =>
      [("design_materials", "design_materials"); ("rank_candidates", "rank_candidates");
       ("evaluate_feasibility", "evaluate_feasibility")]
  | ExperimentPlanningAgent =>
      [("create_experiment_plan", "create_experiment_plan");
       ("optimize_conditions", "optimize_conditions");
       ("estimate_resources", "estimate_resources")]
  end.

(** The handlers that take [sessionId] for [project_id]. *)
Definition uses_session_id (a : agent) : bool :=
  match a with
  | ArchitectAgent | EngineerAgent | CloudArchitectAgent => true
  | _ => false
  end.

Definition set_agent_id (x : pyval) (s : State) : State :=
  mkState (tick s) (heap s) (objects s) (items s) (published s) (sent s)
          x (agent_type s) (created_at s) (state s) (memory s)
          (has_state_db s) (has_artifacts s) (has_queue s) (has_events s).

(** [for param in params]: what iterating over the value yields; a string
    yields its characters, a dict its keys, a value of another kind is not
    iterable. *)
Definition iterate (v : pyval) : res (list pyval) :=
  match v with
  | PList l => Ok l
  | PStr s => Ok (map (fun c => PStr (String c "")) (list_ascii_of_string s))
  | PDict d => Ok (map (fun entry => PStr (fst entry)) d)
  | _ => Raise (mkExn TypeError "object is not iterable")
  end.

(** [name = param['name']; value = param['value']; input_data[name] = value].
    A name that is hashable but no string adds a key that no method reads. *)
Definition put_param (input_data : dict) (param : pyval) : res dict :=
  match param with
  | PDict p =>
      match get p "name" with
      | None => Raise (mkExn KeyError "'name'")
      | Some name =>
          match get p "value" with
          | None => Raise (mkExn KeyError "'value'")
          | Some value =>
              match name with
              | PStr n => Ok (set input_data n value)
              | PList _ | PDict _ => Raise (mkExn TypeError "unhashable type")
              | _ => Ok input_data
              end
          end
      end
  | _ => Raise (mkExn TypeError "indices must be integers")
  end.

Fixpoint put_params (input_data : dict) (params : list pyval) : res dict :=
  match params with
  | [] => Ok input_data
  | param :: r =>
      match put_param input_data param with
      | Ok d => put_params d r
      | Raise e => Raise e
      end
  end.

(** ['actionGroup' in event and 'function' in event]. *)
Definition bedrock_call (event : dict) : bool :=
  has_key event "actionGroup" && has_key event "function".

(** [{'error': str(e), 'status': 'failed'}]. *)
Definition error_body (e : exn) : pyval :=
  PDict [("error", PStr (emsg e)); ("status", PStr "failed")].

Section WithEnv.
Variable env : Env.

(** [json.dumps(x, ensure_ascii=False)]. *)
Variable dumps_text : pyval -> string.

(** [Agent.__init__], as the subclasses call it. Which of the handles are
    bound follows the environment variables of the function, which the
    flags of the state stand for; the clients are taken to construct. *)
Definition construct (a : agent) (agent_id : pyval) : M unit :=
  me <- (if truthy agent_id then ret agent_id
         else u <- ask (uuid4 env) ;;
              ret (PStr (agent_type_of a ++ "-" ++ substring 0 8 u))) ;;
  created <- ask (utcnow_iso env) ;;
  modify (fun s =>
            set_memory (PList [])
              (set_state (PStr "initialized")
                 (set_created_at (PStr created)
                    (set_agent_type (PStr (agent_type_of a))
                       (set_agent_id me s))))).

(** The response in the format of a Bedrock agent. *)
Definition text_response (action_group function body : pyval) : pyval :=
  PDict [("messageVersion", PStr "1.0");
         ("response",
          PDict [("actionGroup", action_group);
                 ("function", function);
                 ("functionResponse",
                  PDict [("responseBody",
                          PDict [("TEXT",
                                  PDict [("body", PStr (dumps_text body))])])])])].

(** Construct the agent, load its state when it has an id, process. *)
Definition serve (a : agent) (agent_id : pyval) (input_data : dict) : M pyval :=
  construct a agent_id ;;
  (if truthy agent_id then load_state env PNone ;; ret tt else ret tt) ;;
  process env a input_data.

(** [handler(event, context)] for an event that is a JSON object. *)
Definition handler (a : agent) (event : dict) : M pyval :=
  try_except
    (if bedrock_call event then
       let function := get_or event "function" PNone in
       let action_group := get_or event "actionGroup" PNone in
       process_type <- match function with
                       | PStr f => ret (get_or (function_to_process a) f (lower f))
                       | _ => raise AttributeError "object has no attribute 'lower'"
                       end ;;
       params <- lift (iterate (get_or event "parameters" (PList []))) ;;
       input_data <- lift (put_params [("process_type", PStr process_type)] params) ;;
       let agent_id := get_or input_data "agent_id" PNone in
       let input_data :=
         if uses_session_id a && has_key event "sessionId"
         then set input_data "project_id" (get_or event "sessionId" PNone)
         else input_data in
       result <- serve a agent_id input_data ;;
       ret (text_response action_group function result)
     else
       serve a (get_or event "agent_id" PNone) event)
    (fun e =>
       if bedrock_call event
       then ret (text_response (get_or event "actionGroup" (PStr ""))
                               (get_or event "function" (PStr ""))
                               (error_body e))
       else ret (error_body e)).

End WithEnv.

End Lambda.

Unset Implicit Arguments.

(* ================================================================== *)
(** ** Properties of the LLM client *)
(* ================================================================== *)

Module LLMClientFacts.

Import LLMClient.

(** A user message that opens the list is the only one the aggregate is
    folded into: the test [i == 0] looks at the position in the caller's list. *)
Lemma folded_when_user_comes_first (X Y : string) :
  request_messages [mk "user" Y; mk "system" X]
  = Ok [mk "user" ((X ++ LF ++ LF) ++ LF ++ LF ++ Y)].
Proof. reflexivity. Qed.

(** C1. For the input [system: X, user: Y] the one outbound message is the
    user message as it came in, with content [Y]: the system text [X] is not
    in front of it, it is lost. The user message sits at position 1 of the
    caller's list, and only position 0 is ever folded into. *)
Theorem C1_system_text_not_folded (X Y : string) :
  request_messages [mk "system" X; mk "user" Y] = Ok [mk "user" Y].
Proof.
  unfold request_messages, valid_messages.
  cbn [build_valid has_system existsb system_content].
  reflexivity.
Qed.

(** C2. Three assistant turns after a user turn leave two assistant messages
    side by side at the end of the outbound list: the scan stops at the length
    the list had before the bridge was inserted. *)
Theorem C2_adjacent_assistants_survive :
  let sent := [mk "user" "q"; mk "assistant" "a1";
               mk "user" "Please continue."; mk "assistant" "a2";
               mk "assistant" "a3"] in
  request_messages [mk "user" "q"; mk "assistant" "a1"; mk "assistant" "a2";
                    mk "assistant" "a3"] = Ok sent
  /\ alternating_upto_last_user sent = false.
Proof. split; reflexivity. Qed.

(** The scenario of the test suite: one bridge between the two assistant
    turns, the rest in order. *)
Lemma bridge_between_assistants :
  request_messages [mk "user" "1"; mk "assistant" "2"; mk "assistant" "3"; mk "user" "4"]
  = Ok [mk "user" "1"; mk "assistant" "2"; bridge_user; mk "assistant" "3"; mk "user" "4"].
Proof. reflexivity. Qed.

End LLMClientFacts.

(* ================================================================== *)
(** ** Properties of the artifact key *)
(* ================================================================== *)

Module FormatPathFacts.

Import S3Client.

Definition digits : list ascii :=
  ["0"; "1"; "2"; "3"; "4"; "5"; "6"; "7"; "8"; "9"]%char.

Lemma is_digit_in (c : ascii) : is_digit c = true -> In c digits.
Proof.
  destruct c as [[] [] [] [] [] [] [] []]; cbv; intros H;
    try discriminate H; tauto.
Qed.

Lemma clamp_is_max (n : Z) : (if (n <? 1)%Z then 1%Z else n) = Z.max 1 n.
Proof. destruct (Z.ltb_spec n 1); lia. Qed.

(** From the year 1000 on the year is printed in four digits. *)
Lemma year_in_four_digits (y : Z) :
  (1000 <= y <= 9999)%Z -> String.length (str_of_int y) = 4%nat.
Proof.
  intros Hy.
  assert (All : forallb (fun n => (String.length (str_of_int (Z.of_nat n)) =? 4)%nat)
                        (seq (Z.to_nat 1000) (Z.to_nat 9000)) = true)
    by (vm_compute; reflexivity).
  rewrite forallb_forall in All.
  specialize (All (Z.to_nat y)). rewrite Z2Nat.id in All by lia.
  apply Nat.eqb_eq. apply All. apply in_seq. lia.
Qed.

Lemma month_in_two_digits (m : Z) :
  (1 <= m <= 12)%Z -> String.length (pad2 m) = 2%nat.
Proof.
  intros Hm.
  assert (All : forallb (fun n => (String.length (pad2 (Z.of_nat n)) =? 2)%nat)
                        (seq 1 12) = true) by (vm_compute; reflexivity).
  rewrite forallb_forall in All.
  specialize (All (Z.to_nat m)). rewrite Z2Nat.id in All by lia.
  apply Nat.eqb_eq. apply All. apply in_seq. lia.
Qed.

(** C5, as amended. For a timestamp that [datetime.fromisoformat] parses (a
    [Z] read as [+00:00]) the key is
    [projects/YYYY/MM/project/agent/type/seq_N_id.json], where [YYYY] and [MM]
    are the year and the month of the date it denotes, as [strftime] prints
    them (four digits for the years 1000 to 9999, two for the month), and [N]
    is the sequence number, raised to 1 when it is smaller. The clock is not
    read and nothing is changed. *)
Theorem C5_key_of_parsed_timestamp
        (env : Env) (s : State)
        (project_id agent_type artifact_type artifact_id ts : string)
        (sequence_number : Z) (dt : datetime)
        (Hgiven : ts <> "")
        (Hparse : fromisoformat env (replace "Z" "+00:00" ts) = Some dt) :
  format_path env project_id agent_type artifact_type artifact_id (PStr ts)
              sequence_number s
  = (Ok ("projects/" ++ str_of_int (year dt) ++ "/" ++ pad2 (month dt) ++ "/"
           ++ project_id ++ "/" ++ agent_type ++ "/" ++ artifact_type ++ "/seq_"
           ++ str_of_int (Z.max 1 sequence_number) ++ "_" ++ artifact_id ++ ".json")%string,
     s)
  /\ ((1000 <= year dt <= 9999)%Z -> String.length (str_of_int (year dt)) = 4%nat)
  /\ ((1 <= month dt <= 12)%Z -> String.length (pad2 (month dt)) = 2%nat).
Proof.
  split; [|split; [apply year_in_four_digits|apply month_in_two_digits]].
  unfold format_path, bind.
  assert (T : truthy (PStr ts) = true).
  { cbn [truthy]. destruct (String.eqb_spec ts ""); [contradiction|reflexivity]. }
  rewrite T. cbn [negb].
  unfold datetime_of. rewrite Hparse. unfold ret.
  rewrite clamp_is_max. reflexivity.
Qed.

(** The key of the specification's example, by the theorem. *)
Lemma C5_key_example :
  fromisoformat Fixture.env (replace "Z" "+00:00" "2023-05-15T10:30:45")
  = Some (mkDate 2023 5 15)
  /\ format_path Fixture.env "proj123" "product_manager" "analysis" "abc123"
                 (PStr "2023-05-15T10:30:45") 5 (Fixture.agent "product_manager")
     = (Ok "projects/2023/05/proj123/product_manager/analysis/seq_5_abc123.json",
        Fixture.agent "product_manager").
Proof.
  split; [reflexivity|].
  apply (@C5_key_of_parsed_timestamp Fixture.env (Fixture.agent "product_manager")
           "proj123" "product_manager" "analysis" "abc123" "2023-05-15T10:30:45" 5
           (mkDate 2023 5 15)).
  - discriminate.
  - reflexivity.
Defined.

(** A sequence number below 1 does not appear in the key: 1 does. *)
Lemma C5_sequence_number_is_clamped :
  fst (format_path Fixture.env "proj123" "product_manager" "analysis" "abc123"
                   (PStr "2023-05-15T10:30:45") 0 (Fixture.agent "product_manager"))
  = Ok "projects/2023/05/proj123/product_manager/analysis/seq_1_abc123.json"
  /\ fst (format_path Fixture.env "proj123" "product_manager" "analysis" "abc123"
                      (PStr "2023-05-15T10:30:45") 0 (Fixture.agent "product_manager"))
     <> Ok "projects/2023/05/proj123/product_manager/analysis/seq_0_abc123.json".
Proof. split; [reflexivity|discriminate]. Qed.

End FormatPathFacts.

(* ================================================================== *)
(** ** Reasoning about effects *)
(* ================================================================== *)

Module Frames.

Import LLMClient S3Client AgentBase AgentOps.

(** What a run may touch besides the bucket and the bus: the state table, the
    queue and the agent's own fields. *)
Definition others (s : State) :=
  (items s, sent s, (agent_id s, agent_type s, created_at s, state s, memory s),
   (has_state_db s, has_artifacts s, has_queue s, has_events s)).

(** [quiet s s']: nothing outside the clock and the object heap differs. *)
Definition quiet (s s' : State) : Prop :=
  objects s' = objects s /\ published s' = published s /\ others s' = others s.

(** [calm s s']: only the clock differs. *)
Definition calm (s s' : State) : Prop := quiet s s' /\ heap s' = heap s.

Definition Quiet {A : Type} (c : M A) : Prop := forall s, quiet s (snd (c s)).
Definition Calm {A : Type} (c : M A) : Prop := forall s, calm s (snd (c s)).

Lemma quiet_refl (s : State) : quiet s s.
Proof. repeat split. Qed.

Lemma quiet_trans (a b c : State) : quiet a b -> quiet b c -> quiet a c.
Proof. unfold quiet. intros (?&?&?) (?&?&?). repeat split; congruence. Qed.

Lemma calm_refl (s : State) : calm s s.
Proof. split; [apply quiet_refl|reflexivity]. Qed.

Lemma calm_trans (a b c : State) : calm a b -> calm b c -> calm a c.
Proof.
  intros [Q1 H1] [Q2 H2]. split; [eapply quiet_trans; eassumption|congruence].
Qed.

Lemma Calm_Quiet {A : Type} (c : M A) : Calm c -> Quiet c.
Proof. intros H s. apply H. Qed.

(** *** The monad *)

Lemma bind_ok {A B : Type} (c : M A) (k : A -> M B) (s s' : State) (b : B) :
  bind c k s = (Ok b, s') ->
  exists a s1, c s = (Ok a, s1) /\ k a s1 = (Ok b, s').
Proof.
  unfold bind. destruct (c s) as [[a|e] s1]; [|discriminate].
  intros H. exists a, s1. split; [reflexivity|assumption].
Qed.

Lemma try_except_cases {A : Type} (c : M A) (h : exn -> M A) (s s' : State) (r : res A) :
  try_except c h s = (r, s') ->
  (exists a, c s = (Ok a, s') /\ r = Ok a)
  \/ (exists e s1, c s = (Raise e, s1) /\ h e s1 = (r, s')).
Proof.
  unfold try_except. destruct (c s) as [[a|e] s1]; intros H.
  - injection H as <- <-. left. exists a. split; reflexivity.
  - right. exists e, s1. split; [reflexivity|assumption].
Qed.

Section Closure.
Context {A B : Type}.

Lemma Calm_ret (a : A) : Calm (ret a).
Proof. intros s. apply calm_refl. Qed.

Lemma Calm_raise (k : exn_kind) (m : string) : Calm (@raise A k m).
Proof. intros s. apply calm_refl. Qed.

Lemma Calm_reraise (e : exn) : Calm (@reraise A e).
Proof. intros s. apply calm_refl. Qed.

Lemma Calm_lift (r : res A) : Calm (lift r).
Proof. intros s. apply calm_refl. Qed.

Lemma Calm_gets (f : State -> A) : Calm (gets f).
Proof. intros s. apply calm_refl. Qed.

Lemma Calm_ask (f : nat -> A) : Calm (ask f).
Proof. intros s. repeat split. Qed.

Lemma Calm_bind (c : M A) (k : A -> M B) :
  Calm c -> (forall a, Calm (k a)) -> Calm (bind c k).
Proof.
  intros Hc Hk s. unfold bind. specialize (Hc s).
  destruct (c s) as [[a|e] s1]; cbn [snd] in *; [|assumption].
  eapply calm_trans; [eassumption|apply Hk].
Qed.

Lemma Quiet_bind (c : M A) (k : A -> M B) :
  Quiet c -> (forall a, Quiet (k a)) -> Quiet (bind c k).
Proof.
  intros Hc Hk s. unfold bind. specialize (Hc s).
  destruct (c s) as [[a|e] s1]; cbn [snd] in *; [|assumption].
  eapply quiet_trans; [eassumption|apply Hk].
Qed.

Lemma Calm_try_except (c : M A) (h : exn -> M A) :
  Calm c -> (forall e, Calm (h e)) -> Calm (try_except c h).
Proof.
  intros Hc Hh s. unfold try_except. specialize (Hc s).
  destruct (c s) as [[a|e] s1]; cbn [snd] in *; [assumption|].
  eapply calm_trans; [eassumption|apply Hh].
Qed.

Lemma Quiet_try_except (c : M A) (h : exn -> M A) :
  Quiet c -> (forall e, Quiet (h e)) -> Quiet (try_except c h).
Proof.
  intros Hc Hh s. unfold try_except. specialize (Hc s).
  destruct (c s) as [[a|e] s1]; cbn [snd] in *; [assumption|].
  eapply quiet_trans; [eassumption|apply Hh].
Qed.
End Closure.

Lemma Calm_service_call (env : Env) : Calm (service_call env).
Proof. intros s. unfold service_call. destruct (fault env (tick s)); repeat split. Qed.

Lemma Quiet_alloc (d : dict) : Quiet (alloc d).
Proof. intros s. repeat split. Qed.

Lemma Calm_deref (l : nat) : Calm (deref l).
Proof. intros s. apply calm_refl. Qed.

Lemma Quiet_setitem (l : nat) (k : string) (v : pyval) : Quiet (setitem l k v).
Proof. intros s. repeat split. Qed.

Lemma Calm_dict_get (v : pyval) (k : string) (d : pyval) : Calm (dict_get v k d).
Proof. destruct v; first [apply Calm_ret | apply Calm_raise]. Qed.

(** Splits a goal [Calm c] or [Quiet c] along the structure of [c]. *)
Ltac frame_step :=
  match goal with
  | |- Calm (bind _ _) => apply Calm_bind; [|intros ?]
  | |- Quiet (bind _ _) => apply Quiet_bind; [|intros ?]
  | |- Calm (try_except _ _) => apply Calm_try_except; [|intros ?]
  | |- Quiet (try_except _ _) => apply Quiet_try_except; [|intros ?]
  | |- Calm (ret _) => apply Calm_ret
  | |- Calm (raise _ _) => apply Calm_raise
  | |- Calm (reraise _) => apply Calm_reraise
  | |- Calm (lift _) => apply Calm_lift
  | |- Calm (gets _) => apply Calm_gets
  | |- Calm (ask _) => apply Calm_ask
  | |- Calm (service_call _) => apply Calm_service_call
  | |- Calm (deref _) => apply Calm_deref
  | |- Calm (dict_get _ _ _) => apply Calm_dict_get
  | |- Quiet (alloc _) => apply Quiet_alloc
  | |- Quiet (setitem _ _ _) => apply Quiet_setitem
  | |- Calm (if ?b then _ else _) => destruct b
  | |- Quiet (if ?b then _ else _) => destruct b
  | |- Calm (match ?x with _ => _ end) => destruct x
  | |- Quiet (match ?x with _ => _ end) => destruct x
  | |- Calm (let _ := _ in _) => cbv zeta
  | |- Quiet (let _ := _ in _) => cbv zeta
  | H : Calm ?c |- Calm ?c => exact H
  | |- Quiet _ => apply Calm_Quiet
  end.

Ltac frame := repeat frame_step.

Section WithEnv.
Variable env : Env.

Lemma Calm_list_objects_v2 (p : string) (n : option nat) : Calm (list_objects_v2 env p n).
Proof. unfold list_objects_v2. frame. Qed.

Lemma Calm_get_artifact_sequence_number (p a t : string) :
  Calm (get_artifact_sequence_number env p a t).
Proof.
  unfold get_artifact_sequence_number. frame. apply Calm_list_objects_v2.
Qed.

Lemma Calm_datetime_of (ts : pyval) : Calm (datetime_of env ts).
Proof. unfold datetime_of. frame. Qed.

Lemma Calm_format_path (p a t i : string) (ts : pyval) (n : Z) :
  Calm (format_path env p a t i ts n).
Proof. unfold format_path. frame; apply Calm_datetime_of. Qed.

Lemma Calm_download_json (k : string) : Calm (download_json env k).
Proof. unfold download_json. frame. Qed.

Lemma Calm_download_artifact (p a t i : string) (ts : pyval) :
  Calm (download_artifact env p a t i ts).
Proof.
  unfold download_artifact. frame;
    first [apply Calm_datetime_of | apply Calm_list_objects_v2
          | apply Calm_download_json | apply Calm_format_path].
Qed.

Lemma Calm_artifacts : Calm artifacts.
Proof. unfold artifacts. frame. Qed.

Lemma Calm_content_text (blocks : list pyval) : Calm (content_text blocks).
Proof.
  induction blocks as [|b r IH]; cbn [content_text]; frame.
Qed.

Lemma Calm_ask_llm (messages : list message) : Calm (ask_llm env messages).
Proof. unfold ask_llm. frame. apply Calm_content_text. Qed.

Lemma Calm_require (v : pyval) (m : string) : Calm (require v m).
Proof. unfold require. frame. Qed.

Lemma Calm_arg_uuid (d : dict) (k : string) : Calm (arg_uuid env d k).
Proof. unfold arg_uuid. frame. Qed.

Lemma Calm_arg_now (d : dict) (k : string) : Calm (arg_now env d k).
Proof. unfold arg_now. frame. Qed.

Lemma Calm_new_id : Calm (new_id env).
Proof. unfold new_id. frame. Qed.

Lemma Calm_download (p : pyval) (a t : string) (i ts : pyval) :
  Calm (download env p a t i ts).
Proof. unfold download. frame; [apply Calm_artifacts|apply Calm_download_artifact]. Qed.

Lemma Calm_load_optional (i p : pyval) (a t f : string) (ts : pyval) :
  Calm (load_optional env i p a t f ts).
Proof. unfold load_optional. frame. apply Calm_download. Qed.

Lemma Calm_load_required (w : string) (i p : pyval) (a t f1 f2 : string) (d2 ts : pyval) :
  Calm (load_required env w i p a t f1 f2 d2 ts).
Proof. unfold load_required. frame. apply Calm_download. Qed.

End WithEnv.

End Frames.

(* ================================================================== *)
(** ** Properties of the artifact store client *)
(* ================================================================== *)

Module S3ClientFacts.

Import S3Client Frames.

Lemma get_set_same (V : Type) (d : list (string * V)) (k : string) (v : V) :
  get (set d k v) k = Some v.
Proof.
  induction d as [|[k' v'] r IH]; cbn [set get].
  - rewrite String.eqb_refl. reflexivity.
  - destruct (k' =? k) eqn:E; cbn [get]; rewrite E; [reflexivity|exact IH].
Qed.

Lemma nth_list_set_same (A : Type) (l : list A) (i : nat) (x dflt : A) :
  (i < List.length l)%nat -> nth i (list_set l i x) dflt = x.
Proof.
  revert i. induction l as [|a r IH]; intros [|i] H; cbn in *; try lia.
  - reflexivity.
  - apply IH. lia.
Qed.

Lemma nth_list_set_other (A : Type) (l : list A) (i j : nat) (x dflt : A) :
  i <> j -> nth j (list_set l i x) dflt = nth j l dflt.
Proof.
  revert i j. induction l as [|a r IH]; intros [|i] [|j] H; cbn; try reflexivity.
  - contradiction.
  - apply IH. congruence.
Qed.

Lemma length_list_set (A : Type) (l : list A) (i : nat) (x : A) :
  List.length (list_set l i x) = List.length l.
Proof.
  revert i. induction l as [|a r IH]; intros [|i]; cbn; try reflexivity.
  rewrite IH. reflexivity.
Qed.

Section WithEnv.
Variable env : Env.

Lemma upload_json_heap (d : dict) (k : string) (s : State) :
  heap (snd (upload_json env d k s)) = heap s.
Proof.
  unfold upload_json, bind, service_call, modify, ret.
  destruct (fault env (tick s)); reflexivity.
Qed.

(** What a successful [upload_artifact] leaves behind: the sequence number
    it found, the key it wrote, and the heap with the caller's dict stamped. *)
Lemma upload_artifact_ok (data : nat) (p a t i : string) (ts : pyval)
      (s s' : State) (r : upload_result) :
  upload_artifact env data p a t i ts s = (Ok r, s') ->
  exists s1 s2,
    get_artifact_sequence_number env p a t s = (Ok (sequence_number r), s1)
    /\ format_path env p a t i ts (sequence_number r) s1 = (Ok (s3_key r), s2)
    /\ heap s' = list_set (heap s) data
                   (set (nth data (heap s) []) "sequence_number"
                        (PInt (sequence_number r)))
    /\ objects s' = put_object (objects s) (s3_key r) (PDict (nth data (heap s') []))
    /\ published s' = published s /\ others s' = others s.
Proof.
  intros H. unfold upload_artifact in H.
  apply bind_ok in H as (n & s1 & H1 & H).
  apply bind_ok in H as (key & s2 & H2 & H).
  apply bind_ok in H as ([] & s3 & H3 & H).
  apply bind_ok in H as (d & s4 & H4 & H).
  apply bind_ok in H as (resp & s5 & H5 & H).
  injection H as <- <-. cbn [sequence_number s3_key].
  exists s1, s2. split; [exact H1|]. split; [exact H2|].
  pose proof (Calm_get_artifact_sequence_number env p a t s) as [(O1 & P1 & R1) G1].
  rewrite H1 in *. cbn [snd] in *.
  pose proof (Calm_format_path env p a t i ts n s1) as [(O2 & P2 & R2) G2].
  rewrite H2 in *. cbn [snd] in *.
  unfold setitem, modify in H3. injection H3 as <-.
  unfold deref in H4. injection H4 as <- <-.
  unfold upload_json, bind, service_call, modify, ret in H5.
  destruct (fault env _); [discriminate|]. injection H5 as <- <-.
  cbn [heap objects published set_objects set_tick set_heap].
  rewrite G2, G1, O2, O1, P2, P1.
  split; [reflexivity|]. split; [reflexivity|]. split; [reflexivity|].
  rewrite <- R1, <- R2. reflexivity.
Qed.

(** C10. A successful [upload_artifact] stamps the dict object the caller
    passed: the object at the caller's reference now has [sequence_number]
    set to the returned number, its other entries are as before, and no
    other object is created or changed (the document was not copied). *)
Theorem C10_upload_artifact_stamps_callers_dict
        (data : nat) (p a t i : string) (ts : pyval) (s s' : State)
        (r : upload_result)
        (Hcall : upload_artifact env data p a t i ts s = (Ok r, s'))
        (Hdata : (data < List.length (heap s))%nat) :
  get (nth data (heap s') []) "sequence_number" = Some (PInt (sequence_number r))
  /\ nth data (heap s') []
     = set (nth data (heap s) []) "sequence_number" (PInt (sequence_number r))
  /\ List.length (heap s') = List.length (heap s)
  /\ (forall l, l <> data -> nth l (heap s') [] = nth l (heap s) []).
Proof.
  apply upload_artifact_ok in Hcall as (s1 & s2 & _ & _ & Hheap & _).
  rewrite Hheap.
  rewrite nth_list_set_same by assumption.
  split; [apply get_set_same|]. split; [reflexivity|].
  split; [apply length_list_set|].
  intros l Hl. apply nth_list_set_other. congruence.
Qed.

End WithEnv.

(** The caller's dict [{"id": "1", "name": "test"}] after an upload into an
    empty bucket. *)
Definition stamped_example : State :=
  set_heap [[("id", PStr "1"); ("name", PStr "test")]] (Fixture.agent "product_manager").

Lemma C10_stamped_example :
  exists r s',
    upload_artifact Fixture.env 0 "proj123" "product_manager" "analysis" "abc123"
                    (PStr "2023-05-15T10:30:45") stamped_example = (Ok r, s')
    /\ (0 < List.length (heap stamped_example))%nat
    /\ get (nth 0 (heap s') []) "sequence_number" = Some (PInt (sequence_number r))
    /\ nth 0 (heap s') []
       = [("id", PStr "1"); ("name", PStr "test"); ("sequence_number", PInt 1)].
Proof.
  eexists. eexists.
  split; [vm_compute; reflexivity|].
  split; [cbn; lia|].
  split.
  - refine (proj1 (@C10_upload_artifact_stamps_callers_dict
                     Fixture.env 0 "proj123" "product_manager" "analysis" "abc123"
                     (PStr "2023-05-15T10:30:45") stamped_example _ _ _ _)).
    + vm_compute. reflexivity.
    + cbn. lia.
  - reflexivity.
Defined.

End S3ClientFacts.

(* ================================================================== *)
(** ** Upload, then download *)
(* ================================================================== *)

Module RoundTripFacts.

Import S3Client Frames.

(** *** Decimal text *)

(** The number a digit sequence denotes after the digits read so far. *)
Fixpoint uint_val (acc : Z) (d : Decimal.uint) : Z :=
  match d with
  | Decimal.Nil => acc
  | Decimal.D0 l => uint_val (10 * acc + 0) l
  | Decimal.D1 l => uint_val (10 * acc + 1) l
  | Decimal.D2 l => uint_val (10 * acc + 2) l
  | Decimal.D3 l => uint_val (10 * acc + 3) l
  | Decimal.D4 l => uint_val (10 * acc + 4) l
  | Decimal.D5 l => uint_val (10 * acc + 5) l
  | Decimal.D6 l => uint_val (10 * acc + 6) l
  | Decimal.D7 l => uint_val (10 * acc + 7) l
  | Decimal.D8 l => uint_val (10 * acc + 8) l
  | Decimal.D9 l => uint_val (10 * acc + 9) l
  end.

Lemma digits_val_string_of_uint (d : Decimal.uint) (acc : Z) :
  digits_val acc (NilEmpty.string_of_uint d) = Some (uint_val acc d).
Proof.
  revert acc. induction d; intros acc; cbn [NilEmpty.string_of_uint digits_val uint_val];
    try reflexivity; apply IHd.
Qed.

Fixpoint all_digits (s : string) : bool :=
  match s with
  | "" => true
  | String c r => is_digit c && all_digits r
  end.

Lemma all_digits_string_of_uint (d : Decimal.uint) :
  all_digits (NilEmpty.string_of_uint d) = true.
Proof. induction d; cbn; try reflexivity; assumption. Qed.

Lemma uint_val_acc (d : Decimal.uint) (acc : positive) :
  uint_val (Z.pos acc) d = Z.pos (Pos.of_uint_acc d acc).
Proof.
  revert acc. induction d; intros acc; cbn [uint_val Pos.of_uint_acc];
    try reflexivity; rewrite <- IHd; f_equal; lia.
Qed.

Lemma uint_val_of_uint (d : Decimal.uint) : uint_val 0 d = Z.of_N (Pos.of_uint d).
Proof.
  induction d; cbn [uint_val Pos.of_uint]; try reflexivity;
    try (exact IHd);
    match goal with
    | |- uint_val ?k _ = _ => change k with (Z.pos (Z.to_pos k)); rewrite uint_val_acc; reflexivity
    end.
Qed.

Lemma to_uint_not_nil (p : positive) : Pos.to_uint p <> Decimal.Nil.
Proof.
  intros E. pose proof (DecimalPos.Unsigned.of_to p) as H. rewrite E in H. discriminate H.
Qed.

Lemma str_of_int_pos (p : positive) :
  str_of_int (Z.pos p) = NilEmpty.string_of_uint (Pos.to_uint p).
Proof.
  unfold str_of_int. cbn [Z.to_int NilZero.string_of_int].
  unfold NilZero.string_of_uint.
  destruct (Pos.to_uint p) eqn:E; try reflexivity.
  exfalso. exact (to_uint_not_nil p E).
Qed.

Lemma lstrip_digits (s : string) : all_digits s = true -> lstrip s = s.
Proof.
  destruct s as [|c r]; [reflexivity|]. cbn [all_digits lstrip]. intros H.
  apply andb_prop in H as [Hc _].
  apply FormatPathFacts.is_digit_in in Hc.
  cbn in Hc. repeat (destruct Hc as [<-|Hc]; [reflexivity|]). contradiction.
Qed.

Lemma rstrip_digits (s : string) : all_digits s = true -> rstrip s = s.
Proof.
  induction s as [|c r IH]; [reflexivity|]. cbn [all_digits rstrip]. intros H.
  apply andb_prop in H as [Hc Hr]. rewrite (IH Hr).
  destruct r; [|reflexivity].
  apply FormatPathFacts.is_digit_in in Hc.
  cbn in Hc. repeat (destruct Hc as [<-|Hc]; [reflexivity|]). contradiction.
Qed.

(** [int(str(n)) == n] for a positive [n]. *)
Lemma int_of_str_of_int (n : Z) : (1 <= n)%Z -> int_of_str (str_of_int n) = Some n.
Proof.
  intros Hn. destruct n as [|p|p]; try lia.
  rewrite str_of_int_pos.
  pose proof (all_digits_string_of_uint (Pos.to_uint p)) as Hd.
  unfold int_of_str, strip. rewrite (lstrip_digits _ Hd), (rstrip_digits _ Hd).
  assert (Hv : unsigned_val (NilEmpty.string_of_uint (Pos.to_uint p)) = Some (Z.pos p)).
  { unfold unsigned_val.
    destruct (NilEmpty.string_of_uint (Pos.to_uint p)) eqn:E.
    - exfalso. apply (to_uint_not_nil p).
      destruct (Pos.to_uint p); try discriminate E; reflexivity.
    - rewrite <- E, digits_val_string_of_uint, uint_val_of_uint.
      rewrite DecimalPos.Unsigned.of_to. reflexivity. }
  destruct (NilEmpty.string_of_uint (Pos.to_uint p)) as [|c r] eqn:E; [exact Hv|].
  cbn [all_digits] in Hd. apply andb_prop in Hd as [Hc _].
  apply FormatPathFacts.is_digit_in in Hc. cbn in Hc.
  repeat (destruct Hc as [<-|Hc]; [exact Hv|]). contradiction.
Qed.

Lemma has_char_digits (c : ascii) (s : string) :
  is_digit c = false -> all_digits s = true -> has_char c s = false.
Proof.
  intros Hc. induction s as [|a r IH]; [reflexivity|]. cbn [all_digits has_char].
  intros H. apply andb_prop in H as [Ha Hr]. rewrite (IH Hr), orb_false_r.
  destruct (Ascii.eqb a c) eqn:E; [|reflexivity].
  apply Ascii.eqb_eq in E. congruence.
Qed.

Lemma has_char_str_of_int (c : ascii) (n : Z) :
  is_digit c = false -> (1 <= n)%Z -> has_char c (str_of_int n) = false.
Proof.
  intros Hc Hn. destruct n as [|p|p]; try lia. rewrite str_of_int_pos.
  apply has_char_digits; [assumption|apply all_digits_string_of_uint].
Qed.

(** *** Text *)

Lemma append_assoc (a b c : string) : ((a ++ b) ++ c = a ++ (b ++ c))%string.
Proof. induction a as [|x a IH]; cbn; [reflexivity|rewrite IH; reflexivity]. Qed.

Lemma has_char_app (c : ascii) (a b : string) :
  has_char c (a ++ b) = has_char c a || has_char c b.
Proof.
  induction a as [|x a IH]; cbn; [reflexivity|].
  rewrite IH. apply orb_assoc.
Qed.

Lemma split_no_sep (c : ascii) (s : string) : has_char c s = false -> split c s = [s].
Proof.
  induction s as [|a r IH]; [reflexivity|]. cbn [has_char split]. intros H.
  apply orb_false_elim in H as [Ha Hr]. rewrite Ha, (IH Hr). reflexivity.
Qed.

Lemma split_app (c : ascii) (a b : string) :
  has_char c a = false -> split c (a ++ String c b) = a :: split c b.
Proof.
  induction a as [|x a IH]; cbn [has_char split append]; intros H.
  - rewrite Ascii.eqb_refl. reflexivity.
  - apply orb_false_elim in H as [Hx Ha]. rewrite Hx, (IH Ha). reflexivity.
Qed.

Lemma split_last (c : ascii) (a b : string) :
  has_char c b = false ->
  exists w ws, split c (a ++ String c b) = w :: ws /\ last_item ws = Some b.
Proof.
  intros Hb. induction a as [|x a (w & ws & E & L)]; cbn [append split].
  - rewrite Ascii.eqb_refl, (split_no_sep _ _ Hb). exists "", [b]. split; reflexivity.
  - rewrite E. destruct (Ascii.eqb x c).
    + exists "", (w :: ws). split; [reflexivity|].
      destruct ws; [discriminate L|exact L].
    + exists (String x w), ws. split; [reflexivity|exact L].
Qed.

Lemma filename_of_app (dir name : string) :
  has_char "/" name = false -> filename_of (dir ++ String "/" name) = name.
Proof.
  intros H. unfold filename_of.
  destruct (split_last "/" dir name H) as (w & ws & -> & L).
  cbn [last_item]. destruct ws; [discriminate L|]. rewrite L. reflexivity.
Qed.

Lemma prefix_app (a b : string) : prefix a (a ++ b) = true.
Proof.
  induction a as [|x a IH]; cbn; [destruct b; reflexivity|].
  destruct (ascii_dec x x); [exact IH|contradiction].
Qed.

Lemma prefix_refl (s : string) : prefix s s = true.
Proof.
  induction s as [|x s IH]; cbn; [reflexivity|].
  destruct (ascii_dec x x); [exact IH|contradiction].
Qed.

Lemma contains_refl (s : string) : contains s s = true.
Proof. destruct s; cbn [contains]; rewrite prefix_refl; reflexivity. Qed.

Lemma contains_app (a sub : string) : contains sub (a ++ sub) = true.
Proof.
  induction a as [|x a IH]; cbn [append]; [apply contains_refl|].
  cbn [contains]. rewrite IH. apply orb_true_r.
Qed.

Lemma ltb_irrefl (s : string) : String.ltb s s = false.
Proof.
  unfold String.ltb. pose proof (String.compare_antisym s s) as H.
  destruct (String.compare s s); try reflexivity; discriminate H.
Qed.

(** *** The bucket *)

Lemma get_put_object (objs : list (string * pyval)) (k : string) (v : pyval) :
  get (put_object objs k v) k = Some v.
Proof.
  induction objs as [|[k' v'] r IH]; cbn [put_object].
  - cbn. rewrite String.eqb_refl. reflexivity.
  - destruct (k' =? k) eqn:E.
    + cbn. rewrite String.eqb_refl. reflexivity.
    + destruct (String.ltb k k'); cbn [get]; [|rewrite E; exact IH].
      rewrite String.eqb_refl. reflexivity.
Qed.

Lemma keys_put_object (p : string) (objs : list (string * pyval)) (k : string) (v : pyval)
      (x : string) :
  In x (keys_with_prefix p (put_object objs k v)) ->
  x = k \/ In x (keys_with_prefix p objs).
Proof.
  unfold keys_with_prefix. rewrite !filter_In.
  intros [Hin Hp]. enough (x = k \/ In x (map fst objs)) by tauto. clear Hp.
  induction objs as [|[k' v'] r IH]; cbn [put_object] in Hin.
  - cbn in Hin. destruct Hin as [<-|[]]. left. reflexivity.
  - destruct (k' =? k) eqn:E.
    + apply String.eqb_eq in E. subst k'. cbn in Hin |- *. tauto.
    + destruct (String.ltb k k'); cbn in Hin |- *.
      * destruct Hin as [<-|Hin]; [left; reflexivity|tauto].
      * destruct Hin as [<-|Hin]; [tauto|]. destruct (IH Hin); tauto.
Qed.

Lemma key_in_put_object (p : string) (objs : list (string * pyval)) (k : string) (v : pyval) :
  prefix p k = true -> In k (keys_with_prefix p (put_object objs k v)).
Proof.
  intros Hp. unfold keys_with_prefix. apply filter_In. split; [|exact Hp].
  induction objs as [|[k' v'] r IH]; cbn [put_object].
  - left. reflexivity.
  - destruct (k' =? k); [left; reflexivity|].
    destruct (String.ltb k k'); [left; reflexivity|right; exact IH].
Qed.

Lemma length_keys_put_object (p : string) (objs : list (string * pyval)) (k : string)
      (v : pyval) :
  (List.length (keys_with_prefix p (put_object objs k v))
   <= S (List.length (keys_with_prefix p objs)))%nat.
Proof.
  unfold keys_with_prefix.
  induction objs as [|[k' v'] r IH]; cbn [put_object map filter fst].
  - destruct (prefix p k); cbn; lia.
  - destruct (k' =? k) eqn:E.
    + apply String.eqb_eq in E. subst k'. cbn [map filter fst].
      destruct (prefix p k); cbn; lia.
    + destruct (String.ltb k k'); cbn [map filter fst].
      * destruct (prefix p k), (prefix p k'); cbn; lia.
      * destruct (prefix p k'); cbn [List.length]; lia.
Qed.

(** *** Sequence numbers *)

Lemma max_seq_from_ge (keys : list string) (acc : Z) : (acc <= max_seq_from acc keys)%Z.
Proof.
  revert acc. induction keys as [|k r IH]; intros acc; cbn [max_seq_from]; [lia|].
  destruct (prefix "seq_" (filename_of k)); [|apply IH].
  destruct (seq_of_filename (filename_of k)) as [n|]; [|apply IH].
  specialize (IH (Z.max acc n)). lia.
Qed.

Lemma max_seq_from_bound (keys : list string) (acc : Z) (k : string) (n : Z) :
  In k keys -> prefix "seq_" (filename_of k) = true ->
  seq_of_filename (filename_of k) = Some n ->
  (n <= max_seq_from acc keys)%Z.
Proof.
  revert acc. induction keys as [|k' r IH]; intros acc Hin Hp Hn; [contradiction|].
  cbn [max_seq_from]. destruct Hin as [->|Hin].
  - rewrite Hp, Hn. pose proof (max_seq_from_ge r (Z.max acc n)). lia.
  - destruct (prefix "seq_" (filename_of k')); [|apply IH; assumption].
    destruct (seq_of_filename (filename_of k')); apply IH; assumption.
Qed.

Lemma matching_keys_in (id : string) (keys : list string) (n : Z) (k : string) :
  In (n, k) (matching_keys id keys) ->
  In k keys /\ seq_of_filename (filename_of k) = Some n.
Proof.
  induction keys as [|k' r IH]; cbn [matching_keys]; [contradiction|].
  destruct (contains ("_" ++ id ++ ".json") (filename_of k')).
  - destruct (seq_of_filename (filename_of k')) as [n'|] eqn:E.
    + intros [H|H]; [injection H as <- <-; split; [left; reflexivity|exact E]|].
      destruct (IH H). split; [right|]; assumption.
    + intros H. destruct (IH H). split; [right|]; assumption.
  - intros H. destruct (IH H). split; [right|]; assumption.
Qed.

Lemma matching_keys_intro (id : string) (keys : list string) (n : Z) (k : string) :
  In k keys -> contains ("_" ++ id ++ ".json") (filename_of k) = true ->
  seq_of_filename (filename_of k) = Some n ->
  In (n, k) (matching_keys id keys).
Proof.
  intros Hin Hc Hn. induction keys as [|k' r IH]; [contradiction|].
  cbn [matching_keys]. destruct Hin as [->|Hin].
  - rewrite Hc, Hn. left. reflexivity.
  - destruct (contains ("_" ++ id ++ ".json") (filename_of k')); [|apply IH; assumption].
    destruct (seq_of_filename (filename_of k')); [right|]; apply IH; assumption.
Qed.

Lemma greatest_in (l : list (Z * string)) (y : Z * string) :
  greatest l = Some y -> In y l.
Proof.
  revert y. induction l as [|x r IH]; intros y; cbn [greatest]; [discriminate|].
  destruct (greatest r) as [z|].
  - destruct (tuple_ltb x z); intros H; injection H as <-;
      [right; apply IH; reflexivity|left; reflexivity].
  - intros H. injection H as <-. left. reflexivity.
Qed.

Lemma tuple_ltb_lt (a b : Z * string) : (fst a < fst b)%Z -> tuple_ltb a b = true.
Proof. intros H. unfold tuple_ltb. apply Z.ltb_lt in H. rewrite H. reflexivity. Qed.

Lemma tuple_ltb_gt (a b : Z * string) : (fst b < fst a)%Z -> tuple_ltb a b = false.
Proof.
  intros H. unfold tuple_ltb.
  destruct (Z.ltb_spec (fst a) (fst b)); [lia|].
  destruct (Z.eqb_spec (fst a) (fst b)); [lia|]. reflexivity.
Qed.

Lemma tuple_ltb_irrefl (a : Z * string) : tuple_ltb a a = false.
Proof. unfold tuple_ltb. rewrite Z.ltb_irrefl, ltb_irrefl, andb_false_r. reflexivity. Qed.

(** The entry whose number exceeds every other one is the greatest. *)
Lemma greatest_dominant (l : list (Z * string)) (x : Z * string) :
  In x l -> (forall y, In y l -> y = x \/ (fst y < fst x)%Z) -> greatest l = Some x.
Proof.
  induction l as [|x0 r IH]; intros Hin Hdom; [contradiction|].
  cbn [greatest].
  destruct (greatest r) as [y|] eqn:G.
  - pose proof (greatest_in _ _ G) as Hy.
    destruct (Hdom y (or_intror Hy)) as [->|Hlt].
    + destruct (Hdom x0 (or_introl eq_refl)) as [->|Hlt0].
      * rewrite tuple_ltb_irrefl. reflexivity.
      * rewrite (tuple_ltb_lt _ _ Hlt0). reflexivity.
    + destruct Hin as [->|Hin].
      * rewrite (tuple_ltb_gt _ _ Hlt). reflexivity.
      * pose proof (IH Hin (fun z Hz => Hdom z (or_intror Hz))) as G'.
        injection G' as ->. lia.
  - destruct r as [|z r]; [|cbn [greatest] in G; destruct (greatest r);
                              [destruct (tuple_ltb z p)|]; discriminate G].
    destruct Hin as [->|[]]. reflexivity.
Qed.

(** *** The round trip *)

(** The directory of a month's artifacts of one kind. *)
Definition month_dir (y m : Z) (project_id agent_type artifact_type : string) : string :=
  artifact_prefix (mkDate y m 1) project_id agent_type artifact_type.

(** [timestamp] selects the month [y]-[m] when the clock is in that month: it
    is missing or empty (the clock is used), or a string that
    [datetime.fromisoformat] does not parse (the clock is used), or a string
    that it parses to a date of that month. *)
Definition in_month (env : Env) (y m : Z) (timestamp : pyval) : Prop :=
  if truthy timestamp then
    match timestamp with
    | PStr ts =>
        match fromisoformat env (replace "Z" "+00:00" ts) with
        | Some dt => year dt = y /\ month dt = m
        | None => True
        end
    | _ => False
    end
  else True.

(** The name [upload_artifact] gives the object. *)
Definition artifact_name (n : Z) (artifact_id : string) : string :=
  ("seq_" ++ str_of_int n ++ "_" ++ artifact_id ++ ".json")%string.

Lemma artifact_prefix_month (dt : datetime) (y m : Z) (p a t : string) :
  year dt = y -> month dt = m -> artifact_prefix dt p a t = month_dir y m p a t.
Proof.
  intros <- <-. unfold month_dir, artifact_prefix, strftime_Y, strftime_m. reflexivity.
Qed.

Lemma month_dir_slash (y m : Z) (p a t : string) :
  exists d, month_dir y m p a t = (d ++ "/")%string.
Proof.
  unfold month_dir, artifact_prefix.
  exists ("projects/" ++ strftime_Y (mkDate y m 1) ++ "/" ++ strftime_m (mkDate y m 1)
            ++ "/" ++ p ++ "/" ++ a ++ "/" ++ t)%string.
  repeat rewrite append_assoc. reflexivity.
Qed.

Lemma artifact_name_no_slash (n : Z) (id : string) :
  (1 <= n)%Z -> has_char "/" id = false -> has_char "/" (artifact_name n id) = false.
Proof.
  intros Hn Hid. unfold artifact_name.
  rewrite !has_char_app, Hid, (has_char_str_of_int "/" n eq_refl Hn). reflexivity.
Qed.

Lemma filename_of_artifact (y m : Z) (p a t : string) (n : Z) (id : string) :
  (1 <= n)%Z -> has_char "/" id = false ->
  filename_of (month_dir y m p a t ++ artifact_name n id) = artifact_name n id.
Proof.
  intros Hn Hid. destruct (month_dir_slash y m p a t) as [d ->].
  rewrite append_assoc. apply filename_of_app. apply artifact_name_no_slash; assumption.
Qed.

Lemma seq_of_artifact_name (n : Z) (id : string) :
  (1 <= n)%Z -> seq_of_filename (artifact_name n id) = Some n.
Proof.
  intros Hn. unfold seq_of_filename, artifact_name.
  change ("seq_" ++ str_of_int n ++ "_" ++ id ++ ".json")%string
    with ("seq" ++ String "_" (str_of_int n ++ String "_" (id ++ ".json")))%string.
  rewrite (split_app "_" "seq" _ eq_refl).
  rewrite (split_app "_" (str_of_int n) _ (has_char_str_of_int "_" n eq_refl Hn)).
  cbn [nth_error]. apply int_of_str_of_int. exact Hn.
Qed.

Lemma artifact_name_matches (n : Z) (id : string) :
  contains ("_" ++ id ++ ".json") (artifact_name n id) = true.
Proof.
  unfold artifact_name.
  replace ("seq_" ++ str_of_int n ++ "_" ++ id ++ ".json")%string
    with (("seq_" ++ str_of_int n) ++ ("_" ++ id ++ ".json"))%string
    by (rewrite append_assoc; reflexivity).
  apply contains_app.
Qed.

Section RoundTrip.
Variable env : Env.
Variables y m : Z.

(** Every service answers, and the clock stays within the month [y]-[m]. *)
Hypothesis Hserv : forall n, fault env n = None.
Hypothesis Hclock : forall n, year (now env n) = y /\ month (now env n) = m.

Lemma clock_dir (n : nat) (p a t : string) :
  artifact_prefix (now env n) p a t = month_dir y m p a t.
Proof. destruct (Hclock n). apply artifact_prefix_month; assumption. Qed.

Lemma list_objects_v2_value (p : string) (cap : option nat) (s : State) :
  (List.length (keys_with_prefix p (objects s)) <= 1000)%nat ->
  (cap = None \/ cap = Some 1000%nat) ->
  list_objects_v2 env p cap s
  = (Ok (keys_with_prefix p (objects s)), set_tick (S (tick s)) s).
Proof.
  intros Hlen Hcap. unfold list_objects_v2, bind, service_call, gets, ret.
  rewrite Hserv. cbn [objects set_tick].
  rewrite firstn_all2; [reflexivity|].
  destruct Hcap as [-> | ->]; [exact Hlen|].
  rewrite Nat.min_id. exact Hlen.
Qed.

Lemma get_artifact_sequence_number_value (p a t : string) (s : State) :
  (List.length (keys_with_prefix (month_dir y m p a t) (objects s)) <= 1000)%nat ->
  get_artifact_sequence_number env p a t s
  = (Ok (max_seq_from 0 (keys_with_prefix (month_dir y m p a t) (objects s)) + 1)%Z,
     set_tick (S (S (tick s))) s).
Proof.
  intros Hlen. unfold get_artifact_sequence_number, try_except, bind, ask.
  rewrite clock_dir.
  rewrite list_objects_v2_value; [reflexivity| exact Hlen | right; reflexivity].
Qed.

(** The date both [_format_path] and [download_artifact] settle on. *)
Lemma timestamp_month (ts : pyval) (s : State) :
  in_month env y m ts ->
  exists dt s',
    (if truthy ts then datetime_of env ts else ask (now env)) s = (Ok dt, s')
    /\ year dt = y /\ month dt = m /\ calm s s'.
Proof.
  intros Hts. unfold in_month in Hts. destruct (truthy ts) eqn:T.
  - destruct ts; try contradiction.
    unfold datetime_of.
    destruct (fromisoformat env (replace "Z" "+00:00" s0)) as [dt|].
    + exists dt, s. destruct Hts. repeat split; assumption.
    + exists (now env (tick s)), (set_tick (S (tick s)) s).
      destruct (Hclock (tick s)). repeat split; assumption.
  - exists (now env (tick s)), (set_tick (S (tick s)) s).
    destruct (Hclock (tick s)). repeat split; assumption.
Qed.

Lemma format_path_value (p a t id : string) (ts : pyval) (n : Z) (s : State) :
  in_month env y m ts -> (1 <= n)%Z ->
  exists s',
    format_path env p a t id ts n s
    = (Ok (month_dir y m p a t ++ artifact_name n id)%string, s')
    /\ calm s s'.
Proof.
  intros Hts Hn.
  destruct (timestamp_month ts s Hts) as (dt & s' & E & Hy & Hm & C).
  exists s'. split; [|exact C].
  unfold format_path, bind.
  replace (if negb (truthy ts) then ask (now env) else datetime_of env ts)
    with (if truthy ts then datetime_of env ts else ask (now env))
    by (destruct (truthy ts); reflexivity).
  rewrite E. unfold ret.
  destruct (Z.ltb_spec n 1); [lia|].
  rewrite <- (artifact_prefix_month dt y m p a t Hy Hm).
  unfold artifact_prefix, artifact_name.
  repeat rewrite append_assoc. reflexivity.
Qed.

(** Where the round trip does hold. Let every service answer and the clock
    stay within one month, the month the timestamp selects. Let the artifact
    id hold no [/], and let the month's directory of this (project, agent
    type, artifact type) hold fewer than 1000 objects, all named [seq_...].
    Then uploading the caller's document and downloading with the same
    identifiers and timestamp both succeed, and the download returns the
    document with [sequence_number] set to the number the upload returned.
    The rest of the bucket is arbitrary. *)
Theorem upload_then_download_in_the_clocks_month
        (data : nat) (p a t id : string) (ts : pyval) (s : State)
        (Hts : in_month env y m ts)
        (Hid : has_char "/" id = false)
        (Hdata : (data < List.length (heap s))%nat)
        (Hcap : (List.length (keys_with_prefix (month_dir y m p a t) (objects s)) < 1000)%nat)
        (Hnames : forall k, In k (keys_with_prefix (month_dir y m p a t) (objects s)) ->
                            prefix "seq_" (filename_of k) = true) :
  exists r s1 s2,
    upload_artifact env data p a t id ts s = (Ok r, s1)
    /\ download_artifact env p a t id ts s1
       = (Ok (PDict (set (nth data (heap s) []) "sequence_number"
                         (PInt (sequence_number r)))), s2).
Proof.
  set (dir := month_dir y m p a t) in *.
  set (n := (max_seq_from 0 (keys_with_prefix dir (objects s)) + 1)%Z).
  assert (Hn : (1 <= n)%Z)
    by (pose proof (max_seq_from_ge (keys_with_prefix dir (objects s)) 0); lia).
  set (key := (dir ++ artifact_name n id)%string).
  set (doc := set (nth data (heap s) []) "sequence_number" (PInt n)).
  (* the upload *)
  destruct (format_path_value p a t id ts n (set_tick (S (S (tick s))) s) Hts Hn)
    as (sa & Epath & (Oa & _ & _) & Ga).
  cbn [objects heap set_tick] in Oa, Ga.
  assert (Eup : exists s1,
             upload_artifact env data p a t id ts s
             = (Ok (mkUpload (PDict []) key (bucket_name env) n), s1)
             /\ objects s1 = put_object (objects s) key (PDict doc)).
  { unfold upload_artifact, bind.
    rewrite get_artifact_sequence_number_value by (fold dir; lia).
    fold dir n. rewrite Epath. fold key.
    unfold upload_json, setitem, deref, bind, service_call, modify, ret.
    rewrite Hserv. cbn [heap objects set_heap set_tick set_objects].
    rewrite Ga, Oa, (S3ClientFacts.nth_list_set_same _ _ _ _ _ Hdata).
    eexists. split; reflexivity. }
  destruct Eup as (s1 & Eup & O1).
  exists (mkUpload (PDict []) key (bucket_name env) n), s1.
  (* the listing seen by the download *)
  set (keys1 := keys_with_prefix dir (objects s1)).
  assert (Hlen1 : (List.length keys1 <= 1000)%nat).
  { unfold keys1. rewrite O1.
    pose proof (length_keys_put_object dir (objects s) key (PDict doc)). lia. }
  assert (Hkey : In key keys1).
  { unfold keys1. rewrite O1. apply key_in_put_object. apply prefix_app. }
  assert (Hfile : filename_of key = artifact_name n id)
    by (apply filename_of_artifact; assumption).
  assert (Hbest : greatest (matching_keys id keys1) = Some (n, key)).
  { apply greatest_dominant.
    - apply matching_keys_intro; [exact Hkey| |]; rewrite Hfile.
      + apply artifact_name_matches.
      + apply seq_of_artifact_name. exact Hn.
    - intros [n' k'] Hin. apply matching_keys_in in Hin as [Hk' Hn'].
      unfold keys1 in Hk'. rewrite O1 in Hk'.
      apply keys_put_object in Hk' as [->|Hold].
      + left. rewrite Hfile, (seq_of_artifact_name n id Hn) in Hn'.
        injection Hn' as <-. reflexivity.
      + right. cbn [fst].
        pose proof (max_seq_from_bound _ 0 k' n' Hold (Hnames k' Hold) Hn'). lia. }
  (* the download *)
  destruct (timestamp_month ts s1 Hts) as (dt & sb & Edt & Hy & Hm & (Ob & _ & _) & _).
  eexists. split; [exact Eup|].
  unfold download_artifact, bind, try_except. cbn [sequence_number].
  rewrite Edt. rewrite (artifact_prefix_month dt y m p a t Hy Hm). fold dir.
  rewrite list_objects_v2_value by (rewrite ?Ob; fold keys1; auto).
  rewrite Ob. fold keys1. rewrite Hbest.
  unfold download_json, try_except, bind, service_call, gets, ret.
  rewrite Hserv. cbn [objects set_tick]. rewrite Ob, O1, get_put_object.
  reflexivity.
Qed.

End RoundTrip.

(** A bucket with two artifacts of the kind written and one of a sibling
    kind, January 2024. *)
Definition january_bucket : State :=
  set_objects
    [("projects/2024/01/proj123/product_manager/analysis/seq_1_def456.json",
      PDict [("analysis", PStr "first")]);
     ("projects/2024/01/proj123/product_manager/analysis/seq_2_ghi789.json",
      PDict [("analysis", PStr "second")]);
     ("projects/2024/01/proj123/product_manager/prd/seq_7_abc123.json",
      PDict [("prd", PStr "sibling")])]
    (set_heap [[("analysis", PStr "third")]] (Fixture.agent "product_manager")).

Lemma upload_then_download_example :
  exists r s1 s2,
    upload_artifact Fixture.env 0 "proj123" "product_manager" "analysis" "abc123"
                    (PStr "2024-01-15T09:00:00Z") january_bucket = (Ok r, s1)
    /\ download_artifact Fixture.env "proj123" "product_manager" "analysis" "abc123"
                         (PStr "2024-01-15T09:00:00Z") s1
       = (Ok (PDict (set (nth 0 (heap january_bucket) []) "sequence_number"
                         (PInt (sequence_number r)))), s2).
Proof.
  apply (upload_then_download_in_the_clocks_month Fixture.env 2024 1).
  - intros n. reflexivity.
  - intros n. split; reflexivity.
  - cbn. split; reflexivity.
  - reflexivity.
  - cbn. lia.
  - vm_compute. lia.
  - intros k Hk. vm_compute in Hk.
    destruct Hk as [<-|[<-|[]]]; reflexivity.
Defined.

(** An earlier version of the artifact, written in May 2023 under number 2. *)
Definition may_bucket : State :=
  set_objects
    [("projects/2023/05/proj123/product_manager/analysis/seq_2_abc123.json",
      PDict [("analysis", PStr "old"); ("sequence_number", PInt 2)])]
    (set_heap [[("analysis", PStr "new")]] (Fixture.agent "product_manager")).

(** C6 does not hold of the code. [_get_artifact_sequence_number] numbers the
    upload from the listing of the clock's month, while [_format_path] and
    [download_artifact] file and look under the month of the timestamp. In
    January 2024 a document is uploaded with a timestamp of May 2023 and read
    back with the same identifiers and timestamp: the numbering looked at
    January's directory, the object went to May's under number 1, and the
    reader returns the older object of number 2, not the document written. *)
Theorem C6_older_version_shadows_upload :
  now Fixture.env 0 = mkDate 2024 1 10
  /\ fromisoformat Fixture.env (replace "Z" "+00:00" "2023-05-15T10:30:45")
     = Some (mkDate 2023 5 15)
  /\ fst (bind (upload_artifact Fixture.env 0 "proj123" "product_manager" "analysis"
                                "abc123" (PStr "2023-05-15T10:30:45"))
               (fun r =>
                  bind (download_artifact Fixture.env "proj123" "product_manager"
                                          "analysis" "abc123" (PStr "2023-05-15T10:30:45"))
                       (fun d => ret (sequence_number r, s3_key r, d)))
               may_bucket)
     = Ok (1%Z, "projects/2023/05/proj123/product_manager/analysis/seq_1_abc123.json",
           PDict [("analysis", PStr "old"); ("sequence_number", PInt 2)])
  /\ PDict [("analysis", PStr "old"); ("sequence_number", PInt 2)]
     <> PDict (set [("analysis", PStr "new")] "sequence_number" (PInt 1)).
Proof.
  split; [reflexivity|]. split; [reflexivity|].
  split; [vm_compute; reflexivity|discriminate].
Qed.

End RoundTripFacts.

(* ================================================================== *)
(** ** Properties of the CloudFormation event parser *)
(* ================================================================== *)

Module CfnEventParserFacts.

Import CfnEventParser.

(** What the claim says of a result that carries the summary. *)
Definition summarised (r : dict) : Prop :=
  get r "hasTemplate" = Some (PBool true)
  /\ (exists note, get r "templateSummary" = Some (PStr note))
  /\ get r "template" = None.

(** What it says of a result that carries the template itself. *)
Definition verbatim (r : dict) (body : pyval) : Prop :=
  get r "template" = Some body
  /\ get r "hasTemplate" = None
  /\ get r "templateSummary" = None.

Lemma get_app_none (V : Type) (a b : list (string * V)) (k : string) :
  get a k = None -> get (a ++ b) k = get b k.
Proof.
  induction a as [|[k' v] r IH]; cbn [get app]; [reflexivity|].
  destruct (k' =? k); [discriminate|exact IH].
Qed.

Lemma summary_details_no_template (api : Api) (text : string) (lr : pyval) :
  get (summary_details api text lr) "template" = None.
Proof.
  unfold summary_details.
  destruct (json_loads api text) as [[| | | | |l|template_json]|]; try reflexivity.
  destruct (get_or template_json "Resources" (PDict [])) as [| | | | | |resources];
    try reflexivity.
  cbn [get String.eqb Ascii.eqb Bool.eqb].
  destruct lr; try reflexivity.
  destruct (truthy (PStr s)); [|reflexivity].
  destruct (get resources s); reflexivity.
Qed.

Lemma template_fields_spec (api : Api) (body lr : pyval) :
  truthy body = true ->
  let fields := template_fields api body lr in
  match body with
  | PStr text =>
      if (50000 <? Z.of_nat (str_len text))%Z
      then summarised fields
      else verbatim fields body
  | _ => verbatim fields body
  end.
Proof.
  intros T. unfold template_fields. rewrite T. cbv zeta.
  destruct body; try (repeat split; reflexivity).
  destruct (50000 <? Z.of_nat (str_len s))%Z.
  - split; [reflexivity|]. split; [eexists; reflexivity|].
    cbn [app get String.eqb Ascii.eqb Bool.eqb].
    apply summary_details_no_template.
  - repeat split; reflexivity.
Qed.

(** The regular result carries the template fields as they are. *)
Lemma result_template_fields (api : Api) (i n st sr lr rt body : pyval) (k : string) :
  k = "template" \/ k = "hasTemplate" \/ k = "templateSummary" ->
  get (result api i n st sr lr rt body) k = get (template_fields api body lr) k.
Proof.
  intros H. unfold result. apply get_app_none.
  destruct H as [->|[->| ->]]; reflexivity.
Qed.

(** C7, as amended. When the handler returns its regular result (not the
    error payload) and a non-empty template body was retrieved: a body that is
    a string of more than 50,000 characters (code points, as [len] counts
    them) gives [hasTemplate = true], a [templateSummary] string and no
    [template]; a string of at most 50,000 characters, and any body that is
    not a string (a parsed template), is put
    under [template] as it is, with neither [hasTemplate] nor
    [templateSummary]. *)
Theorem C7_template_threshold
        (api : Api) (event r : dict) (stack_id body : pyval)
        (Hrun : handler api event = Ok r)
        (Hregular : get r "error" = None)
        (Hid : detail event "stack-id" = Ok stack_id)
        (Hstack : truthy stack_id = true)
        (Htemplate : get_template api stack_id = Ok (Some body))
        (Hbody : truthy body = true) :
  match body with
  | PStr text =>
      if (50000 <? Z.of_nat (str_len text))%Z then summarised r else verbatim r body
  | _ => verbatim r body
  end.
Proof.
  unfold handler in Hrun. rewrite Hid in Hrun.
  destruct (detail event "stack-name") as [name|]; [|destruct (Ok stack_id); discriminate].
  destruct (detail event "status") as [status|]; [|discriminate].
  destruct (detail event "status-reason") as [reason|]; [|discriminate].
  destruct (detail event "logical-resource-id") as [lr|]; [|discriminate].
  destruct (detail event "resource-type") as [rt|]; [|discriminate].
  rewrite Hstack in Hrun. unfold enrich in Hrun. rewrite Htemplate in Hrun.
  pose proof (fun lr' => template_fields_spec api body lr' Hbody) as Spec.
  cbv zeta in Spec.
  assert (Done : forall n st sr l t,
             r = result api stack_id n st sr l t body ->
             match body with
             | PStr text =>
                 if (50000 <? Z.of_nat (str_len text))%Z
                 then summarised r else verbatim r body
             | _ => verbatim r body
             end).
  { intros n st sr l t ->. specialize (Spec l).
    unfold summarised, verbatim in *.
    rewrite !result_template_fields by tauto.
    exact Spec. }
  destruct (connect api);
    [injection Hrun as <-; discriminate Hregular|].
  destruct (describe_stacks api stack_id) as [stacks|];
    [|injection Hrun as <-; discriminate Hregular].
  destruct (negb _ || negb _ || negb _).
  - destruct (describe_stack_events api stack_id) as [events|];
      [|injection Hrun as <-; discriminate Hregular].
    destruct (first_failure _); injection Hrun as Hrun;
      eapply Done; symmetry; exact Hrun.
  - injection Hrun as Hrun. eapply Done; symmetry; exact Hrun.
Qed.

(** Fixtures: a text of [n] characters; an API that knows the stack and
    serves [body] as its template, the event history answering as [events]
    says. *)
Fixpoint text_of_length (n : nat) : string :=
  match n with
  | O => ""
  | S k => String "x" (text_of_length k)
  end.

Definition long_text : string := text_of_length (Z.to_nat 50001).

Definition api_serving (body : pyval) (events : res (option (list dict))) : Api :=
  mkApi None
        (fun _ => Ok (Some [[("StackName", PStr "demo-stack")]]))
        (fun _ => Ok (Some body))
        (fun _ => events)
        "2024-01-10T08:00:00"
        Fixture.json_loads.

(** An event that names the stack, the failed resource and its type, so that
    the event history is not asked for. *)
Definition complete_event : dict :=
  [("detail", PDict [("stack-id", PStr "arn:aws:cloudformation:stack/demo/1");
                     ("stack-name", PStr "demo-stack");
                     ("status", PStr "CREATE_FAILED");
                     ("logical-resource-id", PStr "Bucket");
                     ("resource-type", PStr "AWS::S3::Bucket")])].

(** An event that carries the stack id only. *)
Definition bare_event : dict :=
  [("detail", PDict [("stack-id", PStr "arn:aws:cloudformation:stack/demo/1")])].

Lemma length_text_of_length (n : nat) : str_len (text_of_length n) = n.
Proof.
  induction n as [|n IH]; [reflexivity|].
  cbn [text_of_length]. change (str_len (String "x" (text_of_length n)))
    with (S (str_len (text_of_length n))).
  rewrite IH. reflexivity.
Qed.

(** The three bytes of a code point outside ASCII (here U+3042) count once. *)
Lemma str_len_counts_code_points :
  str_len (String (ascii_of_nat 227) (String (ascii_of_nat 129)
                                             (String (ascii_of_nat 130) "")))
  = 1%nat.
Proof. reflexivity. Qed.

Lemma long_text_is_long : (50000 <? Z.of_nat (str_len long_text))%Z = true.
Proof.
  unfold long_text. rewrite length_text_of_length, Z2Nat.id by lia. reflexivity.
Qed.

(** What the handler answers when the template is [long_text]. *)
Definition long_template_result : dict :=
  [("stackId", PStr "arn:aws:cloudformation:stack/demo/1");
   ("stackName", PStr "demo-stack");
   ("status", PStr "CREATE_FAILED");
   ("statusReason", PStr "");
   ("logicalResourceId", PStr "Bucket");
   ("resourceType", PStr "AWS::S3::Bucket");
   ("timestamp", PStr "2024-01-10T08:00:00");
   ("templateSummary", PStr "Template retrieved but too large to include in response");
   ("hasTemplate", PBool true)].

Lemma long_template_handled :
  handler (api_serving (PStr long_text) (Ok None)) complete_event = Ok long_template_result.
Proof.
  unfold handler, complete_event. cbn [detail get_or get String.eqb Ascii.eqb Bool.eqb].
  cbn [truthy String.eqb negb].
  unfold enrich. cbn [api_serving connect describe_stacks get_template get_or get
                      String.eqb Ascii.eqb Bool.eqb].
  assert (T : truthy (PStr long_text) = true) by reflexivity.
  cbn [truthy String.eqb negb orb].
  unfold result, template_fields. rewrite T, long_text_is_long.
  unfold summary_details.
  assert (J : json_loads (api_serving (PStr long_text) (Ok None)) long_text = None)
    by reflexivity.
  rewrite J. reflexivity.
Qed.

Lemma C7_long_template_is_summarised :
  handler (api_serving (PStr long_text) (Ok None)) complete_event = Ok long_template_result
  /\ summarised long_template_result.
Proof.
  split; [exact long_template_handled|].
  pose proof (@C7_template_threshold
                (api_serving (PStr long_text) (Ok None)) complete_event
                long_template_result
                (PStr "arn:aws:cloudformation:stack/demo/1") (PStr long_text)
                long_template_handled eq_refl eq_refl eq_refl eq_refl eq_refl) as H.
  cbv beta iota in H. rewrite long_text_is_long in H. exact H.
Defined.

(** Two inputs on which the claim as stated fails. First: a two-character
    template was retrieved, then the event history failed; the handler returns
    the error payload, without [template]. Second: the template came back
    parsed, as a dict holding a text of 50,001 characters; it is put under
    [template] as it is, and there is no [hasTemplate]. *)
Lemma C7_template_not_always_reported :
  (exists r,
      handler (api_serving (PStr "{}") (Raise (mkExn ServiceError "Rate exceeded")))
              bare_event = Ok r
      /\ get r "error" = Some (PStr "Rate exceeded")
      /\ get r "template" = None)
  /\ (exists r,
         handler (api_serving (PDict [("Description", PStr long_text)]) (Ok None))
                 complete_event = Ok r
         /\ str_len long_text = Z.to_nat 50001
         /\ get r "template" = Some (PDict [("Description", PStr long_text)])
         /\ get r "hasTemplate" = None
         /\ get r "templateSummary" = None).
Proof.
  split.
  - eexists. split; [reflexivity|]. split; reflexivity.
  - eexists. split; [reflexivity|].
    split; [apply length_text_of_length|].
    repeat split; reflexivity.
Qed.

End CfnEventParserFacts.

(* ================================================================== *)
(** ** Properties of the domain agents *)
(* ================================================================== *)

Module AgentFacts.

Import LLMClient S3Client AgentBase AgentOps Frames Operations.

(** A required field is read with an empty default, so the value tested is
    non-empty exactly when the field is supplied. *)
Lemma truthy_get_or (input_data : dict) (field : string) (dflt : pyval) :
  truthy dflt = false -> truthy (get_or input_data field dflt) = supplied input_data field.
Proof.
  intros H. unfold get_or, supplied. destruct (get input_data field); [reflexivity|exact H].
Qed.

Lemma omitted_not_supplied (input_data : dict) (field : string) :
  get input_data field = None -> supplied input_data field = false.
Proof. intros H. unfold supplied. rewrite H. reflexivity. Qed.

(** What C3 says of one run: an invalid-input failure for a required field
    that is not supplied, raised while nothing but the clock has moved (no
    object written, no record persisted, no memory appended, no event or
    message emitted); the field is the omitted one when nothing else is
    lacking. *)
Definition rejects (op : operation) (input_data : dict) (field msg : string)
           (s : State) (out : res pyval * State) : Prop :=
  exists field' msg',
    In (field', msg') (required op)
    /\ supplied input_data field' = false
    /\ fst out = Raise (mkExn ValueError msg')
    /\ calm s (snd out)
    /\ ((forall f m, In (f, m) (required op) -> f <> field -> supplied input_data f = true)
        -> msg' = msg).

(** Runs the code up to its next [if not ...: raise], on both outcomes. *)
Ltac next_check :=
  match goal with
  | |- context [truthy (get_or ?d ?k ?v)] =>
      rewrite (truthy_get_or d k v eq_refl);
      let T := fresh "T" in
      destruct (supplied d k) eqn:T
  end.

(** Closes the case where the check on [k] fails with message [m]. *)
Ltac rejected_at k m :=
  exists k, m; cbn [required In fst snd];
  split; [tauto|];
  split; [assumption|];
  split; [reflexivity|];
  split; [repeat split|];
  intros Others;
  try reflexivity;
  exfalso;
  match goal with
  | T : supplied _ k = false |- _ =>
      rewrite (Others k m) in T; [discriminate T | cbn [required In]; tauto | discriminate]
  end.

Ltac rejected :=
  match goal with
  | T : supplied _ ?k = false |- rejects _ _ _ _ _ (Raise (mkExn _ ?m), _) =>
      rejected_at k m
  end.

Section WithEnv.
Variable env : Env.

(** C3. Whatever the operation of section 4, an input that omits a field
    its table marks required makes the operation raise an invalid-input
    failure ([ValueError]) whose message is that of a required field the input
    does not supply (the omitted field itself when the other required fields
    are supplied), and up to that failure no artifact is written, no state
    record persisted, no memory record appended, and no event or message
    emitted: only identifiers and the clock were read. *)
Theorem C3_required_field_validation
        (op : operation) (input_data : dict) (field msg : string) (s : State)
        (Hrequired : In (field, msg) (required op))
        (Homitted : get input_data field = None) :
  rejects op input_data field msg s (run env op input_data s).
Proof.
  apply omitted_not_supplied in Homitted.
  destruct op; cbn [required In] in Hrequired;
    repeat match goal with
           | H : _ \/ _ |- _ => destruct H as [H|H]
           | H : False |- _ => destruct H
           | H : (_, _) = (_, _) |- _ => injection H as <- <-
           end.
  all: cbn [run].
  all: match goal with
       | |- rejects _ _ _ _ _ (?f env _ _) => unfold f
       end.
  all: unfold bind at 1.
  all: unfold arg_uuid, arg_now, bind, ask, ret.
  all: cbv beta iota.
  all: unfold require.
  all: repeat (next_check; cbv beta iota; unfold raise, ret; cbv beta iota;
               [ | try rejected ]).
  all: exfalso; congruence.
Qed.

(** The messages of an unrecognised [process_type]. *)
Definition unknown_type (v : pyval) : string :=
  ("Unknown process type: " ++ str env v)%string.

(** C4, as the code has it. An input whose [process_type] is none of the
    agent's operation names changes nothing at all, not even the clock; seven
    of the eight agents answer with the failure value, the Architect raises
    the [ValueError] to its caller. *)
Theorem C4_unknown_process_type
        (a : agent) (input_data : dict) (v : pyval) (s : State)
        (Htype : get input_data "process_type" = Some v)
        (Hunknown : forallb (fun name => negb (is_str v name)) (recognised a) = true) :
  process env a input_data s =
  (match a with
   | ArchitectAgent => Raise (mkExn ValueError (unknown_type v))
   | _ => Ok (PDict [("status", PStr "failed"); ("error", PStr (unknown_type v))])
   end, s).
Proof.
  destruct a; cbn [recognised forallb] in Hunknown;
    repeat match goal with
           | H : _ && _ = true |- _ =>
               let H1 := fresh "N" in
               apply andb_prop in H; destruct H as [H1 H];
               apply negb_true_iff in H1
           end;
    cbn [process].
  all: match goal with
       | |- ?f env _ _ = _ => unfold f
       end.
  all: unfold get_or; rewrite Htype; cbv zeta.
  all: unfold try_except.
  all: repeat match goal with
              | N : is_str _ _ = false |- _ => rewrite N; clear N
              end.
  all: reflexivity.
Qed.

End WithEnv.

(** A class diagram asked for without its architecture. *)
Lemma C3_class_diagram_without_architecture :
  rejects Arch_create_class_diagram [("project_id", PStr "p1")]
          "architecture_id" "Architecture ID is required"
          (Fixture.agent "architect")
          (run Fixture.env Arch_create_class_diagram [("project_id", PStr "p1")]
               (Fixture.agent "architect")).
Proof.
  apply C3_required_field_validation.
  - cbn [required In]. left. reflexivity.
  - reflexivity.
Defined.

(** The product manager asked for an operation it does not have. *)
Lemma C4_product_manager_answers_failed :
  process Fixture.env ProductManagerAgent [("process_type", PStr "unknown_type")]
          (Fixture.agent "product_manager")
  = (Ok (PDict [("status", PStr "failed");
                ("error", PStr "Unknown process type: unknown_type")]),
     Fixture.agent "product_manager").
Proof.
  apply (C4_unknown_process_type Fixture.env ProductManagerAgent
           [("process_type", PStr "unknown_type")] (PStr "unknown_type")).
  - reflexivity.
  - reflexivity.
Defined.

(** The architect's entry point has no handler around its dispatch. *)
Lemma C4_architect_raises_to_caller :
  process Fixture.env ArchitectAgent [("process_type", PStr "unknown_type")]
          (Fixture.agent "architect")
  = (Raise (mkExn ValueError "Unknown process type: unknown_type"),
     Fixture.agent "architect").
Proof. reflexivity. Qed.

End AgentFacts.

(* ================================================================== *)
(** ** Properties of [load_state] *)
(* ================================================================== *)

Module LoadStateFacts.

Import AgentBase Frames.

Section WithEnv.
Variable env : Env.

(** The record [load_state] reads: the one with the given [stateId], or the
    agent's latest when none is given. *)
Definition stored (state_id : pyval) (s : State) : option dict :=
  if truthy state_id
  then find (fun it => same_key it [("agentId", agent_id s); ("stateId", state_id)])
            (items s)
  else latest_record (str env (agent_id s)) (items s).

Lemma fetch_record (state_id : pyval) (s : State) :
  fault env (tick s) = None ->
  (if truthy state_id
   then me <- gets agent_id ;;
        get_item env [("agentId", me); ("stateId", state_id)]
   else me <- gets agent_id ;;
        found <- query_latest env me ;;
        ret (match found with it :: _ => Some it | [] => None end)) s
  = (Ok (stored state_id s), set_tick (S (tick s)) s).
Proof.
  intros F. unfold stored.
  destruct (truthy state_id);
    unfold get_item, query_latest, bind, gets, service_call, ret;
    rewrite F; cbn [items agent_id set_tick].
  - reflexivity.
  - destruct (latest_record _ _); reflexivity.
Qed.

(** [load_state] always returns its flag: nothing escapes the handler. *)
Lemma load_state_returns_flag (state_id : pyval) (s : State) :
  exists b s', load_state env state_id s = (Ok b, s').
Proof.
  unfold load_state, bind at 1, gets at 1.
  destruct (negb (has_state_db s)); [eexists; eexists; reflexivity|].
  unfold try_except.
  match goal with
  | |- exists b s', match ?c with _ => _ end = _ => destruct c as [[b|e] s1]
  end; eexists; eexists; reflexivity.
Qed.

(** When the store itself fails, the flag is false and the agent's fields
    are as before. *)
Lemma load_state_store_error (state_id : pyval) (s : State) (e : exn) :
  has_state_db s = true ->
  fault env (tick s) = Some e ->
  load_state env state_id s = (Ok false, set_tick (S (tick s)) s).
Proof.
  intros B F. unfold load_state, bind at 1, gets at 1. rewrite B. cbn [negb].
  unfold try_except, bind at 1.
  destruct (truthy state_id);
    unfold get_item, query_latest, bind, gets, service_call, ret;
    rewrite F; reflexivity.
Qed.

(** C8. A stored record whose [memory] text does not deserialise makes
    [load_state] return false after it has already taken [agent_type] and
    [state] from the record: the two fields are overwritten, only [memory]
    and [created_at] keep their values. *)
Theorem C8_failed_load_overwrites_fields
        (state_id : pyval) (s : State) (k : string) (v : pyval) (it : dict)
        (text : string)
        (Hbound : has_state_db s = true)
        (Hserves : fault env (tick s) = None)
        (Hstored : stored state_id s = Some ((k, v) :: it))
        (Hmemory : get ((k, v) :: it) "memory" = Some (PStr text))
        (Hnot_json : json_loads env text = None) :
  exists s',
    load_state env state_id s = (Ok false, s')
    /\ agent_type s' = get_or ((k, v) :: it) "agentType" (agent_type s)
    /\ state s' = get_or ((k, v) :: it) "state" (state s)
    /\ memory s' = memory s
    /\ created_at s' = created_at s.
Proof.
  unfold load_state, bind at 1, gets at 1. rewrite Hbound. cbn [negb].
  unfold try_except, bind at 1.
  rewrite (fetch_record state_id s Hserves), Hstored.
  assert (Hm : get_or ((k, v) :: it) "memory" (PStr "[]") = PStr text)
    by (unfold get_or; rewrite Hmemory; reflexivity).
  unfold bind, modify. rewrite Hm.
  unfold loads. rewrite Hnot_json. unfold raise, ret.
  eexists. split; [reflexivity|].
  cbn [agent_type state memory created_at set_agent_type set_state set_tick].
  repeat split.
Qed.

End WithEnv.

(** A product manager whose table holds one record, written by an engineer,
    with a truncated [memory]. *)
Definition damaged_record : dict :=
  [("agentId", PStr "product_manager-0a1b2c3d");
   ("stateId", PStr "2024-01-09T00:00:00");
   ("agentType", PStr "engineer");
   ("state", PStr "code_implemented");
   ("memory", PStr "[{");
   ("createdAt", PStr "2023-12-31T00:00:00")].

Definition damaged_agent : State :=
  set_items [damaged_record] (Fixture.agent "product_manager").

Lemma C8_damaged_record_example :
  agent_type damaged_agent = PStr "product_manager"
  /\ state damaged_agent = PStr "initialized"
  /\ exists s',
       load_state Fixture.env PNone damaged_agent = (Ok false, s')
       /\ agent_type s' = PStr "engineer"
       /\ state s' = PStr "code_implemented"
       /\ memory s' = memory damaged_agent
       /\ created_at s' = created_at damaged_agent.
Proof.
  split; [reflexivity|]. split; [reflexivity|].
  apply (C8_failed_load_overwrites_fields Fixture.env PNone damaged_agent
           "agentId" (PStr "product_manager-0a1b2c3d") (tl damaged_record) "[{");
    reflexivity.
Defined.

End LoadStateFacts.

(* ================================================================== *)
(** ** What the Materials agents leave behind *)
(* ================================================================== *)

Module MaterialsFacts.

Import LLMClient S3Client AgentBase AgentOps Frames S3ClientFacts Operations.

Lemma Calm_run (A : Type) (c : M A) (s s' : State) (r : res A) :
  Calm c -> c s = (r, s') -> calm s s'.
Proof. intros H E. specialize (H s). rewrite E in H. exact H. Qed.

Lemma others_fields (s s' : State) :
  others s' = others s ->
  items s' = items s /\ sent s' = sent s /\ agent_type s' = agent_type s
  /\ state s' = state s /\ memory s' = memory s /\ has_events s' = has_events s.
Proof.
  unfold others. intros H. injection H as H1 H2 H3 H4 H5 H6 H7 H8 H9 H10 H11.
  repeat split; assumption.
Qed.

Section WithEnv.
Variable env : Env.

Lemma Calm_mark_ranks (l : list pyval) (i : Z) : Calm (InverseDesign.mark_ranks i l).
Proof.
  revert i. induction l as [|x r IH]; intros i; cbn [InverseDesign.mark_ranks].
  - apply Calm_ret.
  - destruct x; try apply Calm_raise.
    apply Calm_bind; [apply IH|intros ?; apply Calm_ret].
Qed.

Lemma Calm_parse_ranked_materials (v : pyval) :
  Calm (InverseDesign.parse_ranked_materials v).
Proof.
  unfold InverseDesign.parse_ranked_materials.
  destruct v; try apply Calm_raise.
  apply Calm_bind; [apply Calm_mark_ranks|intros ?; apply Calm_ret].
Qed.

(** One artifact written, nothing else touched. *)
Definition one_write (s s' : State) : Prop :=
  (exists key doc, objects s' = put_object (objects s) key doc)
  /\ published s' = published s /\ others s' = others s.

Lemma upload_fresh_ok (data : dict) (p : pyval) (a t : string) (ts : pyval)
      (s s' : State) (r : upload_result) :
  upload_fresh env data p a t ts s = (Ok r, s') -> one_write s s'.
Proof.
  intros H. unfold upload_fresh in H.
  apply bind_ok in H as ([] & s1 & H1 & H).
  apply bind_ok in H as (d & s2 & H2 & H).
  apply bind_ok in H as (i & s3 & H3 & H).
  apply (Calm_run _ _ _ _ _ Calm_artifacts) in H1 as [(O1 & P1 & R1) _].
  unfold alloc in H2. injection H2 as <- <-.
  apply (Calm_run _ _ _ _ _ (Calm_new_id env)) in H3 as [(O3 & P3 & R3) _].
  apply upload_artifact_ok in H as (_ & _ & _ & _ & _ & O & P & R).
  cbn [objects published set_heap] in *.
  split; [|split].
  - eexists. eexists. rewrite O, O3, O1. reflexivity.
  - congruence.
  - rewrite R, R3. rewrite <- R1. reflexivity.
Qed.

(** [emit_event] publishes one entry when a bus is bound, none otherwise. *)
Definition one_event (name : string) (s s' : State) : Prop :=
  objects s' = objects s /\ others s' = others s
  /\ if has_events s
     then exists source detail, published s' = published s ++ [(source, name, detail)]
     else published s' = published s.

Lemma emit_event_ok (name : string) (detail : dict) (s s' : State) (r : pyval) :
  emit_event env name detail s = (Ok r, s') -> one_event name s s'.
Proof.
  unfold emit_event, bind at 1, gets at 1, one_event.
  destruct (has_events s) eqn:B; cbn [negb].
  - unfold bind, gets, service_call, modify, ret.
    destruct (fault env (tick s)); [discriminate|].
    intros H. injection H as <- <-.
    split; [reflexivity|]. split; [reflexivity|].
    eexists. eexists. reflexivity.
  - unfold ret. intros H. injection H as <- <-. repeat split.
Qed.

(** The steps of an operation that only read. *)
Ltac reads :=
  first [ apply Calm_arg_uuid | apply Calm_arg_now | apply Calm_require
        | apply Calm_lift | apply Calm_ask_llm | apply Calm_parse_ranked_materials
        | apply Calm_ret ].

(** Splits a successful run into its steps. *)
Ltac steps H :=
  repeat first
    [ apply bind_ok in H; destruct H as (? & ? & ? & H)
    | apply try_except_cases in H;
      destruct H as [(? & H & ?) | (? & ? & ? & H)] ].

(** What each step did to the state. *)
Ltac effects :=
  repeat match goal with
         | H : upload_fresh _ _ _ _ _ _ _ = (Ok _, _) |- _ =>
             apply upload_fresh_ok in H; destruct H as ((? & ? & ?) & ? & ?)
         | H : emit_event _ _ _ _ = (Ok _, _) |- _ =>
             apply emit_event_ok in H; destruct H as (? & ? & H)
         | H : ?c ?s = (_, _) |- _ =>
             apply (Calm_run _ c s _ _) in H; [destruct H as [(? & ? & ?) ?] | reads]
         end.

(** C9, as the code has it. A successful operation of a Materials agent
    appends no memory record, leaves the state label alone, persists no
    state record and sends no message; it writes one artifact; and it
    publishes one event exactly when it is [set_target_properties],
    [design_materials] or [create_experiment_plan] and the agent has an
    event bus. *)
Theorem C9_materials_frame
        (op : operation) (input_data : dict) (s s' : State) (d : dict)
        (Hop : is_materials op = true)
        (Hrun : run env op input_data s = (Ok (PDict d), s'))
        (Hsuccess : get d "status" = Some (PStr "success")) :
  memory s' = memory s /\ state s' = state s
  /\ items s' = items s /\ sent s' = sent s
  /\ (exists key doc, objects s' = put_object (objects s) key doc)
  /\ match event_of op with
     | Some name =>
         if has_events s
         then exists source detail, published s' = published s ++ [(source, name, detail)]
         else published s' = published s
     | None => published s' = published s
     end.
Proof.
  destruct op; try discriminate Hop; clear Hop; cbn [run] in Hrun; cbn [event_of].
  all: match type of Hrun with ?f env _ _ = _ => unfold f in Hrun end.
  all: cbv zeta in Hrun.
  all: steps Hrun.
  all: try (unfold failed, ret in Hrun; injection Hrun as <- <-; discriminate Hsuccess).
  all: unfold ret in Hrun; injection Hrun as <- <-; clear Hsuccess.
  all: effects.
  all: match goal with
       | |- _ /\ _ /\ _ /\ _ /\ _ /\ published ?t = _ => idtac
       | H : if has_events ?t then _ else _ |- _ =>
           let R := fresh "R" in
           assert (R : others t = others s) by congruence;
           apply others_fields in R; destruct R as (_ & _ & _ & _ & _ & R);
           rewrite R in H
       end.
  all: match goal with
       | |- memory ?t = _ /\ _ =>
           let R := fresh "R" in
           assert (R : others t = others s) by congruence;
           apply others_fields in R; destruct R as (? & ? & ? & ? & ? & ?)
       end.
  all: do 4 (split; [assumption|]).
  all: split;
    [ match goal with
      | H : objects _ = put_object _ ?k ?v |- _ => exists k, v; congruence
      end | ].
  all: try congruence.
  all: destruct (has_events s);
    [ match goal with
      | H : exists source detail, _ |- _ =>
          destruct H as (source & detail & H); exists source, detail; congruence
      end
    | congruence ].
Qed.

End WithEnv.

Definition plan_request : dict :=
  [("materials", PList [PStr "CuInSe2"]);
   ("target_properties", PDict [("band_gap", PStr "1.5 eV")]);
   ("session_id", PStr "s1");
   ("timestamp", PStr "2024-01-10T08:00:00")].

Definition design_request : dict :=
  [("target_properties", PDict [("band_gap", PStr "1.5 eV")]);
   ("session_id", PStr "s1");
   ("timestamp", PStr "2024-01-10T08:00:00")].

(** An experiment plan made by a fresh agent. *)
Lemma C9_experiment_plan_example :
  exists d s',
    run Fixture.env Plan_create_experiment_plan plan_request
        (Fixture.agent "experiment_planning") = (Ok (PDict d), s')
    /\ get d "status" = Some (PStr "success")
    /\ memory s' = PList [] /\ state s' = PStr "initialized"
    /\ items s' = [] /\ sent s' = []
    /\ (exists key doc, objects s' = put_object [] key doc)
    /\ (exists source detail, published s' = [] ++ [(source, "ExperimentPlanCreated", detail)]).
Proof.
  eexists. eexists.
  split; [vm_compute; reflexivity|].
  split; [reflexivity|].
  eapply (C9_materials_frame Fixture.env Plan_create_experiment_plan plan_request
            (Fixture.agent "experiment_planning")).
  - reflexivity.
  - vm_compute. reflexivity.
  - reflexivity.
Defined.

(** [design_materials] publishes [MaterialsDesigned]: the event is not
    particular to [set_target_properties]. *)
Lemma C9_design_materials_publishes :
  exists d s',
    run Fixture.env Inverse_design_materials design_request
        (Fixture.agent "inverse_design") = (Ok (PDict d), s')
    /\ get d "status" = Some (PStr "success")
    /\ published (Fixture.agent "inverse_design") = []
    /\ published s'
       = [("agent.inverse_design", "MaterialsDesigned",
           [("session_id", PStr "s1");
            ("s3_key",
             PStr "projects/2024/01/s1/inverse_design/candidate_materials/seq_1_id-4.json");
            ("agent_id", PStr "inverse_design-0a1b2c3d");
            ("agent_type", PStr "inverse_design")])].
Proof.
  eexists. eexists.
  split; [vm_compute; reflexivity|].
  repeat split.
Qed.

End MaterialsFacts.

(* ================================================================== *)
(** ** More on the normalisation of messages *)
(* ================================================================== *)

Module NormalisationFacts.

Import LLMClient.

(** The messages the second loop keeps: those of role [user] or [assistant]. *)
Definition speaks (m : message) : bool := role_is m "user" || role_is m "assistant".

(** [a] is [b] with some elements left out. *)
Inductive embeds {A : Type} : list A -> list A -> Prop :=
| embeds_nil : forall l, embeds [] l
| embeds_skip : forall x a b, embeds a b -> embeds a (x :: b)
| embeds_keep : forall x a b, embeds a b -> embeds (x :: a) (x :: b).

Lemma embeds_refl (A : Type) (l : list A) : embeds l l.
Proof. induction l as [|x r IH]; [apply embeds_nil|apply embeds_keep; assumption]. Qed.

Lemma embeds_trans (A : Type) (a b c : list A) : embeds a b -> embeds b c -> embeds a c.
Proof.
  intros Hab Hbc. revert a Hab.
  induction Hbc as [l|x b c Hbc IH|x b c Hbc IH]; intros a Hab.
  - inversion Hab; subst. apply embeds_nil.
  - apply embeds_skip. apply IH. assumption.
  - inversion Hab; subst.
    + apply embeds_nil.
    + apply embeds_skip. apply IH. assumption.
    + apply embeds_keep. apply IH. assumption.
Qed.

Lemma embeds_list_insert (A : Type) (i : nat) (x : A) (l : list A) :
  embeds l (list_insert i x l).
Proof.
  unfold list_insert. revert i. induction l as [|a r IH]; intros i.
  - apply embeds_nil.
  - destruct i as [|i]; cbn [firstn skipn app].
    + apply embeds_skip. apply embeds_refl.
    + apply embeds_keep. apply IH.
Qed.

Lemma forallb_list_insert (A : Type) (p : A -> bool) (i : nat) (x : A) (l : list A) :
  forallb p (list_insert i x l) = p x && forallb p l.
Proof.
  unfold list_insert. revert i. induction l as [|a r IH]; intros i.
  - destruct i; cbn; destruct (p x); reflexivity.
  - destruct i as [|i]; cbn [firstn skipn app forallb].
    + reflexivity.
    + rewrite IH. destruct (p a), (p x); reflexivity.
Qed.

Lemma role_is_excludes (m : message) (a b : string) :
  role_is m a = true -> (a =? b) = false -> role_is m b = false.
Proof.
  unfold role_is. destruct (role m) as [r|]; [|discriminate].
  intros H N. apply String.eqb_eq in H. subst r. exact N.
Qed.

(** One iteration of the third loop leaves the list as it is or inserts one
    of the two bridges. *)
Lemma alternate_step_cases (vm : list message) (i : nat) :
  alternate_step vm i = vm
  \/ alternate_step vm i = list_insert i bridge_assistant vm
  \/ alternate_step vm i = list_insert i bridge_user vm.
Proof.
  unfold alternate_step.
  destruct (nth_error vm i) as [cur|]; [|left; reflexivity].
  destruct (nth_error vm (i - 1)) as [prev|]; [|left; reflexivity].
  destruct (same_role cur prev); [|left; reflexivity].
  destruct ((i =? List.length vm - 1)%nat && role_is cur "user"); [left; reflexivity|].
  destruct (role_is cur "user"); [right; left|right; right]; reflexivity.
Qed.

Lemma alternate_steps_speak (idx : list nat) (vm : list message) :
  forallb speaks vm = true -> forallb speaks (fold_left alternate_step idx vm) = true.
Proof.
  revert vm. induction idx as [|i r IH]; intros vm H; cbn [fold_left]; [exact H|].
  apply IH.
  destruct (alternate_step_cases vm i) as [E|[E|E]]; rewrite E;
    [exact H| |]; rewrite forallb_list_insert, H; reflexivity.
Qed.

Lemma alternate_steps_embed (idx : list nat) (vm : list message) :
  embeds vm (fold_left alternate_step idx vm).
Proof.
  revert vm. induction idx as [|i r IH]; intros vm; cbn [fold_left]; [apply embeds_refl|].
  eapply embeds_trans; [|apply IH].
  destruct (alternate_step_cases vm i) as [E|[E|E]]; rewrite E;
    [apply embeds_refl| |]; apply embeds_list_insert.
Qed.

Lemma build_valid_speaks (hs : bool) (sc : string) (messages : list message) (i : nat) :
  forallb speaks (build_valid hs sc i messages) = true.
Proof.
  revert i. induction messages as [|m r IH]; intros i; cbn [build_valid]; [reflexivity|].
  destruct (role_is m "system"); [apply IH|].
  destruct (role_is m "user") eqn:U.
  - cbn [forallb]. rewrite IH.
    destruct ((i =? 0)%nat && hs); [reflexivity|].
    unfold speaks. rewrite U. reflexivity.
  - destruct (role_is m "assistant") eqn:A; [|apply IH].
    cbn [forallb]. rewrite IH. unfold speaks. rewrite U, A. reflexivity.
Qed.

(** Without a system message the second loop is a filter. *)
Lemma build_valid_filter (sc : string) (messages : list message) (i : nat) :
  has_system messages = false ->
  build_valid false sc i messages = filter speaks messages.
Proof.
  revert i. induction messages as [|m r IH]; intros i H; cbn [build_valid filter];
    [reflexivity|].
  cbn [has_system existsb] in H. apply orb_false_iff in H as [Hs Hr].
  rewrite Hs. unfold speaks at 1. rewrite andb_false_r.
  destruct (role_is m "user"); cbn [orb].
  - rewrite (IH (S i) Hr). reflexivity.
  - destruct (role_is m "assistant"); rewrite (IH (S i) Hr); reflexivity.
Qed.

Lemma build_valid_nil (hs : bool) (sc : string) (messages : list message) (i : nat) :
  build_valid hs sc i messages = [] <-> existsb speaks messages = false.
Proof.
  revert i. induction messages as [|m r IH]; intros i; cbn [build_valid existsb];
    [split; reflexivity|].
  unfold speaks at 1.
  destruct (role_is m "system") eqn:Hs.
  - rewrite (role_is_excludes m "system" "user" Hs eq_refl),
            (role_is_excludes m "system" "assistant" Hs eq_refl).
    cbn [orb]. apply IH.
  - destruct (role_is m "user"); [cbn [orb]; split; discriminate|].
    destruct (role_is m "assistant"); [cbn [orb]; split; discriminate|].
    cbn [orb]. apply IH.
Qed.

(** Whatever the caller passes, the model is only sent messages of role
    [user] or [assistant]: system messages and messages of any other (or no)
    role never reach it. *)
Theorem only_user_and_assistant_are_sent (messages sent : list message)
        (Hsent : request_messages messages = Ok sent) :
  forallb speaks sent = true.
Proof.
  unfold request_messages in Hsent.
  pose proof (build_valid_speaks (has_system messages) (system_content messages)
                                 messages 0) as V.
  fold (valid_messages messages) in V.
  destruct (valid_messages messages) as [|m r] eqn:E; [discriminate|].
  injection Hsent as <-. apply alternate_steps_speak. exact V.
Qed.

Lemma embeds_cons_not_nil (A : Type) (x : A) (a l : list A) :
  embeds (x :: a) l -> l <> [].
Proof. intros H. inversion H; discriminate. Qed.

(** The request is refused, with [ValueError], exactly when no message of
    the caller has the role [user] or [assistant]; otherwise a non-empty list
    goes out. *)
Theorem refused_iff_nobody_speaks (messages : list message) :
  (request_messages messages = Raise (mkExn ValueError "No valid messages provided")
   <-> existsb speaks messages = false)
  /\ ((exists sent, request_messages messages = Ok sent /\ sent <> [])
      <-> existsb speaks messages = true).
Proof.
  pose proof (build_valid_nil (has_system messages) (system_content messages)
                              messages 0) as N.
  fold (valid_messages messages) in N.
  unfold request_messages.
  destruct (valid_messages messages) as [|m r] eqn:E.
  - rewrite (proj1 N eq_refl). split; split; try reflexivity; try discriminate.
    intros (sent & H & _). discriminate H.
  - destruct (existsb speaks messages) eqn:X; [|discriminate (proj2 N eq_refl)].
    split; split; try discriminate; try reflexivity.
    intros _. eexists. split; [reflexivity|].
    apply (embeds_cons_not_nil _ m r). apply alternate_steps_embed.
Qed.

(** One of the two messages the third loop inserts. *)
Definition is_bridge (m : message) : Prop := m = bridge_assistant \/ m = bridge_user.

(** [b] is [a] with bridges put in: every message of [a] is in [b], in the
    same order, and whatever else [b] holds is a bridge. *)
Inductive bridged : list message -> list message -> Prop :=
| bridged_nil : bridged [] []
| bridged_keep : forall m a b, bridged a b -> bridged (m :: a) (m :: b)
| bridged_add : forall x a b, is_bridge x -> bridged a b -> bridged a (x :: b).

Lemma bridged_refl (l : list message) : bridged l l.
Proof. induction l as [|m r IH]; [apply bridged_nil|apply bridged_keep; exact IH]. Qed.

Lemma bridged_trans (a b c : list message) : bridged a b -> bridged b c -> bridged a c.
Proof.
  intros Hab Hbc. revert a Hab.
  induction Hbc as [|m b c Hbc IH|x b c Hx Hbc IH]; intros a Hab.
  - exact Hab.
  - inversion Hab; subst.
    + apply bridged_keep. apply IH. assumption.
    + apply bridged_add; [assumption|]. apply IH. assumption.
  - apply bridged_add; [exact Hx|]. apply IH. exact Hab.
Qed.

Lemma bridged_list_insert (i : nat) (x : message) (l : list message) :
  is_bridge x -> bridged l (list_insert i x l).
Proof.
  intros Hx. unfold list_insert. revert i. induction l as [|a r IH]; intros i.
  - destruct i; cbn [firstn skipn app]; apply bridged_add; [exact Hx|apply bridged_nil
                                                            |exact Hx|apply bridged_nil].
  - destruct i as [|i]; cbn [firstn skipn app].
    + apply bridged_add; [exact Hx|apply bridged_refl].
    + apply bridged_keep. apply IH.
Qed.

Lemma alternate_steps_bridged (idx : list nat) (vm : list message) :
  bridged vm (fold_left alternate_step idx vm).
Proof.
  revert vm. induction idx as [|i r IH]; intros vm; cbn [fold_left]; [apply bridged_refl|].
  eapply bridged_trans; [|apply IH].
  destruct (alternate_step_cases vm i) as [E|[E|E]]; rewrite E.
  - apply bridged_refl.
  - apply bridged_list_insert. left. reflexivity.
  - apply bridged_list_insert. right. reflexivity.
Qed.

(** When the caller passes no system message, normalisation only adds
    bridges: the user and assistant messages of the caller all reach the
    model, unchanged and in their order, and every other message sent is one
    of the two bridges. *)
Theorem callers_messages_survive (messages sent : list message)
        (Hplain : has_system messages = false)
        (Hsent : request_messages messages = Ok sent) :
  bridged (filter speaks messages) sent.
Proof.
  unfold request_messages, valid_messages in Hsent.
  rewrite Hplain in Hsent. rewrite (build_valid_filter _ messages 0 Hplain) in Hsent.
  destruct (filter speaks messages) as [|m r] eqn:E; [discriminate|].
  injection Hsent as <-. apply alternate_steps_bridged.
Qed.

Lemma same_role_sym (a b : message) : same_role a b = same_role b a.
Proof.
  unfold same_role. destruct (role a), (role b); try reflexivity.
  apply String.eqb_sym.
Qed.

(** In a list whose turns alternate, a message and the one before it differ
    in role, unless they are the last two and the last is a user message. *)
Lemma neighbours_differ (vm : list message) (i : nat) (cur prev : message) :
  alternating_upto_last_user vm = true ->
  nth_error vm (S i) = Some cur ->
  nth_error vm i = Some prev ->
  same_role cur prev = false
  \/ ((S i =? List.length vm - 1)%nat = true /\ role_is cur "user" = true).
Proof.
  revert i. induction vm as [|a r IH]; intros i H C P; [discriminate C|].
  destruct r as [|b r']; [destruct i; discriminate C|].
  destruct i as [|i].
  - cbn in C, P. injection C as <-. injection P as <-.
    rewrite same_role_sym.
    destruct r' as [|c r''].
    + cbn [alternating_upto_last_user] in H. apply orb_true_iff in H as [H|H].
      * left. apply negb_true_iff. exact H.
      * right. split; [reflexivity|exact H].
    + cbn [alternating_upto_last_user] in H. apply andb_true_iff in H as [H _].
      left. apply negb_true_iff. exact H.
  - destruct r' as [|c r'']; [destruct i; discriminate C|].
    assert (T : alternating_upto_last_user (b :: c :: r'') = true).
    { change (negb (same_role a b) && alternating_upto_last_user (b :: c :: r'') = true)
        in H.
      apply andb_true_iff in H as [_ H]. exact H. }
    destruct (IH i T C P) as [D|[L U]]; [left; exact D|].
    right. split; [|exact U].
    cbn [List.length Nat.sub Nat.eqb] in *. exact L.
Qed.

Lemma alternate_step_fixes (vm : list message) (i : nat) :
  alternating_upto_last_user vm = true -> alternate_step vm (S i) = vm.
Proof.
  intros H. unfold alternate_step. cbn [Nat.sub]. rewrite Nat.sub_0_r.
  destruct (nth_error vm (S i)) as [cur|] eqn:C; [|reflexivity].
  destruct (nth_error vm i) as [prev|] eqn:P; [|reflexivity].
  destruct (neighbours_differ vm i cur prev H C P) as [D|[L U]].
  - rewrite D. reflexivity.
  - rewrite L, U. destruct (same_role cur prev); reflexivity.
Qed.

Lemma alternate_fixes (vm : list message) (start n : nat) :
  alternating_upto_last_user vm = true ->
  fold_left alternate_step (seq (S start) n) vm = vm.
Proof.
  intros H. revert start. induction n as [|n IH]; intros start; cbn [seq fold_left];
    [reflexivity|].
  rewrite (alternate_step_fixes vm start H). apply IH.
Qed.

Lemma filter_all (A : Type) (p : A -> bool) (l : list A) :
  forallb p l = true -> filter p l = l.
Proof.
  induction l as [|x r IH]; cbn [forallb filter]; [reflexivity|].
  intros H. apply andb_true_iff in H as [X R]. rewrite X, (IH R). reflexivity.
Qed.

(** A conversation that needs no repair is sent as it is: no system
    message, only user and assistant messages, turns alternating (the last
    message may repeat the role user). *)
Theorem well_formed_conversation_unchanged (m : message) (rest : list message)
        (Hplain : has_system (m :: rest) = false)
        (Hroles : forallb speaks (m :: rest) = true)
        (Hturns : alternating_upto_last_user (m :: rest) = true) :
  request_messages (m :: rest) = Ok (m :: rest).
Proof.
  unfold request_messages, valid_messages. rewrite Hplain.
  rewrite (build_valid_filter _ (m :: rest) 0 Hplain), (filter_all _ _ _ Hroles).
  unfold alternate. rewrite (alternate_fixes (m :: rest) 0 _ Hturns). reflexivity.
Qed.

Definition two_questions : list message :=
  [mk "user" "q1"; mk "assistant" "a1"; mk "user" "q2"; mk "user" "q3"].

Definition tool_talk : list message :=
  [mk "user" "q1"; mk "tool" "t1"; mk "user" "q2"; mk "assistant" "a1"].

Lemma only_user_and_assistant_example :
  request_messages tool_talk
  = Ok [mk "user" "q1"; bridge_assistant; mk "user" "q2"; mk "assistant" "a1"]
  /\ forallb speaks [mk "user" "q1"; bridge_assistant; mk "user" "q2"; mk "assistant" "a1"]
     = true.
Proof.
  split; [reflexivity|].
  apply (only_user_and_assistant_are_sent tool_talk). reflexivity.
Defined.

Lemma callers_messages_survive_example :
  request_messages [mk "user" "q"; mk "assistant" "a1"; mk "assistant" "a2"]
  = Ok [mk "user" "q"; mk "assistant" "a1"; bridge_user; mk "assistant" "a2"]
  /\ bridged (filter speaks [mk "user" "q"; mk "assistant" "a1"; mk "assistant" "a2"])
             [mk "user" "q"; mk "assistant" "a1"; bridge_user; mk "assistant" "a2"].
Proof.
  split; [reflexivity|].
  apply (callers_messages_survive [mk "user" "q"; mk "assistant" "a1"; mk "assistant" "a2"]);
    reflexivity.
Defined.

Lemma well_formed_conversation_example :
  request_messages two_questions = Ok two_questions.
Proof.
  apply (well_formed_conversation_unchanged (mk "user" "q1")); reflexivity.
Defined.

End NormalisationFacts.

(* ================================================================== *)
(** ** The answer of the model *)
(* ================================================================== *)

Module AnswerFacts.

Import LLMClient AgentBase.

(** A content block of the model's answer: its type and its text. *)
Definition block (part : string * string) : pyval :=
  PDict [("type", PStr (fst part)); ("text", PStr (snd part))].

Definition is_text (part : string * string) : bool := fst part =? "text".

(** The texts of the blocks of type [text], joined. *)
Definition joined_text (parts : list (string * string)) : string :=
  fold_right append "" (map snd (filter is_text parts)).

Lemma content_text_blocks (parts : list (string * string)) (s : State) :
  content_text (map block parts) s = (Ok (joined_text parts), s).
Proof.
  unfold joined_text.
  induction parts as [|[ty t] r IH]; [reflexivity|].
  cbn [map block fst snd content_text get filter is_text].
  cbn [String.eqb Ascii.eqb Bool.eqb].
  destruct (ty =? "text") eqn:T.
  - apply String.eqb_eq in T. subst ty.
    unfold get_or. cbn [get String.eqb Ascii.eqb Bool.eqb].
    unfold bind. rewrite IH. reflexivity.
  - destruct ty as [|c ty]; [exact IH|].
    destruct c as [[] [] [] [] [] [] [] []]; try exact IH.
    repeat (destruct ty as [|[[] [] [] [] [] [] [] []] ty]; try exact IH).
    discriminate T.
Qed.

Section WithEnv.
Variable env : Env.

(** The answer handed to the agent is the concatenation, in order, of the
    texts of the answer's [text] blocks; blocks of another type are left
    out. *)
Theorem answer_is_the_joined_text
        (messages vm : list message) (body : dict) (parts : list (string * string))
        (s : State)
        (Hrequest : request_messages messages = Ok vm)
        (Hserves : fault env (tick s) = None)
        (Hanswer : invoke_model env (S (tick s)) vm = PDict body)
        (Hcontent : get body "content" = Some (PList (map block parts))) :
  ask_llm env messages s
  = (Ok [("content", PStr (joined_text parts))], set_tick (S (S (tick s))) s).
Proof.
  unfold ask_llm, bind at 1, lift. rewrite Hrequest.
  unfold bind at 1, service_call. rewrite Hserves.
  unfold bind at 1, ask. cbn [tick set_tick]. rewrite Hanswer, Hcontent.
  unfold bind. rewrite content_text_blocks. reflexivity.
Qed.

End WithEnv.

(** An answer with a tool block between two texts. *)
Definition talkative : Env :=
  mkEnv "artifacts" (fun _ => "id") (fun _ => "2024-01-10T08:00:00")
        (fun _ => mkDate 2024 1 10) Fixture.fromisoformat (fun _ => None)
        (fun _ _ => PDict [("content",
                            PList (map block [("text", "Hello, "); ("tool_use", "lookup");
                                              ("text", "world")]))])
        (fun _ => "[]") Fixture.json_loads (fun _ => "<object>")
        (fun _ _ => Ok []) (fun _ _ => Ok PNone).

Lemma answer_is_the_joined_text_example :
  ask_llm talkative [mk "user" "hi"] (Fixture.agent "engineer")
  = (Ok [("content", PStr "Hello, world")],
     set_tick 2 (Fixture.agent "engineer")).
Proof.
  apply (answer_is_the_joined_text talkative [mk "user" "hi"] [mk "user" "hi"]
           [("content", PList (map block [("text", "Hello, "); ("tool_use", "lookup");
                                          ("text", "world")]))]
           [("text", "Hello, "); ("tool_use", "lookup"); ("text", "world")]);
    reflexivity.
Defined.

End AnswerFacts.

(* ================================================================== *)
(** ** Sequence numbers and keys *)
(* ================================================================== *)

Module SequenceFacts.

Import S3Client Frames FormatPathFacts S3ClientFacts RoundTripFacts.

Lemma append_cancel_l (a x y : string) : (a ++ x = a ++ y)%string -> x = y.
Proof.
  induction a as [|c a IH]; cbn [append]; intros H; [exact H|].
  injection H as H. apply IH. exact H.
Qed.

Lemma max_seq_from_le (keys : list string) (acc bound : Z) :
  (acc <= bound)%Z ->
  (forall k n, In k keys -> prefix "seq_" (filename_of k) = true ->
               seq_of_filename (filename_of k) = Some n -> (n <= bound)%Z) ->
  (max_seq_from acc keys <= bound)%Z.
Proof.
  revert acc. induction keys as [|k r IH]; intros acc Hacc H; cbn [max_seq_from];
    [exact Hacc|].
  assert (Hr : forall k' n, In k' r -> prefix "seq_" (filename_of k') = true ->
                            seq_of_filename (filename_of k') = Some n -> (n <= bound)%Z)
    by (intros k' n Hin; apply H; right; exact Hin).
  destruct (prefix "seq_" (filename_of k)) eqn:P; [|apply IH; assumption].
  destruct (seq_of_filename (filename_of k)) as [n|] eqn:E; [|apply IH; assumption].
  apply IH; [|exact Hr].
  pose proof (H k n (or_introl eq_refl) P E). lia.
Qed.

Lemma get_put_object_other (objs : list (string * pyval)) (k k' : string) (v : pyval) :
  k' <> k -> get (put_object objs k v) k' = get objs k'.
Proof.
  intros N. assert (E : (k =? k') = false) by (apply String.eqb_neq; congruence).
  induction objs as [|[k0 v0] r IH]; cbn [put_object get].
  - rewrite E. reflexivity.
  - destruct (k0 =? k) eqn:E0.
    + apply String.eqb_eq in E0. subst k0. cbn [get]. rewrite E. reflexivity.
    + destruct (String.ltb k k0); cbn [get]; [rewrite E; reflexivity|].
      rewrite IH. reflexivity.
Qed.

Lemma get_in_keys (objs : list (string * pyval)) (k : string) (v : pyval) :
  get objs k = Some v -> In k (map fst objs).
Proof.
  induction objs as [|[k0 v0] r IH]; cbn [get map fst]; [discriminate|].
  destruct (k0 =? k) eqn:E.
  - apply String.eqb_eq in E. left. exact E.
  - intros H. right. apply IH. exact H.
Qed.

Lemma matching_keys_none (id : string) (keys : list string) :
  (forall k, In k keys -> contains ("_" ++ id ++ ".json") (filename_of k) = false) ->
  matching_keys id keys = [].
Proof.
  induction keys as [|k r IH]; intros H; cbn [matching_keys]; [reflexivity|].
  rewrite (H k (or_introl eq_refl)). apply IH. intros k' Hin. apply H. right. exact Hin.
Qed.

Lemma In_firstn (A : Type) (n : nat) (l : list A) (x : A) : In x (firstn n l) -> In x l.
Proof.
  revert n. induction l as [|a r IH]; intros [|n]; cbn [firstn]; try contradiction.
  intros [->|H]; [left; reflexivity|right; apply (IH n); exact H].
Qed.

Section WithEnv.
Variable env : Env.

Lemma sequence_number_total (p a t : string) (s : State) :
  exists n s', get_artifact_sequence_number env p a t s = (Ok n, s') /\ calm s s'.
Proof.
  unfold get_artifact_sequence_number, try_except, bind at 1, ask.
  unfold list_objects_v2, bind, service_call, gets, ret. cbn [tick set_tick].
  destruct (fault env (S (tick s))) as [e|];
    eexists; eexists; (split; [reflexivity|repeat split]).
Qed.

(** [_get_artifact_sequence_number] never fails and never returns less than
    1; when the listing fails it answers 1. It changes nothing. *)
Theorem sequence_number_never_fails (p a t : string) (s : State) :
  exists n s',
    get_artifact_sequence_number env p a t s = (Ok n, s')
    /\ (1 <= n)%Z
    /\ calm s s'
    /\ (fault env (S (tick s)) = None \/ n = 1%Z).
Proof.
  unfold get_artifact_sequence_number, try_except, bind at 1, ask.
  unfold list_objects_v2, bind, service_call, gets, ret. cbn [tick set_tick].
  destruct (fault env (S (tick s))) as [e|].
  - eexists. eexists. split; [reflexivity|].
    split; [lia|]. split; [repeat split|]. right. reflexivity.
  - eexists. eexists. split; [reflexivity|].
    split; [|split; [repeat split|left; reflexivity]].
    match goal with
    | |- (1 <= max_seq_from 0 ?keys + 1)%Z => pose proof (max_seq_from_ge keys 0)
    end.
    lia.
Qed.

(** The number returned is above the number of every [seq_]-named object the
    listing shows in the current month's directory (a page of 1000 keys). *)
Theorem sequence_number_is_fresh
        (p a t key : string) (s s' : State) (n k : Z)
        (Hcall : get_artifact_sequence_number env p a t s = (Ok n, s'))
        (Hserves : fault env (S (tick s)) = None)
        (Hpage : (List.length (keys_with_prefix (artifact_prefix (now env (tick s)) p a t)
                                                (objects s)) <= 1000)%nat)
        (Hkey : In key (keys_with_prefix (artifact_prefix (now env (tick s)) p a t)
                                         (objects s)))
        (Hname : prefix "seq_" (filename_of key) = true)
        (Hseq : seq_of_filename (filename_of key) = Some k) :
  (k < n)%Z.
Proof.
  unfold get_artifact_sequence_number, try_except, bind at 1, ask in Hcall.
  unfold list_objects_v2, bind, service_call, gets, ret in Hcall.
  cbn [tick set_tick objects] in Hcall. rewrite Hserves in Hcall.
  rewrite Nat.min_id in Hcall. rewrite firstn_all2 in Hcall by exact Hpage.
  injection Hcall as <- _.
  pose proof (max_seq_from_bound _ 0 key k Hkey Hname Hseq). lia.
Qed.

(** The date [_format_path] and [download_artifact] use, and the state
    after reading it. *)
Lemma format_path_shape (p a t id : string) (ts : pyval) (n : Z) (s s' : State) (k : string) :
  format_path env p a t id ts n s = (Ok k, s') ->
  exists dt,
    (if negb (truthy ts) then ask (now env) else datetime_of env ts) s = (Ok dt, s')
    /\ k = (artifact_prefix dt p a t ++ artifact_name (Z.max 1 n) id)%string.
Proof.
  unfold format_path, bind.
  destruct ((if negb (truthy ts) then ask (now env) else datetime_of env ts) s)
    as [[dt|e] s0]; [|discriminate].
  unfold ret. intros H. injection H as <- <-. exists dt. split; [reflexivity|].
  rewrite clamp_is_max. unfold artifact_prefix, artifact_name.
  repeat rewrite append_assoc. reflexivity.
Qed.

(** Two versions of an artifact never share a key: for the same identifiers
    and timestamp, sequence numbers that differ (after the floor of 1) give
    different keys. *)
Theorem versions_have_distinct_keys
        (p a t id : string) (ts : pyval) (n1 n2 : Z) (s s1 s2 : State) (k1 k2 : string)
        (Hfirst : format_path env p a t id ts n1 s = (Ok k1, s1))
        (Hsecond : format_path env p a t id ts n2 s = (Ok k2, s2))
        (Hversions : Z.max 1 n1 <> Z.max 1 n2) :
  k1 <> k2.
Proof.
  apply format_path_shape in Hfirst as (dt1 & E1 & ->).
  apply format_path_shape in Hsecond as (dt2 & E2 & ->).
  rewrite E1 in E2. injection E2 as <- _.
  intros E. apply append_cancel_l in E.
  apply (f_equal seq_of_filename) in E.
  rewrite !seq_of_artifact_name in E by lia.
  injection E as E. contradiction.
Qed.

(** Without a usable date in [timestamp] (none given, an empty one, or a
    string that [datetime.fromisoformat] rejects after [Z] is replaced) the
    key is filed under the year and month of the clock. *)
Theorem format_path_without_a_date
        (p a t id : string) (ts : pyval) (n : Z) (s : State)
        (Hdate : truthy ts = false
                 \/ exists text, ts = PStr text
                                 /\ fromisoformat env (replace "Z" "+00:00" text) = None) :
  format_path env p a t id ts n s
  = (Ok (artifact_prefix (now env (tick s)) p a t ++ artifact_name (Z.max 1 n) id)%string,
     set_tick (S (tick s)) s).
Proof.
  assert (E : (if negb (truthy ts) then ask (now env) else datetime_of env ts) s
              = (Ok (now env (tick s)), set_tick (S (tick s)) s)).
  { destruct Hdate as [F|(text & -> & F)].
    - rewrite F. reflexivity.
    - destruct (truthy (PStr text)); cbn [negb]; [|reflexivity].
      unfold datetime_of. rewrite F. reflexivity. }
  unfold format_path, bind. rewrite E. unfold ret.
  rewrite clamp_is_max. unfold artifact_prefix, artifact_name.
  repeat rewrite append_assoc. reflexivity.
Qed.

(** A [timestamp] that is neither empty nor a string has no [replace]: the
    upload raises [AttributeError] (which the handler for unparseable dates
    does not catch) before the document is stamped or anything is written. *)
Theorem upload_rejects_a_timestamp_that_is_no_string
        (data : nat) (p a t id : string) (ts : pyval) (s : State)
        (Hgiven : truthy ts = true)
        (Hkind : forall text, ts <> PStr text) :
  exists e s',
    upload_artifact env data p a t id ts s = (Raise e, s')
    /\ ekind e = AttributeError
    /\ calm s s'.
Proof.
  destruct (sequence_number_total p a t s) as (n & s1 & E & C).
  exists (mkExn AttributeError "object has no attribute 'replace'"), s1.
  split; [|split; [reflexivity|exact C]].
  unfold upload_artifact, bind at 1. rewrite E.
  unfold bind at 1, format_path, bind at 1. rewrite Hgiven. cbn [negb].
  destruct ts; try reflexivity. contradiction (Hkind s0). reflexivity.
Qed.

End WithEnv.

Section SameMonth.
Variable env : Env.
Variables y m : Z.
Hypothesis Hserv : forall n, fault env n = None.
Hypothesis Hclock : forall n, year (now env n) = y /\ month (now env n) = m.

(** Two uploads in a row of the same kind of artifact, in the month of the
    clock, are numbered consecutively, and the second does not replace the
    object of the first. *)
Theorem consecutive_uploads_are_numbered_in_order
        (d1 d2 : nat) (p a t id1 id2 : string) (ts1 ts2 : pyval) (s : State)
        (Hts1 : in_month env y m ts1)
        (Hts2 : in_month env y m ts2)
        (Hid1 : has_char "/" id1 = false)
        (Hcap : (List.length (keys_with_prefix (month_dir y m p a t) (objects s))
                 < 1000)%nat) :
  exists r1 s1 r2 s2,
    upload_artifact env d1 p a t id1 ts1 s = (Ok r1, s1)
    /\ upload_artifact env d2 p a t id2 ts2 s1 = (Ok r2, s2)
    /\ sequence_number r2 = (sequence_number r1 + 1)%Z
    /\ get (objects s2) (s3_key r1) = get (objects s1) (s3_key r1)
    /\ has_key (objects s1) (s3_key r1) = true
    /\ has_key (objects s2) (s3_key r2) = true.
Proof.
  set (dir := month_dir y m p a t) in *.
  set (keys := keys_with_prefix dir (objects s)) in *.
  set (n := (max_seq_from 0 keys + 1)%Z).
  assert (Hn : (1 <= n)%Z) by (pose proof (max_seq_from_ge keys 0); lia).
  (* the first upload *)
  pose proof (get_artifact_sequence_number_value env y m Hserv Hclock p a t s) as G1.
  fold dir keys n in G1. specialize (G1 ltac:(lia)).
  destruct (format_path_value env y m Hclock p a t id1 ts1 n (set_tick (S (S (tick s))) s)
                              Hts1 Hn) as (u1 & F1 & [(O1 & P1 & R1) H1]).
  fold dir in F1.
  set (key1 := (dir ++ artifact_name n id1)%string) in *.
  assert (U1 : exists s1 doc1,
             upload_artifact env d1 p a t id1 ts1 s
             = (Ok (mkUpload (PDict []) key1 (bucket_name env) n), s1)
             /\ objects s1 = put_object (objects s) key1 doc1).
  { unfold upload_artifact, bind at 1. rewrite G1.
    unfold bind at 1. rewrite F1.
    unfold setitem, deref, upload_json, bind, service_call, modify, ret.
    rewrite Hserv. cbn [objects set_objects set_tick set_heap heap].
    eexists. eexists. split; [reflexivity|].
    cbn [objects]. rewrite O1. reflexivity. }
  destruct U1 as (s1 & doc1 & U1 & Obj1).
  (* the directory after it *)
  set (keys1 := keys_with_prefix dir (objects s1)).
  assert (Hin1 : In key1 keys1).
  { unfold keys1. rewrite Obj1. apply key_in_put_object. apply prefix_app. }
  assert (Hfile1 : filename_of key1 = artifact_name n id1)
    by (apply filename_of_artifact; assumption).
  assert (Hmax : max_seq_from 0 keys1 = n).
  { apply Z.le_antisymm.
    - apply max_seq_from_le; [lia|].
      intros k j Hin Hp Hj. unfold keys1 in Hin. rewrite Obj1 in Hin.
      apply keys_put_object in Hin as [->|Hin].
      + rewrite Hfile1, seq_of_artifact_name in Hj by exact Hn.
        injection Hj as <-. lia.
      + pose proof (max_seq_from_bound keys 0 k j Hin Hp Hj). lia.
    - apply (max_seq_from_bound keys1 0 key1 n Hin1).
      + rewrite Hfile1. unfold artifact_name. apply prefix_app.
      + rewrite Hfile1. apply seq_of_artifact_name. exact Hn. }
  assert (Hlen1 : (List.length keys1 <= 1000)%nat).
  { unfold keys1. rewrite Obj1.
    pose proof (length_keys_put_object dir (objects s) key1 doc1). fold keys in H. lia. }
  (* the second upload *)
  pose proof (get_artifact_sequence_number_value env y m Hserv Hclock p a t s1) as G2.
  fold dir keys1 in G2. specialize (G2 Hlen1). rewrite Hmax in G2.
  destruct (format_path_value env y m Hclock p a t id2 ts2 (n + 1)
                              (set_tick (S (S (tick s1))) s1)
                              Hts2 ltac:(lia)) as (u2 & F2 & [(O2 & P2 & R2) H2]).
  fold dir in F2.
  set (key2 := (dir ++ artifact_name (n + 1) id2)%string) in *.
  assert (Hkeys : key1 <> key2).
  { unfold key1, key2. intros E. apply append_cancel_l in E.
    apply (f_equal seq_of_filename) in E.
    rewrite !seq_of_artifact_name in E by lia. injection E as E. lia. }
  exists (mkUpload (PDict []) key1 (bucket_name env) n), s1.
  eexists. eexists.
  split; [exact U1|].
  split.
  { unfold upload_artifact, bind at 1. rewrite G2.
    unfold bind at 1. rewrite F2.
    unfold setitem, deref, upload_json, bind, service_call, modify, ret.
    rewrite Hserv. reflexivity. }
  cbn [sequence_number s3_key objects set_objects set_tick set_heap].
  split; [reflexivity|].
  rewrite O2. cbn [objects set_tick].
  split; [apply get_put_object_other; exact Hkeys|].
  unfold has_key. rewrite Obj1, !get_put_object. split; reflexivity.
Qed.

(** Asking for an artifact of which the month's directory holds no version
    raises the store's [NoSuchKey]: there is no default document. *)
Theorem download_of_a_missing_artifact_raises
        (p a t id : string) (ts : pyval) (s : State)
        (Hts : in_month env y m ts)
        (Hid : has_char "/" id = false)
        (Hmissing : forall k, In k (keys_with_prefix (month_dir y m p a t) (objects s)) ->
                              contains ("_" ++ id ++ ".json") (filename_of k) = false) :
  exists e s',
    download_artifact env p a t id ts s = (Raise e, s')
    /\ ekind e = ServiceError
    /\ calm s s'.
Proof.
  set (dir := month_dir y m p a t) in *.
  destruct (timestamp_month env y m Hclock ts s Hts) as (dt & s0 & E & Hy & Hm & C0).
  destruct (format_path_value env y m Hclock p a t id ts 1 (set_tick (S (tick s0)) s0)
                              Hts ltac:(lia)) as (u & F & C1).
  fold dir in F.
  assert (Habsent : get (objects s) (dir ++ artifact_name 1 id)%string = None).
  { destruct (get (objects s) (dir ++ artifact_name 1 id)%string) as [v|] eqn:G;
      [|reflexivity].
    assert (Hin : In (dir ++ artifact_name 1 id)%string (keys_with_prefix dir (objects s))).
    { unfold keys_with_prefix. apply filter_In. split.
      - apply (get_in_keys _ _ v G).
      - apply prefix_app. }
    apply Hmissing in Hin.
    unfold dir in Hin. rewrite filename_of_artifact in Hin by (try lia; exact Hid).
    rewrite artifact_name_matches in Hin. discriminate Hin. }
  exists (mkExn ServiceError "NoSuchKey"). eexists. split; [|split; [reflexivity|]].
  - unfold download_artifact, bind at 1, try_except, bind at 1. rewrite E.
    rewrite (artifact_prefix_month dt y m p a t Hy Hm). fold dir.
    unfold bind at 1, list_objects_v2, bind at 1, service_call. rewrite Hserv.
    unfold bind at 1, gets, ret.
    rewrite matching_keys_none
      by (intros k Hin; apply In_firstn in Hin; apply Hmissing;
          destruct C0 as [(O & _) _]; cbn [objects set_tick] in Hin;
          rewrite <- O; exact Hin).
    cbn [greatest]. unfold bind at 1. rewrite F.
    unfold download_json, try_except, bind, service_call, gets, raise, reraise.
    rewrite Hserv.
    destruct C0 as [(O0 & _) _]. destruct C1 as [(O1 & _) _].
    cbn [objects set_tick] in *. rewrite O1, O0, Habsent. reflexivity.
  - apply (calm_trans _ _ _ C0).
    apply (calm_trans _ (set_tick (S (tick s0)) s0)); [repeat split|].
    apply (calm_trans _ _ _ C1). repeat split.
Qed.

End SameMonth.

Lemma sequence_number_is_fresh_example :
  exists n s',
    get_artifact_sequence_number Fixture.env "proj123" "product_manager" "analysis"
                                 january_bucket = (Ok n, s')
    /\ (2 < n)%Z.
Proof.
  eexists. eexists. split; [vm_compute; reflexivity|].
  apply (sequence_number_is_fresh Fixture.env "proj123" "product_manager" "analysis"
           "projects/2024/01/proj123/product_manager/analysis/seq_2_ghi789.json"
           january_bucket (set_tick 2 january_bucket) 3 2).
  - vm_compute. reflexivity.
  - reflexivity.
  - vm_compute. lia.
  - vm_compute. right. left. reflexivity.
  - reflexivity.
  - reflexivity.
Defined.

Lemma versions_have_distinct_keys_example :
  format_path Fixture.env "proj123" "engineer" "review" "abc" (PStr "2024-01-15T09:00:00") 1
              (Fixture.agent "engineer")
  = (Ok "projects/2024/01/proj123/engineer/review/seq_1_abc.json", Fixture.agent "engineer")
  /\ "projects/2024/01/proj123/engineer/review/seq_1_abc.json"
     <> "projects/2024/01/proj123/engineer/review/seq_2_abc.json".
Proof.
  split; [reflexivity|].
  apply (versions_have_distinct_keys Fixture.env "proj123" "engineer" "review" "abc"
           (PStr "2024-01-15T09:00:00") 1 2 (Fixture.agent "engineer")
           (Fixture.agent "engineer") (Fixture.agent "engineer")).
  - reflexivity.
  - reflexivity.
  - discriminate.
Defined.

Lemma format_path_without_a_date_example :
  format_path Fixture.env "proj123" "engineer" "review" "abc" (PStr "yesterday") 0
              (Fixture.agent "engineer")
  = (Ok "projects/2024/01/proj123/engineer/review/seq_1_abc.json",
     set_tick 1 (Fixture.agent "engineer")).
Proof.
  apply (format_path_without_a_date Fixture.env "proj123" "engineer" "review" "abc"
           (PStr "yesterday") 0 (Fixture.agent "engineer")).
  right. exists "yesterday". split; reflexivity.
Defined.

Lemma upload_rejects_a_number_as_timestamp :
  exists e s',
    upload_artifact Fixture.env 0 "proj123" "engineer" "review" "abc" (PInt 1705309200)
                    stamped_example
    = (Raise e, s')
    /\ ekind e = AttributeError
    /\ calm stamped_example s'.
Proof.
  apply (upload_rejects_a_timestamp_that_is_no_string Fixture.env 0 "proj123" "engineer"
           "review" "abc" (PInt 1705309200) stamped_example).
  - reflexivity.
  - intros text. discriminate.
Defined.

Lemma consecutive_uploads_example :
  exists r1 s1 r2 s2,
    upload_artifact Fixture.env 0 "proj123" "product_manager" "analysis" "abc123"
                    (PStr "2024-01-15T09:00:00Z") january_bucket = (Ok r1, s1)
    /\ upload_artifact Fixture.env 0 "proj123" "product_manager" "analysis" "abc123"
                       PNone s1 = (Ok r2, s2)
    /\ sequence_number r2 = (sequence_number r1 + 1)%Z
    /\ get (objects s2) (s3_key r1) = get (objects s1) (s3_key r1)
    /\ has_key (objects s1) (s3_key r1) = true
    /\ has_key (objects s2) (s3_key r2) = true.
Proof.
  apply (consecutive_uploads_are_numbered_in_order Fixture.env 2024 1).
  - intros n. reflexivity.
  - intros n. split; reflexivity.
  - cbn. split; reflexivity.
  - reflexivity.
  - reflexivity.
  - vm_compute. lia.
Defined.

Lemma download_of_a_missing_artifact_example :
  exists e s',
    download_artifact Fixture.env "proj123" "product_manager" "analysis" "zzz999"
                      (PStr "2024-01-15T09:00:00Z") january_bucket
    = (Raise e, s')
    /\ ekind e = ServiceError
    /\ calm january_bucket s'.
Proof.
  apply (download_of_a_missing_artifact_raises Fixture.env 2024 1).
  - intros n. reflexivity.
  - intros n. split; reflexivity.
  - cbn. split; reflexivity.
  - reflexivity.
  - intros k Hk. vm_compute in Hk.
    destruct Hk as [<-|[<-|[]]]; reflexivity.
Defined.

End SequenceFacts.

(* ================================================================== *)
(** ** More on the agent base class *)
(* ================================================================== *)

Module AgentBaseFacts.

Import AgentBase Frames S3ClientFacts LoadStateFacts.

Lemma get_set_other (V : Type) (d : list (string * V)) (k k' : string) (v : V) :
  k' <> k -> get (set d k v) k' = get d k'.
Proof.
  intros N. assert (E : (k =? k') = false) by (apply String.eqb_neq; congruence).
  induction d as [|[k0 v0] r IH]; cbn [set get].
  - rewrite E. reflexivity.
  - destruct (k0 =? k) eqn:E0; cbn [get].
    + apply String.eqb_eq in E0. subst k0. rewrite E. reflexivity.
    + rewrite IH. reflexivity.
Qed.

(** [put_item] then [get_item] with the key of the item. *)
Lemma find_put_record (tbl : list dict) (item key : dict) :
  (forall it, same_key it item = same_key it key) ->
  same_key item key = true ->
  find (fun it => same_key it key) (put_record tbl item) = Some item.
Proof.
  intros Hsame Hkey. induction tbl as [|it r IH]; cbn [put_record find].
  - rewrite Hkey. reflexivity.
  - destruct (same_key it item) eqn:E; cbn [find].
    + rewrite Hkey. reflexivity.
    + rewrite <- Hsame, E. exact IH.
Qed.

Section WithEnv.
Variable env : Env.

(** An agent built without a table, a queue, a bus or a bucket skips the
    corresponding call: the method answers [{}] ([False] for [load_state])
    and nothing at all happens. *)
Theorem unbound_handles_are_skipped
        (s : State) (state_id doc : pyval) (recipient name key : string)
        (content detail : dict) :
  (has_state_db s = false ->
   save_state env s = (Ok (PDict []), s) /\ load_state env state_id s = (Ok false, s))
  /\ (has_queue s = false -> send_message env recipient content s = (Ok (PDict []), s))
  /\ (has_events s = false -> emit_event env name detail s = (Ok (PDict []), s))
  /\ (has_artifacts s = false -> save_artifact env doc key s = (Ok (PDict []), s)).
Proof.
  split; [|split; [|split]]; intros H.
  - split.
    + unfold save_state, bind, gets. rewrite H. reflexivity.
    + unfold load_state, bind, gets. rewrite H. reflexivity.
  - unfold send_message, bind, gets. rewrite H. reflexivity.
  - unfold emit_event, bind, gets. rewrite H. reflexivity.
  - unfold save_artifact, bind, gets. rewrite H. reflexivity.
Qed.

(** An event always carries the agent's own [agent_id] and [agent_type],
    whatever the caller put under these keys; the other entries of the detail
    are the caller's, and the source is [agent.<agent_type>]. *)
Theorem events_carry_the_agents_identity
        (name : string) (detail : dict) (s s' : State) (r : pyval)
        (Hbus : has_events s = true)
        (Hemit : emit_event env name detail s = (Ok r, s')) :
  exists sent_detail,
    published s'
    = published s ++ [(("agent." ++ str env (agent_type s))%string, name, sent_detail)]
    /\ get sent_detail "agent_id" = Some (agent_id s)
    /\ get sent_detail "agent_type" = Some (agent_type s)
    /\ (forall k, k <> "agent_id" -> k <> "agent_type" ->
                  get sent_detail k = get detail k).
Proof.
  unfold emit_event, bind at 1, gets at 1 in Hemit. rewrite Hbus in Hemit.
  cbn [negb] in Hemit.
  unfold bind, gets, service_call, modify, ret in Hemit.
  destruct (fault env (tick s)); [discriminate|].
  injection Hemit as _ <-. cbn [published set_published set_tick agent_type agent_id].
  eexists. split; [reflexivity|].
  split; [|split].
  - rewrite get_set_other by discriminate. apply get_set_same.
  - apply get_set_same.
  - intros k N1 N2. rewrite !get_set_other by congruence. reflexivity.
Qed.

Lemma load_state_success
        (state_id : pyval) (s : State) (k : string) (v : pyval) (it : dict)
        (text : string) (mem : pyval)
        (Hbound : has_state_db s = true)
        (Hserves : fault env (tick s) = None)
        (Hstored : stored env state_id s = Some ((k, v) :: it))
        (Hmemory : get_or ((k, v) :: it) "memory" (PStr "[]") = PStr text)
        (Hjson : json_loads env text = Some mem) :
  exists s',
    load_state env state_id s = (Ok true, s')
    /\ agent_type s' = get_or ((k, v) :: it) "agentType" (agent_type s)
    /\ state s' = get_or ((k, v) :: it) "state" (state s)
    /\ memory s' = mem
    /\ created_at s' = get_or ((k, v) :: it) "createdAt" (created_at s)
    /\ agent_id s' = agent_id s /\ items s' = items s /\ objects s' = objects s
    /\ published s' = published s /\ sent s' = sent s.
Proof.
  unfold load_state, bind at 1, gets at 1. rewrite Hbound. cbn [negb].
  unfold try_except, bind at 1.
  rewrite (fetch_record env state_id s Hserves), Hstored.
  unfold bind, modify. rewrite Hmemory.
  unfold loads. rewrite Hjson. unfold ret.
  eexists. split; [reflexivity|]. repeat split.
Qed.

(** A record that is there and whose [memory] deserialises is taken over:
    the four fields come from the record, each keeping its value when the
    record lacks the attribute, and nothing else changes. *)
Theorem load_state_takes_the_record
        (state_id : pyval) (s : State) (k : string) (v : pyval) (it : dict)
        (text : string) (mem : pyval)
        (Hbound : has_state_db s = true)
        (Hserves : fault env (tick s) = None)
        (Hstored : stored env state_id s = Some ((k, v) :: it))
        (Hmemory : get_or ((k, v) :: it) "memory" (PStr "[]") = PStr text)
        (Hjson : json_loads env text = Some mem) :
  exists s',
    load_state env state_id s = (Ok true, s')
    /\ agent_type s' = get_or ((k, v) :: it) "agentType" (agent_type s)
    /\ state s' = get_or ((k, v) :: it) "state" (state s)
    /\ memory s' = mem
    /\ created_at s' = get_or ((k, v) :: it) "createdAt" (created_at s)
    /\ agent_id s' = agent_id s /\ items s' = items s /\ objects s' = objects s
    /\ published s' = published s /\ sent s' = sent s.
Proof.
  unfold load_state, bind at 1, gets at 1. rewrite Hbound. cbn [negb].
  unfold try_except, bind at 1.
  rewrite (fetch_record env state_id s Hserves), Hstored.
  unfold bind, modify. rewrite Hmemory.
  unfold loads. rewrite Hjson. unfold ret.
  eexists. split; [reflexivity|]. repeat split.
Qed.

(** No record (or an empty one): [False], and the agent is as it was. *)
Theorem load_state_without_a_record
        (state_id : pyval) (s : State)
        (Hbound : has_state_db s = true)
        (Hserves : fault env (tick s) = None)
        (Hstored : stored env state_id s = None \/ stored env state_id s = Some []) :
  load_state env state_id s = (Ok false, set_tick (S (tick s)) s).
Proof.
  unfold load_state, bind at 1, gets at 1. rewrite Hbound. cbn [negb].
  unfold try_except, bind at 1.
  rewrite (fetch_record env state_id s Hserves).
  destruct Hstored as [-> | ->]; reflexivity.
Qed.

(** What [save_state] writes can be read back: after a successful
    [save_state], and whatever the agent did to its fields since, a
    [load_state] of the saved [stateId] from the same table restores
    [agent_type], [state], [memory] and [created_at] as they were saved. *)
Theorem saved_state_is_restored
        (s s1 s2 : State) (me : string) (r : pyval)
        (Hme : agent_id s = PStr me)
        (Hbound : has_state_db s = true)
        (Hsave : save_state env s = (Ok r, s1))
        (Hstamp : utcnow_iso env (tick s) <> "")
        (Hjson : json_loads env (json_dumps env (memory s)) = Some (memory s))
        (Htable : items s2 = items s1)
        (Hsame : agent_id s2 = agent_id s)
        (Hbound2 : has_state_db s2 = true)
        (Hserves : fault env (tick s2) = None) :
  exists s3,
    load_state env (PStr (utcnow_iso env (tick s))) s2 = (Ok true, s3)
    /\ agent_type s3 = agent_type s
    /\ state s3 = state s
    /\ memory s3 = memory s
    /\ created_at s3 = created_at s.
Proof.
  set (stamp := utcnow_iso env (tick s)) in *.
  set (item := [("agentId", agent_id s); ("stateId", PStr stamp);
                ("agentType", agent_type s); ("state", state s);
                ("memory", PStr (json_dumps env (memory s)));
                ("createdAt", created_at s);
                ("updatedAt", PStr (utcnow_iso env (S (tick s))))]).
  assert (Hitems : items s1 = put_record (items s) item).
  { unfold save_state, bind at 1, gets at 1 in Hsave. rewrite Hbound in Hsave.
    cbn [negb] in Hsave.
    unfold put_item, bind, ask, gets, service_call, modify, ret in Hsave.
    cbn [tick set_tick agent_id agent_type state memory created_at items] in Hsave.
    destruct (fault env (S (S (tick s)))); [discriminate|].
    injection Hsave as _ <-. reflexivity. }
  assert (Htruthy : truthy (PStr stamp) = true).
  { cbn [truthy]. destruct (stamp =? "") eqn:E; [|reflexivity].
    apply String.eqb_eq in E. contradiction. }
  assert (Hstored : stored env (PStr stamp) s2
                    = Some (("agentId", agent_id s) :: tl item)).
  { unfold stored. rewrite Htruthy, Htable, Hitems, Hsame.
    change (("agentId", agent_id s) :: tl item) with item.
    apply find_put_record.
    - intros it. unfold same_key, item. cbn [get String.eqb Ascii.eqb Bool.eqb].
      reflexivity.
    - unfold same_key, item. cbn [get String.eqb Ascii.eqb Bool.eqb].
      rewrite Hme, !String.eqb_refl. reflexivity. }
  destruct (load_state_success (PStr stamp) s2 "agentId" (agent_id s) (tl item)
              (json_dumps env (memory s)) (memory s) Hbound2 Hserves Hstored eq_refl Hjson)
    as (s3 & L & T & St & M & C & _).
  exists s3. split; [exact L|]. repeat split; assumption.
Qed.

End WithEnv.

(** An agent constructed with no table, queue, bus or bucket. *)
Definition detached : State :=
  mkState 0 [] [] [] [] []
          (PStr "engineer-0a1b2c3d") (PStr "engineer") (PStr "2024-01-10T07:59:59")
          (PStr "initialized") (PList [])
          false false false false.

Lemma unbound_handles_example :
  save_state Fixture.env detached = (Ok (PDict []), detached)
  /\ load_state Fixture.env PNone detached = (Ok false, detached)
  /\ send_message Fixture.env "architect" [("type", PStr "ping")] detached
     = (Ok (PDict []), detached)
  /\ emit_event Fixture.env "CodeImplemented" [("project_id", PStr "p1")] detached
     = (Ok (PDict []), detached)
  /\ save_artifact Fixture.env (PStr "text") "k" detached = (Ok (PDict []), detached).
Proof.
  destruct (unbound_handles_are_skipped Fixture.env detached PNone (PStr "text")
              "architect" "CodeImplemented" "k" [("type", PStr "ping")]
              [("project_id", PStr "p1")]) as (Hdb & Hq & He & Ha).
  destruct (Hdb eq_refl) as [Hsave Hload].
  split; [exact Hsave|]. split; [exact Hload|].
  split; [exact (Hq eq_refl)|]. split; [exact (He eq_refl)|exact (Ha eq_refl)].
Defined.

(** A caller that tries to pass another agent's identity in the detail. *)
Lemma events_carry_the_agents_identity_example :
  exists sent_detail,
    published (snd (emit_event Fixture.env "CodeImplemented"
                               [("agent_id", PStr "someone-else"); ("project_id", PStr "p1")]
                               (Fixture.agent "engineer")))
    = published (Fixture.agent "engineer")
        ++ [(("agent." ++ str Fixture.env (agent_type (Fixture.agent "engineer")))%string,
             "CodeImplemented", sent_detail)]
    /\ get sent_detail "agent_id" = Some (PStr "engineer-0a1b2c3d")
    /\ get sent_detail "agent_type" = Some (PStr "engineer")
    /\ (forall k, k <> "agent_id" -> k <> "agent_type" ->
                  get sent_detail k
                  = get [("agent_id", PStr "someone-else"); ("project_id", PStr "p1")] k).
Proof.
  apply (events_carry_the_agents_identity Fixture.env "CodeImplemented"
           [("agent_id", PStr "someone-else"); ("project_id", PStr "p1")]
           (Fixture.agent "engineer") _ (PDict [])).
  - reflexivity.
  - reflexivity.
Defined.

(** A stored record without [createdAt]. *)
Definition partial_record : dict :=
  [("agentId", PStr "engineer-0a1b2c3d");
   ("stateId", PStr "2024-01-09T00:00:00");
   ("state", PStr "code_implemented");
   ("memory", PStr "[]")].

Lemma load_state_takes_the_record_example :
  exists s',
    load_state Fixture.env PNone (set_items [partial_record] (Fixture.agent "engineer"))
    = (Ok true, s')
    /\ agent_type s' = PStr "engineer"
    /\ state s' = PStr "code_implemented"
    /\ memory s' = PList []
    /\ created_at s' = PStr "2024-01-10T07:59:59"
    /\ agent_id s' = PStr "engineer-0a1b2c3d" /\ items s' = [partial_record]
    /\ objects s' = [] /\ published s' = [] /\ sent s' = [].
Proof.
  apply (load_state_takes_the_record Fixture.env PNone
           (set_items [partial_record] (Fixture.agent "engineer"))
           "agentId" (PStr "engineer-0a1b2c3d") (tl partial_record) "[]" (PList []));
    reflexivity.
Defined.

Lemma load_state_without_a_record_example :
  load_state Fixture.env (PStr "2024-01-09T00:00:00") (Fixture.agent "engineer")
  = (Ok false, set_tick 1 (Fixture.agent "engineer")).
Proof.
  apply (load_state_without_a_record Fixture.env (PStr "2024-01-09T00:00:00")
           (Fixture.agent "engineer")).
  - reflexivity.
  - reflexivity.
  - left. reflexivity.
Defined.

(** An engineer saves, moves on to another state, and loads what it saved. *)
Lemma saved_state_is_restored_example :
  exists s3,
    load_state Fixture.env (PStr "2024-01-10T08:00:00")
               (set_state (PStr "bugs_fixed")
                          (snd (save_state Fixture.env (Fixture.agent "engineer"))))
    = (Ok true, s3)
    /\ agent_type s3 = PStr "engineer"
    /\ state s3 = PStr "initialized"
    /\ memory s3 = PList []
    /\ created_at s3 = PStr "2024-01-10T07:59:59".
Proof.
  apply (saved_state_is_restored Fixture.env (Fixture.agent "engineer")
           (snd (save_state Fixture.env (Fixture.agent "engineer")))
           (set_state (PStr "bugs_fixed")
                      (snd (save_state Fixture.env (Fixture.agent "engineer"))))
           "engineer-0a1b2c3d" (PDict [])).
  - reflexivity.
  - reflexivity.
  - reflexivity.
  - discriminate.
  - reflexivity.
  - reflexivity.
  - reflexivity.
  - reflexivity.
  - reflexivity.
Defined.

End AgentBaseFacts.

(* ================================================================== *)
(** ** What an operation leaves behind *)
(* ================================================================== *)

Module OperationFacts.

Import LLMClient S3Client AgentBase AgentOps Frames S3ClientFacts Operations AgentFacts
       MaterialsFacts.

(** The state label an operation of the business and AWS agents sets, and
    the [type] of its memory record. *)
Definition label_of (op : operation) : string :=
  match op with
  | PM_analyze_requirement => "analysis_completed"
  | PM_create_user_stories => "user_stories_created"
  | PM_create_competitive_analysis => "competitive_analysis_created"
  | PM_create_product_requirement_doc => "prd_created"
  | Arch_create_architecture => "architecture_created"
  | Arch_create_class_diagram => "class_diagram_created"
  | Arch_create_sequence_diagram => "sequence_diagram_created"
  | Arch_create_api_design => "api_design_created"
  | Eng_implement_code => "code_implemented"
  | Eng_review_code => "code_reviewed"
  | Eng_fix_bugs => "bugs_fixed"
  | Cloud_design_cloud_architecture => "cloud_architecture_created"
  | Cloud_evaluate_architecture => "architecture_evaluated"
  | Cloud_create_infrastructure_diagram => "infrastructure_diagram_created"
  | Cloud_optimize_cost => "cost_optimization_completed"
  | Cloud_design_disaster_recovery => "disaster_recovery_designed"
  | Cloud_analyze_cfn_failure => "cfn_failure_analyzed"
  | Sls_design_serverless_architecture => "serverless_architecture_created"
  | Sls_design_event_driven_architecture => "event_architecture_created"
  | Sls_design_api_gateway => "api_design_created"
  | Sls_optimize_lambda_functions => "lambda_optimization_created"
  | Sls_design_step_functions_workflow => "step_functions_workflow_created"
  | _ => "initialized"
  end.

Definition kind_of (op : operation) : string :=
  match op with
  | PM_analyze_requirement => "analysis"
  | PM_create_user_stories => "user_stories"
  | PM_create_competitive_analysis => "competitive_analysis"
  | PM_create_product_requirement_doc => "prd"
  | Arch_create_architecture => "architecture"
  | Arch_create_class_diagram => "class_diagram"
  | Arch_create_sequence_diagram => "sequence_diagram"
  | Arch_create_api_design => "api_design"
  | Eng_implement_code => "implementation"
  | Eng_review_code => "review"
  | Eng_fix_bugs => "fixed_implementation"
  | Cloud_design_cloud_architecture => "cloud_architecture"
  | Cloud_evaluate_architecture => "architecture_evaluation"
  | Cloud_create_infrastructure_diagram => "infrastructure_diagram"
  | Cloud_optimize_cost => "cost_optimization"
  | Cloud_design_disaster_recovery => "disaster_recovery"
  | Cloud_analyze_cfn_failure => "cfn_failure_analysis"
  | Sls_design_serverless_architecture => "serverless_architecture"
  | Sls_design_event_driven_architecture => "event_architecture"
  | Sls_design_api_gateway => "api_design"
  | Sls_optimize_lambda_functions => "lambda_optimization"
  | Sls_design_step_functions_workflow => "step_functions_workflow"
  | _ => ""
  end.

(** The two fields of the agent the operations write. *)
Definition keeps (s s' : State) : Prop := state s' = state s /\ memory s' = memory s.

Lemma others_keeps (s s' : State) : others s' = others s -> keeps s s'.
Proof.
  intros H. apply others_fields in H as (_ & _ & _ & St & M & _). split; assumption.
Qed.

Lemma calm_keeps (s s' : State) : calm s s' -> keeps s s'.
Proof. intros [(_ & _ & R) _]. apply others_keeps. exact R. Qed.

Section WithEnv.
Variable env : Env.

Lemma upload_keeps (data : dict) (p : pyval) (a t : string) (i ts : pyval)
      (s s' : State) (r : upload_result) :
  upload env data p a t i ts s = (Ok r, s') -> keeps s s'.
Proof.
  intros H. unfold upload in H.
  apply bind_ok in H as ([] & s1 & H1 & H).
  apply bind_ok in H as (d & s2 & H2 & H).
  apply (Calm_run _ _ _ _ _ Calm_artifacts) in H1 as [(_ & _ & R1) _].
  unfold alloc in H2. injection H2 as <- <-.
  apply upload_artifact_ok in H as (_ & _ & _ & _ & _ & _ & _ & R).
  apply others_keeps. rewrite R. exact R1.
Qed.

Lemma save_state_keeps (s s' : State) (r : res pyval) :
  save_state env s = (r, s') -> keeps s s'.
Proof.
  unfold save_state, bind at 1, gets at 1.
  destruct (negb (has_state_db s)); [intros H; injection H as _ <-; split; reflexivity|].
  unfold put_item, bind, ask, gets, service_call, modify, ret.
  cbn [tick set_tick].
  destruct (fault env (S (S (tick s)))); intros H; injection H as _ <-; split; reflexivity.
Qed.

Lemma send_message_keeps (to : string) (content : dict) (s s' : State) (r : res pyval) :
  send_message env to content s = (r, s') -> keeps s s'.
Proof.
  unfold send_message, bind at 1, gets at 1.
  destruct (negb (has_queue s)); [intros H; injection H as _ <-; split; reflexivity|].
  unfold bind, ask, gets, service_call, modify, ret. cbn [tick set_tick].
  destruct (fault env (S (tick s))); intros H; injection H as _ <-; split; reflexivity.
Qed.

Lemma emit_event_keeps (name : string) (detail : dict) (s s' : State) (r : pyval) :
  emit_event env name detail s = (Ok r, s') -> keeps s s'.
Proof. intros H. apply emit_event_ok in H as (_ & R & _). apply others_keeps. exact R. Qed.

Lemma save_artifact_keeps (doc : pyval) (key : string) (s s' : State) (r : res pyval) :
  save_artifact env doc key s = (r, s') -> keeps s s'.
Proof.
  unfold save_artifact, bind at 1, gets at 1.
  destruct (negb (has_artifacts s)); [intros H; injection H as _ <-; split; reflexivity|].
  destruct doc; unfold upload_json, bind, service_call, modify, ret;
    destruct (fault env (tick s)); intros H; injection H as _ <-; split; reflexivity.
Qed.

Lemma add_to_memory_ok (item : pyval) (s s' : State) :
  add_to_memory item s = (Ok tt, s') ->
  exists before, memory s = PList before /\ memory s' = PList (before ++ [item])
                 /\ state s' = state s.
Proof.
  unfold add_to_memory, bind, gets.
  destruct (memory s) as [| | | | |l|] eqn:M; try discriminate.
  unfold modify. intros H. injection H as <-.
  exists l. repeat split.
Qed.

Lemma set_state_ok (label : pyval) (s s' : State) :
  modify (set_state label) s = (Ok tt, s') -> state s' = label /\ memory s' = memory s.
Proof. unfold modify. intros H. injection H as <-. split; reflexivity. Qed.

(** Splits a successful run into its steps. *)
Ltac steps H :=
  repeat first
    [ apply bind_ok in H; destruct H as (? & ? & ? & H)
    | apply try_except_cases in H;
      destruct H as [(? & H & ?) | (? & ? & ? & H)] ].

(** The steps that only read. *)
Ltac looks :=
  first [ apply Calm_arg_uuid | apply Calm_arg_now | apply Calm_require
        | apply Calm_lift | apply Calm_ask_llm | apply Calm_new_id
        | apply Calm_load_optional | apply Calm_load_required | apply Calm_ret ].

(** What each step did to the two fields. *)
Ltac writes :=
  repeat match goal with
         | u : unit |- _ => destruct u
         | H : add_to_memory _ _ = (Ok _, _) |- _ =>
             apply add_to_memory_ok in H; destruct H as (? & ? & ? & ?)
         | H : modify (set_state _) _ = (Ok _, _) |- _ =>
             apply set_state_ok in H; destruct H as [? ?]
         | H : upload _ _ _ _ _ _ _ _ = (Ok _, _) |- _ =>
             apply upload_keeps in H; destruct H as [? ?]
         | H : save_state _ _ = (_, _) |- _ =>
             apply save_state_keeps in H; destruct H as [? ?]
         | H : send_message _ _ _ _ = (_, _) |- _ =>
             apply send_message_keeps in H; destruct H as [? ?]
         | H : emit_event _ _ _ _ = (Ok _, _) |- _ =>
             apply emit_event_keeps in H; destruct H as [? ?]
         | H : save_artifact _ _ _ _ = (_, _) |- _ =>
             apply save_artifact_keeps in H; destruct H as [? ?]
         | H : ?c ?s = (_, _) |- _ =>
             apply (Calm_run _ c s _ _) in H;
             [apply calm_keeps in H; destruct H as [? ?] | looks]
         end.

(** A successful operation of a business or AWS agent is recorded on the
    agent: [state] is the operation's completion label, and [memory], which
    was a list, has exactly one more record, of the operation's type and
    pointing at the artifact the result names. *)
Theorem successful_operation_is_recorded
        (op : operation) (input_data : dict) (s s' : State) (d : dict)
        (Hop : is_materials op = false)
        (Hrun : run env op input_data s = (Ok (PDict d), s'))
        (Hsuccess : get d "status" = Some (PStr "success")) :
  state s' = PStr (label_of op)
  /\ exists before record,
       memory s = PList before
       /\ memory s' = PList (before ++ [PDict record])
       /\ get record "type" = Some (PStr (kind_of op))
       /\ get record "s3_key" = get d "s3_key".
Proof.
  destruct op; try discriminate Hop; clear Hop; cbn [run] in Hrun;
    cbn [label_of kind_of].
  all: match type of Hrun with ?f env _ _ = _ => unfold f in Hrun end.
  all: cbv zeta in Hrun.
  all: steps Hrun.
  all: try (unfold failed, ret in Hrun; injection Hrun as <- <-; discriminate Hsuccess).
  all: unfold ret in Hrun; injection Hrun as <- <-; clear Hsuccess.
  all: try match goal with
           | H : Ok (PDict ?x) = Ok _ |- _ => injection H as H; subst x
           end.
  all: writes.
  all: split; [congruence|].
  all: match goal with
       | B : memory _ = PList ?l, A : memory _ = PList (?l ++ [PDict ?rec]) |- _ =>
           exists l, rec
       end.
  all: split; [congruence|].
  all: split; [congruence|].
  all: split; reflexivity.
Qed.

End WithEnv.



(** *** Best-effort and mandatory loads *)

Section Loads.
Variable env : Env.

(** Loading an optional earlier artifact never fails: whatever goes wrong,
    the operation goes on with a value (the empty string), and nothing is
    changed. Without an id the store is not even asked. *)
Theorem optional_load_never_fails
        (artifact_id project_id : pyval) (agent_type artifact_type field : string)
        (timestamp : pyval) (s : State) :
  exists v s',
    load_optional env artifact_id project_id agent_type artifact_type field timestamp s
    = (Ok v, s')
    /\ calm s s'
    /\ (truthy artifact_id = true \/ (v = PStr "" /\ s' = s)).
Proof.
  pose proof (Calm_load_optional env artifact_id project_id agent_type artifact_type field
                                 timestamp s) as C.
  unfold load_optional in *.
  destruct (truthy artifact_id).
  - unfold try_except in *.
    match goal with
    | |- context [match ?c s with _ => _ end] => destruct (c s) as [[v|e] s1]
    end.
    + exists v, s1. split; [reflexivity|]. split; [exact C|left; reflexivity].
    + eexists. eexists. split; [reflexivity|]. split; [exact C|left; reflexivity].
  - exists (PStr ""), s. split; [reflexivity|]. split; [apply calm_refl|].
    right. split; reflexivity.
Qed.

(** Loading a mandatory earlier artifact fails in one way only: an
    invalid-input failure whose message starts with [Failed to load] and the
    name of what was to be loaded, followed by the text of the cause. *)
Theorem mandatory_load_fails_as_invalid_input
        (what : string) (artifact_id project_id : pyval)
        (agent_type artifact_type field1 field2 : string) (default2 timestamp : pyval)
        (s s' : State) (e : exn)
        (Hfails : load_required env what artifact_id project_id agent_type artifact_type
                                field1 field2 default2 timestamp s = (Raise e, s')) :
  ekind e = ValueError
  /\ (exists cause, emsg e = ("Failed to load " ++ what ++ ": " ++ cause)%string)
  /\ calm s s'.
Proof.
  pose proof (Calm_load_required env what artifact_id project_id agent_type artifact_type
                                 field1 field2 default2 timestamp s) as C.
  rewrite Hfails in C. cbn [snd] in C.
  unfold load_required in Hfails.
  apply try_except_cases in Hfails as [(a & _ & F)|(cause & s1 & _ & F)]; [discriminate F|].
  unfold raise in F. injection F as <- _.
  split; [reflexivity|]. split; [exists (emsg cause); reflexivity|exact C].
Qed.

End Loads.

(** *** Ranking *)

(** The text of [rank_reason] for a rank. *)
Definition rank_reason_of (rank : Z) : string :=
  ("Ranked #" ++ str_of_int rank ++ " due to balance of properties and feasibility")%string.

Lemma mark_ranks_spec (l : list dict) (i : Z) (s : State) :
  exists ranked,
    InverseDesign.mark_ranks i (map PDict l) s = (Ok (map PDict ranked), s)
    /\ List.length ranked = List.length l
    /\ (forall n m, nth_error l n = Some m ->
          exists m', nth_error ranked n = Some m'
                     /\ get m' "rank" = Some (PInt (i + Z.of_nat n + 1))
                     /\ get m' "rank_reason"
                        = Some (PStr (rank_reason_of (i + Z.of_nat n + 1)))
                     /\ (forall k, k <> "rank" -> k <> "rank_reason" ->
                                   get m' k = get m k)).
Proof.
  revert i. induction l as [|m0 r IH]; intros i.
  - exists []. split; [reflexivity|]. split; [reflexivity|].
    intros [|n] m H; discriminate H.
  - destruct (IH (i + 1)%Z) as (ranked & E & L & N).
    cbn [map InverseDesign.mark_ranks]. unfold bind. rewrite E. unfold ret.
    eexists (_ :: ranked). split; [reflexivity|].
    split; [cbn [List.length]; rewrite L; reflexivity|].
    intros [|n] m H.
    + cbn [nth_error] in *. injection H as <-. eexists. split; [reflexivity|].
      split; [|split].
      * rewrite AgentBaseFacts.get_set_other by discriminate.
        rewrite get_set_same. f_equal. f_equal. lia.
      * rewrite get_set_same. unfold rank_reason_of.
        replace (i + Z.of_nat 0 + 1)%Z with (i + 1)%Z by lia. reflexivity.
      * intros k K1 K2. rewrite !AgentBaseFacts.get_set_other by congruence.
        reflexivity.
    + cbn [nth_error] in *. destruct (N n m H) as (m' & Hm' & Hr & Hq & Hk).
      exists m'. split; [exact Hm'|].
      replace (i + Z.of_nat (S n) + 1)%Z with (i + 1 + Z.of_nat n + 1)%Z by lia.
      split; [exact Hr|]. split; [exact Hq|exact Hk].
Qed.

(** What [_parse_ranked_materials] returns ranks the candidates in the order
    the caller listed them, whatever the model answered: the candidate at
    position [n] gets [rank = n + 1] and the [rank_reason] of that rank, and
    keeps its other entries. *)
Theorem ranking_follows_the_callers_order (l : list dict) (s : State) :
  exists ranked,
    fst (InverseDesign.parse_ranked_materials (PList (map PDict l)) s)
    = Ok (PList (map PDict ranked))
    /\ List.length ranked = List.length l
    /\ (forall n m, nth_error l n = Some m ->
          exists m', nth_error ranked n = Some m'
                     /\ get m' "rank" = Some (PInt (Z.of_nat n + 1))
                     /\ get m' "rank_reason"
                        = Some (PStr (rank_reason_of (Z.of_nat n + 1)))
                     /\ (forall k, k <> "rank" -> k <> "rank_reason" ->
                                   get m' k = get m k)).
Proof.
  destruct (mark_ranks_spec l 0 s) as (ranked & E & L & N).
  exists ranked. split; [|split; [exact L|exact N]].
  unfold InverseDesign.parse_ranked_materials, bind. rewrite E. reflexivity.
Qed.

(** *** Operations that answer their failures *)

(** The operations whose body is wrapped in a handler that turns any
    exception into the failure value. *)
Definition guarded (op : operation) : bool :=
  match op with
  | PM_analyze_requirement => true
  | _ => is_materials op
  end.

(** A result that reports success, or failure with a message. *)
Definition reports (v : pyval) : Prop :=
  exists d, v = PDict d
            /\ (get d "status" = Some (PStr "success")
                \/ (get d "status" = Some (PStr "failed")
                    /\ exists msg, get d "error" = Some (PStr msg))).

(** [c] returns, with a value satisfying [P]. *)
Definition Returns {A : Type} (P : A -> Prop) (c : M A) : Prop :=
  forall s, exists a s', c s = (Ok a, s') /\ P a.

(** Whenever [c] returns, its value satisfies [P]. *)
Definition Yields {A : Type} (P : A -> Prop) (c : M A) : Prop :=
  forall s a s', c s = (Ok a, s') -> P a.

Lemma Returns_bind (A B : Type) (P : A -> Prop) (Q : B -> Prop) (c : M A) (k : A -> M B) :
  Returns P c -> (forall a, P a -> Returns Q (k a)) -> Returns Q (bind c k).
Proof.
  intros Hc Hk s. destruct (Hc s) as (a & s1 & E & Pa).
  unfold bind. rewrite E. apply Hk. exact Pa.
Qed.

Lemma Yields_bind (A B : Type) (Q : B -> Prop) (c : M A) (k : A -> M B) :
  (forall a, Yields Q (k a)) -> Yields Q (bind c k).
Proof.
  intros Hk s b s' H. apply bind_ok in H as (a & s1 & _ & H). apply (Hk a s1 b s' H).
Qed.

Lemma Yields_ret (A : Type) (Q : A -> Prop) (a : A) : Q a -> Yields Q (ret a).
Proof. intros H s b s' E. injection E as <- _. exact H. Qed.

Lemma Returns_guarded (c : M pyval) : Yields reports c -> Returns reports (try_except c failed).
Proof.
  intros Hc s. unfold try_except. destruct (c s) as [[v|e] s1] eqn:E.
  - exists v, s1. split; [reflexivity|]. apply (Hc s v s1 E).
  - eexists. eexists. split; [reflexivity|].
    eexists. split; [reflexivity|]. right. split; [reflexivity|].
    eexists. reflexivity.
Qed.

Lemma Returns_require (v : pyval) (msg : string) :
  truthy v = true -> Returns (fun _ => True) (require v msg).
Proof. intros T s. unfold require. rewrite T. exists tt, s. split; [reflexivity|exact I]. Qed.

Section Guarded.
Variable env : Env.

Lemma Returns_arg_uuid (d : dict) (k : string) : Returns (fun _ => True) (arg_uuid env d k).
Proof. intros s. eexists. eexists. split; [reflexivity|exact I]. Qed.

Lemma Returns_arg_now (d : dict) (k : string) : Returns (fun _ => True) (arg_now env d k).
Proof. intros s. eexists. eexists. split; [reflexivity|exact I]. Qed.

(** Once its required fields are supplied, an operation with a guarded
    body never raises: whatever fails afterwards (the prompt, the model, the
    store, the bus) comes back as [{status: failed, error: ...}]. *)
Theorem guarded_operations_answer_their_failures
        (op : operation) (input_data : dict) (s : State)
        (Hguarded : guarded op = true)
        (Hvalid : forallb (fun entry => supplied input_data (fst entry)) (required op)
                  = true) :
  exists v s', run env op input_data s = (Ok v, s') /\ reports v.
Proof.
  revert s. change (Returns reports (run env op input_data)).
  destruct op; try discriminate Hguarded; clear Hguarded;
    cbn [required forallb fst] in Hvalid;
    repeat match goal with
           | H : _ && _ = true |- _ =>
               let H1 := fresh "V" in apply andb_prop in H; destruct H as [H1 H]
           end;
    cbn [run].
  all: match goal with |- Returns _ (?f env _) => unfold f end.
  all: cbv zeta.
  all: repeat first
         [ apply (Returns_bind _ _ (fun _ => True) reports);
           [ first [ apply Returns_arg_uuid | apply Returns_arg_now
                   | apply Returns_require; rewrite truthy_get_or by reflexivity;
                     assumption ]
           | intros ? _ ] ].
  all: apply Returns_guarded.
  all: repeat (apply Yields_bind; intros ?).
  all: apply Yields_ret.
  all: eexists; split; [reflexivity|left; reflexivity].
Qed.

End Guarded.


(** *** The entry point *)

(** The name under which [process] knows an operation, and its agent. *)
Definition name_of (op : operation) : string :=
  match op with
  | PM_analyze_requirement => "analyze_requirement"
  | PM_create_user_stories => "create_user_stories"
  | PM_create_competitive_analysis => "create_competitive_analysis"
  | PM_create_product_requirement_doc => "create_product_requirement_doc"
  | Arch_create_architecture => "create_architecture"
  | Arch_create_class_diagram => "create_class_diagram"
  | Arch_create_sequence_diagram => "create_sequence_diagram"
  | Arch_create_api_design => "create_api_design"
  | Eng_implement_code => "implement_code"
  | Eng_review_code => "review_code"
  | Eng_fix_bugs => "fix_bugs"
  | Cloud_design_cloud_architecture => "design_cloud_architecture"
  | Cloud_evaluate_architecture => "evaluate_architecture"
  | Cloud_create_infrastructure_diagram => "create_infrastructure_diagram"
  | Cloud_optimize_cost => "optimize_cost"
  | Cloud_design_disaster_recovery => "design_disaster_recovery"
  | Cloud_analyze_cfn_failure => "analyze_cfn_failure"
  | Sls_design_serverless_architecture => "design_serverless_architecture"
  | Sls_design_event_driven_architecture => "design_event_driven_architecture"
  | Sls_design_api_gateway => "design_api_gateway"
  | Sls_optimize_lambda_functions => "optimize_lambda_functions"
  | Sls_design_step_functions_workflow => "design_step_functions_workflow"
  | Target_set_target_properties => "set_target_properties"
  | Target_analyze_tradeoffs => "analyze_tradeoffs"
  | Target_validate_targets => "validate_targets"
  | Inverse_design_materials => "design_materials"
  | Inverse_rank_candidates => "rank_candidates"
  | Inverse_evaluate_feasibility => "evaluate_feasibility"
  | Plan_create_experiment_plan => "create_experiment_plan"
  | Plan_optimize_conditions => "optimize_conditions"
  | Plan_estimate_resources => "estimate_resources"
  end.

Definition agent_of (op : operation) : agent :=
  match op with
  | PM_analyze_requirement => ProductManagerAgent
  | PM_create_user_stories => ProductManagerAgent
  | PM_create_competitive_analysis => ProductManagerAgent
  | PM_create_product_requirement_doc => ProductManagerAgent
  | Arch_create_architecture => ArchitectAgent
  | Arch_create_class_diagram => ArchitectAgent
  | Arch_create_sequence_diagram => ArchitectAgent
  | Arch_create_api_design => ArchitectAgent
  | Eng_implement_code => EngineerAgent
  | Eng_review_code => EngineerAgent
  | Eng_fix_bugs => EngineerAgent
  | Cloud_design_cloud_architecture => CloudArchitectAgent
  | Cloud_evaluate_architecture => CloudArchitectAgent
  | Cloud_create_infrastructure_diagram => CloudArchitectAgent
  | Cloud_optimize_cost => CloudArchitectAgent
  | Cloud_design_disaster_recovery => CloudArchitectAgent
  | Cloud_analyze_cfn_failure => CloudArchitectAgent
  | Sls_design_serverless_architecture => ServerlessArchitectAgent
  | Sls_design_event_driven_architecture => ServerlessArchitectAgent
  | Sls_design_api_gateway => ServerlessArchitectAgent
  | Sls_optimize_lambda_functions => ServerlessArchitectAgent
  | Sls_design_step_functions_workflow => ServerlessArchitectAgent
  | Target_set_target_properties => PropertyTargetAgent
  | Target_analyze_tradeoffs => PropertyTargetAgent
  | Target_validate_targets => PropertyTargetAgent
  | Inverse_design_materials => InverseDesignAgent
  | Inverse_rank_candidates => InverseDesignAgent
  | Inverse_evaluate_feasibility => InverseDesignAgent
  | Plan_create_experiment_plan => ExperimentPlanningAgent
  | Plan_optimize_conditions => ExperimentPlanningAgent
  | Plan_estimate_resources => ExperimentPlanningAgent
  end.

(** The operation an agent runs when the input names none. *)
Definition default_of (a : agent) : operation :=
  match a with
  | ProductManagerAgent => PM_analyze_requirement
  | ArchitectAgent => Arch_create_architecture
  | EngineerAgent => Eng_implement_code
  | CloudArchitectAgent => Cloud_design_cloud_architecture
  | ServerlessArchitectAgent => Sls_design_serverless_architecture
  | PropertyTargetAgent => Target_set_target_properties
  | InverseDesignAgent => Inverse_design_materials
  | ExperimentPlanningAgent => Plan_create_experiment_plan
  end.

(** How an agent's [process] hands on what the method does: the Architect as
    it is, the others with any exception turned into the failure value. *)
Definition handed_on (a : agent) (c : M pyval) : M pyval :=
  match a with
  | ArchitectAgent => c
  | _ => try_except c failed
  end.

(** How a refusal reaches the caller of [process]. *)
Definition refusal_of (a : agent) (msg : string) : res pyval :=
  match a with
  | ArchitectAgent => Raise (mkExn ValueError msg)
  | _ => Ok (PDict [("status", PStr "failed"); ("error", PStr msg)])
  end.

(** What [process] does with an input that lacks a required field of the
    operation it names: a refusal for a required field that is not supplied,
    the omitted one when nothing else is lacking, with only the clock moved. *)
Definition refused (op : operation) (input_data : dict) (field msg : string)
           (s : State) (out : res pyval * State) : Prop :=
  exists field' msg',
    In (field', msg') (required op)
    /\ supplied input_data field' = false
    /\ fst out = refusal_of (agent_of op) msg'
    /\ calm s (snd out)
    /\ ((forall f m, In (f, m) (required op) -> f <> field -> supplied input_data f = true)
        -> msg' = msg).

(** Closes the case where the check that has just failed is the one on [k]. *)
Ltac refused_here :=
  match goal with
  | T : supplied _ ?k = false |- refused _ _ _ _ _ _ =>
      exists k; eexists; cbn [required agent_of refusal_of fst snd emsg];
      split; [|split; [exact T|split; [reflexivity|split; [repeat split|]]]];
      [ cbn [In]; tauto
      | let Others := fresh "Others" in
        intros Others;
        try reflexivity;
        exfalso;
        (erewrite Others in T;
         [ discriminate T
         | cbn [In];
           first [ left; reflexivity | right; left; reflexivity
                 | right; right; left; reflexivity ]
         | discriminate ]) ]
  end.

Section Dispatch.
Variable env : Env.

(** [process] runs the method its [process_type] names, and the agent's
    first method when the input has no [process_type]. *)
Lemma process_dispatch
        (op : operation) (input_data : dict)
        (Htype : get_or input_data "process_type"
                        (PStr (name_of (default_of (agent_of op))))
                 = PStr (name_of op)) :
  process env (agent_of op) input_data
  = handed_on (agent_of op) (run env op input_data).
Proof.
  destruct op; cbn [agent_of default_of name_of process handed_on run] in *.
  all: match goal with |- ?f env _ = _ => unfold f end.
  all: cbv zeta; rewrite Htype; reflexivity.
Qed.

(** Goes through the checks of the operation up to the one that fails. *)
Ltac refusal_cases op Hrequired :=
  destruct op; cbn [required In] in Hrequired;
  repeat match goal with
         | H : _ \/ _ |- _ => destruct H as [H|H]
         | H : False |- _ => destruct H
         | H : (_, _) = (_, _) |- _ => injection H as <- <-
         end;
  cbn [run agent_of handed_on];
  unfold try_except;
  match goal with
  | |- context [?f env _ _] => unfold f
  end;
  unfold bind at 1;
  unfold arg_uuid, arg_now, bind, ask, ret;
  cbv beta iota;
  unfold require;
  repeat (next_check; cbv beta iota; unfold raise, failed, ret; cbv beta iota;
          [ | try refused_here ]);
  exfalso; congruence.


(** A required field missing from the input of a named operation reaches
    the caller of [process] as the failure value carrying the field's message
    (as a [ValueError] for the Architect), and nothing but the clock has
    moved. *)
Theorem process_reports_a_missing_field
        (op : operation) (input_data : dict) (field msg : string) (s : State)
        (Htype : get input_data "process_type" = Some (PStr (name_of op)))
        (Hrequired : In (field, msg) (required op))
        (Homitted : get input_data field = None) :
  refused op input_data field msg s (process env (agent_of op) input_data s).
Proof.
  rewrite process_dispatch by (unfold get_or; rewrite Htype; reflexivity).
  clear Htype. apply omitted_not_supplied in Homitted.
  refusal_cases op Hrequired.
Qed.

End Dispatch.


(** *** Examples *)

Definition code_request : dict :=
  [("requirement", PStr "a to-do list"); ("project_id", PStr "p1");
   ("timestamp", PStr "2024-01-10T08:00:00")].

Lemma successful_operation_is_recorded_example :
  exists d s',
    run Fixture.env Eng_implement_code code_request (Fixture.agent "engineer")
    = (Ok (PDict d), s')
    /\ state s' = PStr "code_implemented"
    /\ exists before record,
         memory (Fixture.agent "engineer") = PList before
         /\ memory s' = PList (before ++ [PDict record])
         /\ get record "type" = Some (PStr "implementation")
         /\ get record "s3_key" = get d "s3_key".
Proof.
  eexists. eexists. split; [vm_compute; reflexivity|].
  eapply (successful_operation_is_recorded Fixture.env Eng_implement_code code_request
            (Fixture.agent "engineer")).
  - reflexivity.
  - vm_compute. reflexivity.
  - reflexivity.
Defined.

Lemma mandatory_load_example :
  exists e s',
    load_required Fixture.env "architecture" (PStr "a1") (PStr "p1") "architect"
                  "architecture" "architecture" "requirement" (PStr "")
                  (PStr "2024-01-10T08:00:00") (Fixture.agent "architect")
    = (Raise e, s')
    /\ ekind e = ValueError
    /\ (exists cause, emsg e = ("Failed to load " ++ "architecture" ++ ": " ++ cause)%string)
    /\ calm (Fixture.agent "architect") s'.
Proof.
  eexists. eexists. split; [vm_compute; reflexivity|].
  eapply (mandatory_load_fails_as_invalid_input Fixture.env "architecture" (PStr "a1")
            (PStr "p1") "architect" "architecture" "architecture" "requirement" (PStr "")
            (PStr "2024-01-10T08:00:00") (Fixture.agent "architect")).
  vm_compute. reflexivity.
Defined.

(** A world in which every service call fails. *)
Definition outage : Env :=
  mkEnv "artifacts" (fun _ => "id") (fun _ => "2024-01-10T08:00:00")
        (fun _ => mkDate 2024 1 10) Fixture.fromisoformat
        (fun _ => Some (mkExn ServiceError "ServiceUnavailable"))
        (fun _ _ => PNone) (fun _ => "[]") Fixture.json_loads (fun _ => "<object>")
        (fun _ _ => Ok [mk "user" "U"]) (fun _ _ => Ok PNone).

Lemma guarded_operations_example :
  exists v s',
    run outage Target_validate_targets
        [("target_properties", PDict [("band_gap", PStr "1.5 eV")])]
        (Fixture.agent "property_target")
    = (Ok v, s')
    /\ reports v.
Proof.
  apply (guarded_operations_answer_their_failures outage Target_validate_targets
           [("target_properties", PDict [("band_gap", PStr "1.5 eV")])]
           (Fixture.agent "property_target")); reflexivity.
Defined.

Lemma process_reports_a_missing_field_example :
  refused Eng_fix_bugs [("process_type", PStr "fix_bugs"); ("project_id", PStr "p1")]
          "implementation_id" "Implementation ID is required" (Fixture.agent "engineer")
          (process Fixture.env EngineerAgent
                   [("process_type", PStr "fix_bugs"); ("project_id", PStr "p1")]
                   (Fixture.agent "engineer")).
Proof.
  apply (process_reports_a_missing_field Fixture.env Eng_fix_bugs
           [("process_type", PStr "fix_bugs"); ("project_id", PStr "p1")]
           "implementation_id" "Implementation ID is required" (Fixture.agent "engineer")).
  - reflexivity.
  - cbn [required In]. left. reflexivity.
  - reflexivity.
Defined.

End OperationFacts.

(* ================================================================== *)
(** ** More on the CloudFormation event parser *)
(* ================================================================== *)

Module CfnHandlerFacts.

Import CfnEventParser CfnEventParserFacts.

(** [event.get('detail', {})] is something with a [get]: absent, or a dict. *)
Definition detail_is_usable (event : dict) : bool :=
  match get event "detail" with
  | None | Some (PDict _) => true
  | Some _ => false
  end.

Lemma detail_usable (event : dict) (k : string) :
  detail_is_usable event = true ->
  exists d, get_or event "detail" (PDict []) = PDict d
            /\ detail event k = Ok (get_or d k (PStr "")).
Proof.
  unfold detail_is_usable, detail, get_or.
  destruct (get event "detail") as [[| | | | | |d]|]; try discriminate; intros _.
  - exists d. split; reflexivity.
  - exists []. split; reflexivity.
Qed.

(** The handler answers every event whose [detail] is absent or an object,
    if need be with an error result; it raises, out of its own error handler,
    exactly when [detail] is some other value. *)
Theorem handler_raises_only_for_a_detail_that_is_no_object (api : Api) (event : dict) :
  if detail_is_usable event
  then exists r, handler api event = Ok r
  else exists e, handler api event = Raise e /\ ekind e = AttributeError.
Proof.
  destruct (detail_is_usable event) eqn:U.
  - unfold handler.
    destruct (detail_usable event "stack-id" U) as (d & D & ->).
    unfold detail. rewrite D.
    destruct (truthy (get_or d "stack-id" (PStr ""))); [|eexists; reflexivity].
    match goal with
    | |- context [enrich ?a ?b ?c ?e ?f ?g] => destruct (enrich a b c e f g) as [err|p]
    end.
    + eexists. reflexivity.
    + destruct p as [[[[n t] l] rt] sr]. eexists. reflexivity.
  - unfold handler, detail, detail_is_usable, get_or in *.
    destruct (get event "detail") as [[| | | | | |d]|]; try discriminate;
      (eexists; split; reflexivity).
Qed.

Lemma get_app_some (V : Type) (a b : list (string * V)) (k : string) (v : V) :
  get a k = Some v -> get (a ++ b) k = Some v.
Proof.
  induction a as [|[k' v'] r IH]; cbn [get app]; [discriminate|].
  destruct (k' =? k); [intros H; exact H|exact IH].
Qed.

(** Whatever the answer is, regular or error, it repeats the stack id of the
    event and is stamped with the time. *)
Theorem every_result_names_the_stack (api : Api) (event r : dict) (stack_id : pyval)
        (Hrun : handler api event = Ok r)
        (Hid : detail event "stack-id" = Ok stack_id) :
  get r "stackId" = Some stack_id
  /\ get r "timestamp" = Some (PStr (now_iso api))
  /\ has_key r "stackName" = true.
Proof.
  unfold handler in Hrun. rewrite Hid in Hrun.
  destruct (detail event "stack-name") as [name|]; [|destruct (Ok stack_id); discriminate].
  destruct (detail event "status") as [status|]; [|discriminate].
  destruct (detail event "status-reason") as [reason|]; [|discriminate].
  destruct (detail event "logical-resource-id") as [lr|]; [|discriminate].
  destruct (detail event "resource-type") as [rt|]; [|discriminate].
  assert (Regular : forall n st sr l t b,
             r = result api stack_id n st sr l t b ->
             get r "stackId" = Some stack_id
             /\ get r "timestamp" = Some (PStr (now_iso api))
             /\ has_key r "stackName" = true).
  { intros n st sr l t b ->. unfold result, has_key.
    split; [apply get_app_some; reflexivity|].
    split; [apply get_app_some; reflexivity|].
    erewrite get_app_some; reflexivity. }
  assert (Failed : forall e n,
             r = error_result api e stack_id n ->
             get r "stackId" = Some stack_id
             /\ get r "timestamp" = Some (PStr (now_iso api))
             /\ has_key r "stackName" = true).
  { intros e n ->. repeat split. }
  destruct (truthy stack_id).
  - unfold enrich in Hrun.
    destruct (connect api) as [e|]; [injection Hrun as <-; eapply Failed; reflexivity|].
    destruct (describe_stacks api stack_id) as [stacks|e];
      [|injection Hrun as <-; eapply Failed; reflexivity].
    cbv zeta in Hrun.
    match type of Hrun with
    | context [if ?c then _ else _] => destruct c
    end.
    + destruct (describe_stack_events api stack_id) as [events|e];
        [|injection Hrun as <-; eapply Failed; reflexivity].
      destruct (first_failure _); injection Hrun as <-; eapply Regular; reflexivity.
    + injection Hrun as <-. eapply Regular; reflexivity.
  - injection Hrun as <-. eapply Regular; reflexivity.
Qed.

(** When the event does not name the failed resource, the stack's events
    are read and the first one whose status is a failure supplies the
    resource, its type and the reason; later failures are not looked at. *)
Theorem the_first_failed_event_names_the_resource
        (api : Api) (event r : dict) (stack_id resource_type reason : pyval)
        (events : list dict) (ev : dict)
        (Hrun : handler api event = Ok r)
        (Hregular : get r "error" = None)
        (Hid : detail event "stack-id" = Ok stack_id)
        (Hstack : truthy stack_id = true)
        (Hunnamed : detail event "logical-resource-id" = Ok (PStr ""))
        (Htype : detail event "resource-type" = Ok resource_type)
        (Hreason : detail event "status-reason" = Ok reason)
        (Hevents : describe_stack_events api stack_id = Ok (Some events))
        (Hfirst : first_failure events = Some ev) :
  get r "logicalResourceId" = Some (get_or ev "LogicalResourceId" (PStr ""))
  /\ get r "resourceType" = Some (get_or ev "ResourceType" resource_type)
  /\ get r "statusReason" = Some (get_or ev "ResourceStatusReason" reason).
Proof.
  unfold handler in Hrun. rewrite Hid, Hunnamed, Htype, Hreason in Hrun.
  destruct (detail event "stack-name") as [name|]; [|destruct (Ok stack_id); discriminate].
  destruct (detail event "status") as [status|]; [|discriminate].
  rewrite Hstack in Hrun. unfold enrich in Hrun.
  destruct (connect api) as [e|]; [injection Hrun as <-; discriminate Hregular|].
  destruct (describe_stacks api stack_id) as [stacks|e];
    [|injection Hrun as <-; discriminate Hregular].
  cbv zeta in Hrun. cbn [truthy String.eqb negb] in Hrun.
  rewrite orb_true_r in Hrun. cbn [orb] in Hrun.
  rewrite Hevents, Hfirst in Hrun.
  injection Hrun as <-. unfold result.
  repeat split; apply get_app_some; reflexivity.
Qed.

Lemma every_result_names_the_stack_example :
  exists r,
    handler (api_serving (PStr "{}") (Raise (mkExn ServiceError "Rate exceeded")))
            bare_event = Ok r
    /\ get r "stackId" = Some (PStr "arn:aws:cloudformation:stack/demo/1")
    /\ get r "timestamp" = Some (PStr "2024-01-10T08:00:00")
    /\ has_key r "stackName" = true.
Proof.
  eexists. split; [reflexivity|].
  eapply (every_result_names_the_stack
            (api_serving (PStr "{}") (Raise (mkExn ServiceError "Rate exceeded")))
            bare_event); reflexivity.
Defined.

(** The history of a stack in which a role failed first and a bucket later. *)
Definition history : list dict :=
  [[("ResourceStatus", PStr "CREATE_IN_PROGRESS"); ("LogicalResourceId", PStr "Role")];
   [("ResourceStatus", PStr "CREATE_FAILED"); ("LogicalResourceId", PStr "Role");
    ("ResourceType", PStr "AWS::IAM::Role");
    ("ResourceStatusReason", PStr "Access denied")];
   [("ResourceStatus", PStr "CREATE_FAILED"); ("LogicalResourceId", PStr "Bucket");
    ("ResourceType", PStr "AWS::S3::Bucket")]].

Lemma the_first_failed_event_example :
  exists r,
    handler (api_serving (PStr "{}") (Ok (Some history))) bare_event = Ok r
    /\ get r "logicalResourceId" = Some (PStr "Role")
    /\ get r "resourceType" = Some (PStr "AWS::IAM::Role")
    /\ get r "statusReason" = Some (PStr "Access denied").
Proof.
  eexists. split; [reflexivity|].
  eapply (the_first_failed_event_names_the_resource
            (api_serving (PStr "{}") (Ok (Some history))) bare_event _
            (PStr "arn:aws:cloudformation:stack/demo/1") (PStr "") (PStr "") history
            (nth 1 history [])); reflexivity.
Defined.

End CfnHandlerFacts.

(* ================================================================== *)
(** ** Properties of the listing *)
(* ================================================================== *)

Module ListingFacts.

Import S3Client Listing Frames RoundTripFacts MaterialsFacts SequenceFacts.

Lemma prefix_trans (a b c : string) :
  prefix a b = true -> prefix b c = true -> prefix a c = true.
Proof.
  revert b c. induction a as [|x a IH]; intros b c H1 H2; [destruct c; reflexivity|].
  destruct b as [|y b]; [discriminate H1|].
  destruct c as [|z c]; [discriminate H2|].
  cbn [prefix] in *.
  destruct (ascii_dec x y) as [->|]; [|discriminate H1].
  destruct (ascii_dec y z) as [->|]; [|discriminate H2].
  apply (IH b c H1 H2).
Qed.

Lemma key_is_stored (objs : list (string * pyval)) (k : string) :
  In k (map fst objs) -> has_key objs k = true.
Proof.
  unfold has_key. induction objs as [|[k0 v0] r IH]; cbn [map fst In get]; [contradiction|].
  destruct (k0 =? k) eqn:E; [reflexivity|].
  intros [H|H]; [subst k0; rewrite String.eqb_refl in E; discriminate E|apply IH; exact H].
Qed.

Lemma length_firstn_min (A : Type) (n m : nat) (l : list A) :
  (List.length (firstn (Nat.min n m) l) <= n)%nat
  /\ (List.length (firstn (Nat.min n m) l) <= m)%nat.
Proof. rewrite length_firstn. lia. Qed.

Section WithEnv.
Variable env : Env.
Variable info : string -> object_info.

Lemma Calm_listing_prefix (p y m a t : pyval) : Calm (listing_prefix env p y m a t).
Proof. unfold listing_prefix. cbv zeta. frame. Qed.

(** Every prefix the listing builds lies under [projects/]. *)
Lemma listing_prefix_under_projects (p y m a t : pyval) (s s' : State) (pre : string) :
  listing_prefix env p y m a t s = (Ok pre, s') -> prefix "projects/" pre = true.
Proof.
  unfold listing_prefix. cbv zeta. unfold bind, ask, ret.
  destruct (truthy y), (truthy m), (truthy p), (truthy a), (truthy t);
    cbn [negb orb]; intros H; injection H as <- _;
    cbn [append]; apply (prefix_app "projects/").
Qed.

(** The listing never shows more than [max_items] artifacts, nor more than
    a page of 1000; what it shows are stored objects filed under
    [projects/]; and it changes nothing. *)
Theorem listing_is_bounded_and_under_projects
        (p y m a t : pyval) (max_items : nat) (s s' : State) (found : list dict)
        (Hlist : list_artifacts env info p y m a t max_items s = (Ok found, s')) :
  (List.length found <= max_items)%nat
  /\ (List.length found <= 1000)%nat
  /\ calm s s'
  /\ exists keys, found = map (listed info) keys
                  /\ forall k, In k keys -> prefix "projects/" k = true
                                            /\ has_key (objects s) k = true.
Proof.
  unfold list_artifacts in Hlist.
  apply bind_ok in Hlist as (pre & s1 & P & Hlist).
  apply bind_ok in Hlist as (keys & s2 & L & Hlist).
  unfold ret in Hlist. injection Hlist as <- <-.
  pose proof (listing_prefix_under_projects p y m a t s s1 pre P) as Under.
  apply (Calm_run _ _ _ _ _ (Calm_listing_prefix p y m a t)) in P.
  pose proof (Calm_run _ _ _ _ _ (Calm_list_objects_v2 env pre (Some max_items)) L) as C2.
  unfold list_objects_v2, bind, service_call, gets, ret in L.
  destruct (fault env (tick s1)); [discriminate|].
  cbn [objects set_tick] in L. injection L as <- <-.
  pose proof P as [(O1 & _) _].
  rewrite length_map.
  destruct (length_firstn_min _ max_items 1000 (keys_with_prefix pre (objects s1)))
    as [B1 B2].
  split; [exact B1|]. split; [exact B2|].
  split; [eapply calm_trans; eassumption|].
  eexists. split; [reflexivity|].
  intros k Hk. apply In_firstn in Hk.
  unfold keys_with_prefix in Hk. apply filter_In in Hk as [Hin Hpre].
  split; [apply (prefix_trans _ pre); assumption|].
  rewrite <- O1. apply key_is_stored. exact Hin.
Qed.

(** With a project but without both a year and a month, the listing looks
    under the current year and month; a year given alone is not replaced by
    it but stays in front, so that the prefix names two years. *)
Theorem a_year_alone_is_kept_in_front_of_the_current_month
        (project year : string) (month : pyval) (max_items : nat) (s : State)
        (Hproject : project <> "")
        (Hyear : year <> "")
        (Hmonth : truthy month = false)
        (Hserves : fault env (S (S (tick s))) = None) :
  list_artifacts env info (PStr project) (PStr year) month PNone PNone max_items s
  = (Ok (map (listed info)
             (firstn (Nat.min max_items 1000)
                     (keys_with_prefix
                        ("projects/" ++ year ++ "/"
                           ++ strftime_Y (now env (tick s)) ++ "/"
                           ++ strftime_m (now env (S (tick s))) ++ "/"
                           ++ project ++ "/")
                        (objects s)))),
     set_tick (S (S (S (tick s)))) s).
Proof.
  assert (Tp : truthy (PStr project) = true).
  { cbn [truthy]. destruct (project =? "") eqn:E; [|reflexivity].
    apply String.eqb_eq in E. contradiction. }
  assert (Ty : truthy (PStr year) = true).
  { cbn [truthy]. destruct (year =? "") eqn:E; [|reflexivity].
    apply String.eqb_eq in E. contradiction. }
  unfold list_artifacts, listing_prefix. cbv zeta.
  rewrite Tp, Ty, Hmonth. cbn [negb orb truthy].
  unfold bind, ask, ret, list_objects_v2, bind, service_call, gets, ret.
  cbn [tick set_tick objects str]. rewrite Hserves.
  rewrite !append_assoc. reflexivity.
Qed.

End WithEnv.

Section SameMonth.
Variable env : Env.
Variable info : string -> object_info.
Variables y m : Z.
Hypothesis Hserv : forall n, fault env n = None.
Hypothesis Hclock : forall n, year (now env n) = y /\ month (now env n) = m.

Lemma str_of_int_not_empty (n : Z) : (1 <= n)%Z -> str_of_int n <> "".
Proof.
  intros Hn E. pose proof (int_of_str_of_int n Hn) as H. rewrite E in H. discriminate H.
Qed.

Lemma year_truthy (n : Z) : (1 <= n)%Z -> truthy (PStr (str_of_int n)) = true.
Proof.
  intros Hn. cbn [truthy].
  destruct (str_of_int n) eqn:E; [|reflexivity].
  contradiction (str_of_int_not_empty n Hn E).
Qed.

Lemma pad2_truthy (n : Z) : (1 <= n)%Z -> truthy (PStr (pad2 n)) = true.
Proof.
  intros Hn. cbn [truthy]. unfold pad2.
  destruct (n <? 10)%Z; [reflexivity|].
  destruct (str_of_int n) eqn:E; [|reflexivity].
  contradiction (str_of_int_not_empty n Hn E).
Qed.

Lemma text_truthy (t : string) : t <> "" -> truthy (PStr t) = true.
Proof.
  intros H. cbn [truthy]. destruct (t =? "") eqn:E; [|reflexivity].
  apply String.eqb_eq in E. contradiction.
Qed.

(** What a successful upload in the month of the clock stores, and where. *)
Lemma upload_in_month (data : nat) (p a t id : string) (ts : pyval) (s : State) :
  in_month env y m ts ->
  (List.length (keys_with_prefix (month_dir y m p a t) (objects s)) <= 1000)%nat ->
  exists n s1 doc,
    upload_artifact env data p a t id ts s
    = (Ok (mkUpload (PDict []) (month_dir y m p a t ++ artifact_name n id)%string
                    (bucket_name env) n), s1)
    /\ objects s1
       = put_object (objects s) (month_dir y m p a t ++ artifact_name n id)%string doc.
Proof.
  intros Hts Hcap.
  set (dir := month_dir y m p a t) in *.
  set (n := (max_seq_from 0 (keys_with_prefix dir (objects s)) + 1)%Z).
  assert (Hn : (1 <= n)%Z)
    by (pose proof (max_seq_from_ge (keys_with_prefix dir (objects s)) 0); lia).
  pose proof (get_artifact_sequence_number_value env y m Hserv Hclock p a t s) as G.
  fold dir n in G. specialize (G Hcap).
  destruct (format_path_value env y m Hclock p a t id ts n (set_tick (S (S (tick s))) s)
                              Hts Hn) as (u & F & [(O & _) _]).
  fold dir in F.
  exists n. eexists. eexists. split.
  - unfold upload_artifact, bind at 1. rewrite G.
    unfold bind at 1. rewrite F.
    unfold setitem, deref, upload_json, bind, service_call, modify, ret.
    rewrite Hserv. reflexivity.
  - cbn [objects set_objects set_tick set_heap]. rewrite O. reflexivity.
Qed.

(** An artifact that has just been uploaded with a timestamp of the clock's
    month (or none, or one that [datetime.fromisoformat] rejects) appears in
    the listing of its project, that year and month as [strftime] prints
    them, agent and type, as long as the directory is not larger than the
    page asked for. *)
Theorem an_uploaded_artifact_is_listed
        (data : nat) (p a t id : string) (ts : pyval) (max_items : nat) (s : State)
        (Hts : in_month env y m ts)
        (Hp : p <> "") (Ha : a <> "") (Ht : t <> "")
        (Hyear : (1 <= y)%Z)
        (Hmonth : (1 <= m)%Z)
        (Hpage : (max_items <= 1000)%nat)
        (Hcap : (List.length (keys_with_prefix (month_dir y m p a t) (objects s))
                 < max_items)%nat) :
  exists r s1 found s2,
    upload_artifact env data p a t id ts s = (Ok r, s1)
    /\ list_artifacts env info (PStr p) (PStr (str_of_int y)) (PStr (pad2 m))
                      (PStr a) (PStr t) max_items s1 = (Ok found, s2)
    /\ In (listed info (s3_key r)) found.
Proof.
  destruct (upload_in_month data p a t id ts s Hts ltac:(lia)) as (n & s1 & doc & U & Obj).
  set (dir := month_dir y m p a t) in *.
  set (key := (dir ++ artifact_name n id)%string) in *.
  assert (Hdir : ((((("projects/" ++ str_of_int y ++ "/") ++ pad2 m ++ "/") ++ p ++ "/")
                     ++ a ++ "/") ++ t ++ "/")%string = dir).
  { unfold dir, month_dir, artifact_prefix, strftime_Y, strftime_m. cbn [year month].
    rewrite !append_assoc. reflexivity. }
  assert (Hlen : (List.length (keys_with_prefix dir (objects s1)) <= max_items)%nat).
  { rewrite Obj.
    pose proof (length_keys_put_object dir (objects s) key doc). lia. }
  eexists. exists s1. eexists. eexists.
  split; [exact U|]. split.
  - unfold list_artifacts, listing_prefix. cbv zeta.
    rewrite (text_truthy p Hp), (text_truthy a Ha), (text_truthy t Ht),
            (year_truthy y Hyear), (pad2_truthy m Hmonth).
    cbn [negb orb str]. unfold bind at 1. unfold bind at 1. unfold ret at 1.
    unfold ret at 1. rewrite Hdir.
    unfold list_objects_v2, bind, service_call, gets, ret. rewrite Hserv.
    cbn [objects set_tick].
    rewrite firstn_all2 by lia. reflexivity.
  - cbn [s3_key]. apply in_map. rewrite Obj. apply key_in_put_object. apply prefix_app.
Qed.

End SameMonth.

(** What the service reports of an object, here the same for all. *)
Definition plain_info (key : string) : object_info := mkInfo 2 "2024-01-10T08:00:00" "etag".

Lemma listing_is_bounded_example :
  exists found s',
    list_artifacts Fixture.env plain_info (PStr "proj123") PNone PNone PNone PNone 1
                   january_bucket = (Ok found, s')
    /\ (List.length found <= 1)%nat
    /\ (List.length found <= 1000)%nat
    /\ calm january_bucket s'
    /\ exists keys, found = map (listed plain_info) keys
                    /\ forall k, In k keys ->
                                 prefix "projects/" k = true
                                 /\ has_key (objects january_bucket) k = true.
Proof.
  eexists. eexists. split; [vm_compute; reflexivity|].
  eapply (listing_is_bounded_and_under_projects Fixture.env plain_info (PStr "proj123")
            PNone PNone PNone PNone 1 january_bucket).
  vm_compute. reflexivity.
Defined.

Lemma a_year_alone_example :
  list_artifacts Fixture.env plain_info (PStr "proj123") (PStr "2023") PNone PNone PNone 10
                 january_bucket
  = (Ok (map (listed plain_info)
             (firstn (Nat.min 10 1000)
                     (keys_with_prefix "projects/2023/2024/01/proj123/"
                                       (objects january_bucket)))),
     set_tick 3 january_bucket).
Proof.
  apply (a_year_alone_is_kept_in_front_of_the_current_month Fixture.env plain_info
           "proj123" "2023" PNone 10 january_bucket).
  - discriminate.
  - discriminate.
  - reflexivity.
  - reflexivity.
Defined.

Lemma an_uploaded_artifact_is_listed_example :
  exists r s1 found s2,
    upload_artifact Fixture.env 0 "proj123" "product_manager" "analysis" "abc123"
                    (PStr "2024-01-15T09:00:00Z") january_bucket = (Ok r, s1)
    /\ list_artifacts Fixture.env plain_info (PStr "proj123") (PStr (str_of_int 2024))
                      (PStr (pad2 1)) (PStr "product_manager") (PStr "analysis") 10 s1
       = (Ok found, s2)
    /\ In (listed plain_info (s3_key r)) found.
Proof.
  apply (an_uploaded_artifact_is_listed Fixture.env plain_info 2024 1).
  - intros n. reflexivity.
  - intros n. split; reflexivity.
  - cbn. split; reflexivity.
  - discriminate.
  - discriminate.
  - discriminate.
  - lia.
  - lia.
  - lia.
  - vm_compute. lia.
Defined.

End ListingFacts.

(* ================================================================== *)
(** ** The Lambda entry points *)
(* ================================================================== *)

Module LambdaFacts.

Import LLMClient S3Client AgentBase AgentOps Operations Lambda Frames AgentFacts
       MaterialsFacts AgentBaseFacts OperationFacts.





Lemma get_or_present (d : dict) (k : string) (v a : pyval) :
  get d k = Some v -> get_or d k a = v.
Proof. intros H. unfold get_or. rewrite H. reflexivity. Qed.

Lemma has_key_get (d : dict) (k : string) :
  has_key d k = true -> exists v, get d k = Some v.
Proof.
  unfold has_key. destruct (get d k) as [v|]; [intros _; exists v; reflexivity|discriminate].
Qed.



Section WithEnv.
Variable env : Env.
Variable dumps_text : pyval -> string.






(** The handler never raises; a call from a Bedrock agent is answered in
    the agent's format, with the call's action group and function, also when
    the call fails. *)
Theorem handler_always_answers (a : agent) (event : dict) (s : State) :
  exists v s',
    handler env dumps_text a event s = (Ok v, s')
    /\ (bedrock_call event = true ->
        exists body,
          v = text_response dumps_text (get_or event "actionGroup" PNone)
                            (get_or event "function" PNone) body).
Proof.
  unfold handler, try_except.
  destruct (bedrock_call event) eqn:B.
  - apply andb_prop in B as [G F].
    apply has_key_get in G as (g & G). apply has_key_get in F as (f & F).
    rewrite !(get_or_present _ _ _ _ G), !(get_or_present _ _ _ _ F).
    match goal with
    | |- context [match ?c s with _ => _ end] => destruct (c s) as [[v|e] s1] eqn:R
    end.
    + exists v, s1. split; [reflexivity|]. intros _.
      apply bind_ok in R as (pt & s2 & _ & R).
      apply bind_ok in R as (ps & s3 & _ & R).
      apply bind_ok in R as (inp & s4 & _ & R).
      apply bind_ok in R as (result & s5 & _ & R).
      injection R as <- _. exists result. reflexivity.
    + eexists. eexists. split; [reflexivity|]. intros _. eexists. reflexivity.
  - match goal with
    | |- context [match ?c s with _ => _ end] => destruct (c s) as [[v|e] s1]
    end; eexists; eexists; (split; [reflexivity|discriminate]).
Qed.

(** The function table changes nothing: whatever the function is called,
    [process] is given its name in lower case. *)
Theorem process_type_is_the_lowercased_function (a : agent) (f : string) :
  get_or (function_to_process a) f (lower f) = lower f.
Proof.
  unfold get_or.
  destruct a; cbn [function_to_process get];
    repeat match goal with
           | |- context [?k =? f] =>
               destruct (String.eqb_spec k f) as [<-|_]; [reflexivity|]
           end;
    reflexivity.
Qed.


End WithEnv.

(** *** Examples *)



End LambdaFacts.
